(** * Dual ADC / DMA / USART test firmware (adc-dual-stm32f103.c)

    A shallow embedding of the STM32F103 test program that converts eight
    ADC channels in dual scan mode, moves the results to memory by DMA and
    prints them over USART1 in ASCII decimal.

    The program is a sequence of calls into libopencm3 and into the ring
    buffer of buffer.h, acting on a handful of globals.  The embedding keeps
    the globals in a record and logs every external call, in program order,
    in a trace; hardware answers (status flags, received bytes) are inputs. *)

From Stdlib Require Import ZArith Lia Ascii String.
From stdpp Require Import base numbers list.

Local Open Scope string_scope.
Local Open Scope list_scope.
Local Open Scope Z_scope.

(** ** C integer types *)

Definition uint8 (x : Z) : Z := x mod 2 ^ 8.
Definition uint16 (x : Z) : Z := x mod 2 ^ 16.
Definition uint32 (x : Z) : Z := x mod 2 ^ 32.

(** Conversion to [int] (32 bits, two's complement). *)
Definition int32 (x : Z) : Z := (x + 2 ^ 31) mod 2 ^ 32 - 2 ^ 31.

(** ** Characters and string literals *)

Definition chr (a : ascii) : Z := Z.of_N (Ascii.N_of_ascii a).

Fixpoint cstring (s : string) : list Z :=
  match s with
  | EmptyString => []
  | String a s' => chr a :: cstring s'
  end.

Definition CR : Z := 13.
Definition LF : Z := 10.

(** ** The ring buffer of buffer.h *)

Module Buffer.

(** Modelled from the spec: buffer.h and its implementation are not part of
    the source file.  "Attributes: head index, tail index, capacity"; one
    slot beyond the configured capacity is reserved to tell a full buffer
    from an empty one; "head == tail means empty". *)
Record t : Type := mk {
  head : Z;
  tail : Z;
  capacity : Z;
  slots : list Z
}.

(** Modelled from the spec: the marker that [get] returns on an empty
    buffer, "a reserved high bit pattern" outside the byte range. *)
Definition EMPTY : Z := 0x100.

(** Modelled from the spec: "one reserved to distinguish full/empty", so the
    ring has one slot more than the capacity; indices advance around it. *)
Definition ring (b : t) : Z := capacity b + 1.
Definition next (b : t) (i : Z) : Z := (i + 1) mod ring b.

Definition is_empty (b : t) : bool := head b =? tail b.
Definition is_full (b : t) : bool := next b (tail b) =? head b.

(** Modelled from the spec: "init(capacity) resets head/tail to zero". *)
Definition init (size : Z) : t :=
  mk 0 0 size (replicate (Z.to_nat (size + 1)) 0).

(** Modelled from the spec: "put(byte) writes at tail and advances it; if
    the buffer is full, the write is a no-op". *)
Definition put (b : t) (data : Z) : t :=
  if is_full b then b
  else mk (head b) (next b (tail b)) (capacity b)
          (<[Z.to_nat (tail b) := data]> (slots b)).

(** Modelled from the spec: "get() reads at head and advances it,
    returning a sentinel value when empty". *)
Definition get (b : t) : Z * t :=
  if is_empty b then (EMPTY, b)
  else (slots b !!! Z.to_nat (head b),
        mk (next b (head b)) (tail b) (capacity b) (slots b)).

(** Number of bytes waiting, the bytes themselves in FIFO order, and the
    room that is left. *)
Definition count (b : t) : Z := (tail b - head b) mod ring b.

Definition contents (b : t) : list Z :=
  map (fun k : nat => slots b !!! Z.to_nat ((head b + Z.of_nat k) mod ring b))
      (seq 0 (Z.to_nat (count b))).

Definition free (b : t) : Z := capacity b - count b.

Record wf (b : t) : Prop := {
  wf_capacity : 0 <= capacity b;
  wf_head : 0 <= head b < ring b;
  wf_tail : 0 <= tail b < ring b;
  wf_slots : length (slots b) = Z.to_nat (ring b)
}.

End Buffer.

(** ** External calls *)

Inductive usart : Set := USART1.
Inductive adc : Set := ADC1 | ADC2.
Inductive timer : Set := TIM2.
Inductive dma : Set := DMA1.
Inductive dma_channel : Set := DMA_CHANNEL1.
Inductive usart_flag : Set := USART_SR_RXNE | USART_SR_TXE.
Inductive register : Set := ADC1_SQR3 | ADC2_SQR3.
Inductive address : Set := addr_ADC1_DR | addr_v.
Inductive buffer_ref : Set := SendBuffer | ReceiveBuffer.

(** A libopencm3 macro whose value the program only passes on. *)
Definition macro : Set := string.

(** One constructor per external function the program calls, with the
    arguments it passes; a call that returns a value carries the value the
    environment answered. *)
Inductive call : Set :=
  (* rcc, nvic, gpio *)
  | rcc_clock_setup_in_hse_8mhz_out_72mhz
  | rcc_periph_clock_enable (clk : macro)
  | rcc_peripheral_enable_clock (reg : macro) (en : list macro)
  | nvic_enable_irq (irq : macro)
  | gpio_set_mode (port mode cnf : macro) (pins : list macro)
  (* usart *)
  | usart_set_baudrate (u : usart) (baud : Z)
  | usart_set_databits (u : usart) (bits : Z)
  | usart_set_stopbits (u : usart) (m : macro)
  | usart_set_parity (u : usart) (m : macro)
  | usart_set_flow_control (u : usart) (m : macro)
  | usart_set_mode (u : usart) (m : macro)
  | usart_enable_rx_interrupt (u : usart)
  | usart_enable_tx_interrupt (u : usart)
  | usart_disable_tx_interrupt (u : usart)
  | usart_enable (u : usart)
  | usart_get_flag (u : usart) (f : usart_flag) (result : bool)
  | usart_recv (u : usart) (result : Z)
  | usart_send (u : usart) (data : Z)
  (* dma *)
  | dma_channel_reset (d : dma) (c : dma_channel)
  | dma_set_priority (d : dma) (c : dma_channel) (m : macro)
  | dma_set_memory_size (d : dma) (c : dma_channel) (m : macro)
  | dma_set_peripheral_size (d : dma) (c : dma_channel) (m : macro)
  | dma_enable_memory_increment_mode (d : dma) (c : dma_channel)
  | dma_set_read_from_peripheral (d : dma) (c : dma_channel)
  | dma_set_peripheral_address (d : dma) (c : dma_channel) (a : address)
  | dma_set_memory_address (d : dma) (c : dma_channel) (a : address)
  | dma_set_number_of_data (d : dma) (c : dma_channel) (number : Z)
  | dma_enable_channel (d : dma) (c : dma_channel)
  (* adc *)
  | adc_power_off (a : adc)
  | adc_power_on (a : adc)
  | adc_enable_scan_mode (a : adc)
  | adc_set_single_conversion_mode (a : adc)
  | adc_enable_external_trigger_regular (a : adc) (m : macro)
  | adc_set_right_aligned (a : adc)
  | adc_set_sample_time_on_all_channels (a : adc) (m : macro)
  | adc_enable_dma (a : adc)
  | adc_enable_eoc_interrupt (a : adc)
  | adc_set_dual_mode (m : macro)
  | adc_reset_calibration (a : adc)
  | adc_calibrate_async (a : adc)
  | adc_is_calibrating (a : adc) (result : bool)
  | adc_set_regular_sequence (a : adc) (len : Z) (channel : list Z)
  | adc_start_conversion_regular (a : adc)
  | read_register (r : register) (result : Z)
  (* timer *)
  | timer_reset (t : timer)
  | timer_set_mode (t : timer) (div align dir : macro)
  | timer_continuous_mode (t : timer)
  | timer_set_period (t : timer) (period : Z)
  | timer_enable_oc_output (t : timer) (oc : macro)
  | timer_disable_oc_clear (t : timer) (oc : macro)
  | timer_disable_oc_preload (t : timer) (oc : macro)
  | timer_set_oc_slow_mode (t : timer) (oc : macro)
  | timer_set_oc_mode (t : timer) (oc : macro) (m : macro)
  | timer_set_oc_value (t : timer) (oc : macro) (value : Z)
  | timer_disable_preload (t : timer)
  | timer_enable_counter (t : timer)
  | timer_get_flag (t : timer) (f : macro) (result : bool)
  | timer_clear_flag (t : timer) (f : macro)
  (* buffer.h *)
  | buffer_init (b : buffer_ref) (size : Z)
  | buffer_put (b : buffer_ref) (data : Z)
  | buffer_get (b : buffer_ref) (result : Z).

(** ** Globals *)

Definition BUFFER_SIZE : Z := 128.
Definition V_LENGTH : nat := 128.

Record machine : Type := mkMachine {
  v : list Z;                      (* uint32_t v[128] *)
  n_conv : Z;                      (* uint8_t n_conv = 8 *)
  send_buffer : Buffer.t;          (* uint8_t send_buffer[BUFFER_SIZE+3] *)
  receive_buffer : Buffer.t;       (* uint8_t receive_buffer[BUFFER_SIZE+3] *)
  adc1_2_isr_i : Z;                (* static uint8_t i of adc1_2_isr *)
  usart1_isr_data : Z;             (* static uint16_t data of usart1_isr *)
  trace : list call                (* external calls so far, oldest first *)
}.

(** The globals as the C start-up code leaves them: zero-initialised except
    for [n_conv]; a buffer that was not initialised yet holds nothing. *)
Definition reset : machine :=
  {| v := replicate V_LENGTH 0;
     n_conv := 8;
     send_buffer := Buffer.init 0;
     receive_buffer := Buffer.init 0;
     adc1_2_isr_i := 0;
     usart1_isr_data := 0;
     trace := [] |}.

Definition cmd : Type := machine -> machine.

Definition seq_cmd (f g : cmd) : cmd := fun st => g (f st).
Declare Scope cmd_scope.
Delimit Scope cmd_scope with cmd.
Notation "f ;; g" := (seq_cmd f g)
  (at level 100, g at level 200, right associativity) : cmd_scope.
Local Open Scope cmd_scope.

Definition skip : cmd := fun st => st.

Definition set_v (x : list Z) : cmd := fun st =>
  mkMachine x (n_conv st) (send_buffer st) (receive_buffer st)
            (adc1_2_isr_i st) (usart1_isr_data st) (trace st).
Definition set_buffer (b : buffer_ref) (x : Buffer.t) : cmd := fun st =>
  match b with
  | SendBuffer =>
      mkMachine (v st) (n_conv st) x (receive_buffer st)
                (adc1_2_isr_i st) (usart1_isr_data st) (trace st)
  | ReceiveBuffer =>
      mkMachine (v st) (n_conv st) (send_buffer st) x
                (adc1_2_isr_i st) (usart1_isr_data st) (trace st)
  end.
Definition set_adc1_2_isr_i (x : Z) : cmd := fun st =>
  mkMachine (v st) (n_conv st) (send_buffer st) (receive_buffer st)
            x (usart1_isr_data st) (trace st).
Definition set_usart1_isr_data (x : Z) : cmd := fun st =>
  mkMachine (v st) (n_conv st) (send_buffer st) (receive_buffer st)
            (adc1_2_isr_i st) x (trace st).

Definition buffer_of (b : buffer_ref) (st : machine) : Buffer.t :=
  match b with
  | SendBuffer => send_buffer st
  | ReceiveBuffer => receive_buffer st
  end.

(** Issue one external call: it is appended to the trace. *)
Definition hw (c : call) : cmd := fun st =>
  mkMachine (v st) (n_conv st) (send_buffer st) (receive_buffer st)
            (adc1_2_isr_i st) (usart1_isr_data st) (trace st ++ [c]).

(** [buffer_init(b, size)], [buffer_put(b, data)] and [buffer_get(b)]: the
    call is logged and the buffer changes as buffer.h says.  The data
    parameter of [buffer_put] is a [uint8_t]. *)
Definition do_buffer_init (b : buffer_ref) (size : Z) : cmd :=
  hw (buffer_init b size) ;; set_buffer b (Buffer.init size).

Definition do_buffer_put (b : buffer_ref) (data : Z) : cmd := fun st =>
  (hw (buffer_put b (uint8 data)) ;;
   set_buffer b (Buffer.put (buffer_of b st) (uint8 data))) st.

Definition do_buffer_get (b : buffer_ref) (st : machine) : Z * machine :=
  let (data, b') := Buffer.get (buffer_of b st) in
  (data, (hw (buffer_get b data) ;; set_buffer b b') st).

(** ** Set-up of the peripherals *)

(** [for (i = 0; i < 800000; i++) __asm__("nop");] only lets time pass. *)
Definition nop_delay (count : Z) : cmd := skip.

Definition clock_setup : cmd :=
  hw rcc_clock_setup_in_hse_8mhz_out_72mhz.

Definition usart_setup : cmd :=
  hw (rcc_periph_clock_enable "RCC_GPIOA") ;;
  hw (rcc_periph_clock_enable "RCC_AFIO") ;;
  hw (rcc_periph_clock_enable "RCC_USART1") ;;
  hw (nvic_enable_irq "NVIC_USART1_IRQ") ;;
  hw (gpio_set_mode "GPIOA" "GPIO_MODE_OUTPUT_50_MHZ"
        "GPIO_CNF_OUTPUT_ALTFN_PUSHPULL" ["GPIO_USART1_TX"]) ;;
  hw (gpio_set_mode "GPIOA" "GPIO_MODE_INPUT"
        "GPIO_CNF_INPUT_FLOAT" ["GPIO_USART1_RX"]) ;;
  hw (usart_set_baudrate USART1 38400) ;;
  hw (usart_set_databits USART1 8) ;;
  hw (usart_set_stopbits USART1 "USART_STOPBITS_1") ;;
  hw (usart_set_parity USART1 "USART_PARITY_NONE") ;;
  hw (usart_set_flow_control USART1 "USART_FLOWCONTROL_NONE") ;;
  hw (usart_set_mode USART1 "USART_MODE_TX_RX") ;;
  hw (usart_enable_rx_interrupt USART1) ;;
  hw (usart_disable_tx_interrupt USART1) ;;
  hw (usart_enable USART1).

(** The body of [gpio_setup] is commented out in the source. *)
Definition gpio_setup : cmd := skip.

Definition dma_setup : cmd :=
  hw (rcc_peripheral_enable_clock "RCC_AHBENR" ["RCC_AHBENR_DMA1EN"]) ;;
  hw (dma_channel_reset DMA1 DMA_CHANNEL1) ;;
  hw (dma_set_priority DMA1 DMA_CHANNEL1 "DMA_CCR_PL_LOW") ;;
  hw (dma_set_memory_size DMA1 DMA_CHANNEL1 "DMA_CCR_MSIZE_32BIT") ;;
  hw (dma_set_peripheral_size DMA1 DMA_CHANNEL1 "DMA_CCR_PSIZE_32BIT") ;;
  hw (dma_enable_memory_increment_mode DMA1 DMA_CHANNEL1) ;;
  hw (dma_set_read_from_peripheral DMA1 DMA_CHANNEL1) ;;
  hw (dma_set_peripheral_address DMA1 DMA_CHANNEL1 addr_ADC1_DR) ;;
  hw (dma_set_memory_address DMA1 DMA_CHANNEL1 addr_v) ;;
  hw (dma_set_number_of_data DMA1 DMA_CHANNEL1 64) ;;
  hw (dma_enable_channel DMA1 DMA_CHANNEL1).

(** [while (adc_is_calibrating(a));] The hardware answers the [k]-th poll
    with [busy k].  The result is [None] when the flag was still set at each
    of the [fuel] polls that were made. *)
Fixpoint wait_calibration (a : adc) (busy : nat -> bool) (fuel k : nat)
    (st : machine) : option machine :=
  match fuel with
  | O => None
  | S fuel' =>
      let st' := hw (adc_is_calibrating a (busy k)) st in
      if busy k then wait_calibration a busy fuel' (S k) st' else Some st'
  end.

Definition adc_setup_adc1 : cmd :=
  hw (rcc_peripheral_enable_clock "RCC_APB2ENR"
        ["RCC_APB2ENR_IOPAEN"; "RCC_APB2ENR_AFIOEN"; "RCC_APB2ENR_ADC1EN"]) ;;
  hw (rcc_peripheral_enable_clock "RCC_APB2ENR"
        ["RCC_APB2ENR_IOPAEN"; "RCC_APB2ENR_AFIOEN"; "RCC_APB2ENR_ADC2EN"]) ;;
  hw (nvic_enable_irq "NVIC_ADC1_2_IRQ") ;;
  hw (gpio_set_mode "GPIOA" "GPIO_MODE_INPUT" "GPIO_CNF_INPUT_ANALOG"
        ["GPIO0"; "GPIO1"; "GPIO2"; "GPIO3"; "GPIO4"; "GPIO5"; "GPIO6"; "GPIO7"]) ;;
  hw (adc_power_off ADC1) ;;
  hw (adc_power_off ADC2) ;;
  hw (adc_enable_scan_mode ADC1) ;;
  hw (adc_set_single_conversion_mode ADC1) ;;
  hw (adc_enable_external_trigger_regular ADC1 "ADC_CR2_EXTSEL_SWSTART") ;;
  hw (adc_set_right_aligned ADC1) ;;
  hw (adc_set_sample_time_on_all_channels ADC1 "ADC_SMPR_SMP_28DOT5CYC") ;;
  hw (adc_enable_dma ADC1) ;;
  hw (adc_enable_eoc_interrupt ADC1) ;;
  hw (adc_set_dual_mode "ADC_CR1_DUALMOD_RSM") ;;
  hw (adc_enable_scan_mode ADC2) ;;
  hw (adc_set_single_conversion_mode ADC2) ;;
  hw (adc_enable_external_trigger_regular ADC2 "ADC_CR2_EXTSEL_SWSTART") ;;
  hw (adc_set_right_aligned ADC2) ;;
  hw (adc_set_sample_time_on_all_channels ADC2 "ADC_SMPR_SMP_28DOT5CYC") ;;
  hw (adc_power_on ADC1) ;;
  nop_delay 800000 ;;
  hw (adc_reset_calibration ADC1) ;;
  hw (adc_calibrate_async ADC1).

Definition adc_setup_adc2 : cmd :=
  hw (adc_power_on ADC2) ;;
  nop_delay 800000 ;;
  hw (adc_reset_calibration ADC2) ;;
  hw (adc_calibrate_async ADC2).

(** [adc_setup]: configuration and calibration start of ADC1, the wait for
    its calibration, then the same for ADC2.  [busy1] and [busy2] are the
    answers of the calibration flags of the two units. *)
Definition adc_setup (busy1 busy2 : nat -> bool) (fuel : nat)
    (st : machine) : option machine :=
  match wait_calibration ADC1 busy1 fuel 0 (adc_setup_adc1 st) with
  | None => None
  | Some st1 => wait_calibration ADC2 busy2 fuel 0 (adc_setup_adc2 st1)
  end.

Definition timer_setup : cmd :=
  hw (rcc_peripheral_enable_clock "RCC_APB1ENR" ["RCC_APB1ENR_TIM2EN"]) ;;
  hw (timer_reset TIM2) ;;
  hw (timer_set_mode TIM2 "TIM_CR1_CKD_CK_INT_MUL_4" "TIM_CR1_CMS_EDGE"
        "TIM_CR1_DIR_UP") ;;
  hw (timer_continuous_mode TIM2) ;;
  hw (timer_set_period TIM2 0xFFFF) ;;
  hw (timer_enable_oc_output TIM2 "TIM_OC1") ;;
  hw (timer_disable_oc_clear TIM2 "TIM_OC1") ;;
  hw (timer_disable_oc_preload TIM2 "TIM_OC1") ;;
  hw (timer_set_oc_slow_mode TIM2 "TIM_OC1") ;;
  hw (timer_set_oc_mode TIM2 "TIM_OC1" "TIM_OCM_TOGGLE") ;;
  hw (timer_set_oc_value TIM2 "TIM_OC1" 0x8FFF) ;;
  hw (timer_disable_preload TIM2) ;;
  hw (timer_enable_counter TIM2).

(** ** Printing *)

(** [usart_print_string]: every character up to the terminating zero is put
    into the send buffer. *)
Fixpoint usart_print_string (ch : list Z) : cmd :=
  match ch with
  | [] => skip
  | c :: ch' =>
      if c =? 0 then skip
      else do_buffer_put SendBuffer c ;; usart_print_string ch'
  end.

(** [for (i = n; i > 0; i--) buffer_put(send_buffer, buffer[i-1]);] *)
Fixpoint put_reversed (i : nat) (buffer : list Z) : cmd :=
  match i with
  | O => skip
  | S i' => do_buffer_put SendBuffer (buffer !!! i') ;; put_reversed i' buffer
  end.

(** [while (value > 0) { buffer[nr_digits++] = "0123456789"[value % 10];
    value /= 10; }] on the locals of [usart_print_int]; [fuel] bounds the
    number of rounds. *)
Fixpoint digits_loop (fuel : nat) (value : Z) (buffer : list Z) (nr_digits : Z)
    : Z * list Z * Z :=
  match fuel with
  | O => (value, buffer, nr_digits)
  | S fuel' =>
      if 0 <? value then
        digits_loop fuel' (value ÷ 10)
          (<[Z.to_nat nr_digits := cstring "0123456789" !!! Z.to_nat (Z.rem value 10)]>
             buffer)
          (uint8 (nr_digits + 1))
      else (value, buffer, nr_digits)
  end.

(** The local [char buffer[25]] and the number of rounds it has room for. *)
Definition PRINT_BUFFER : nat := 25.

Definition usart_print_int (value : Z) : cmd := fun st =>
  let buffer := replicate PRINT_BUFFER 0 in
  let '(value, st) :=
    if value <? 0 then (int32 (value * -1), do_buffer_put SendBuffer (chr "-") st)
    else (value, st) in
  let '(_, buffer, nr_digits) :=
    if value =? 0 then (value, <[0%nat := chr "0"]> buffer, 1)
    else digits_loop PRINT_BUFFER value buffer 0 in
  (put_reversed (Z.to_nat nr_digits) buffer ;;
   do_buffer_put SendBuffer (chr " ")) st.

(** [for (i = 0; i < 4; i++) { buffer[i] = "0123456789ABCDEF"[value & 0xF];
    value >>= 4; }] on the locals of [usart_print_hex]. *)
Fixpoint hex_loop (rounds : nat) (i : nat) (value : Z) (buffer : list Z)
    : list Z :=
  match rounds with
  | O => buffer
  | S rounds' =>
      hex_loop rounds' (S i) (uint16 (Z.shiftr value 4))
        (<[i := cstring "0123456789ABCDEF" !!! Z.to_nat (Z.land value 0xF)]> buffer)
  end.

Definition usart_print_hex (value : Z) : cmd :=
  put_reversed 4 (hex_loop 4 0 (uint16 value) (replicate PRINT_BUFFER 0)) ;;
  do_buffer_put SendBuffer (chr " ").

Definition print_register (reg : Z) : cmd :=
  usart_print_hex (Z.land (Z.shiftr reg 16) 0xFFFF) ;;
  usart_print_hex (Z.land (Z.shiftr reg 0) 0xFFFF) ;;
  do_buffer_put SendBuffer (chr " ").

(** ** Interrupt handlers *)

(** The loop of [adc1_2_isr]; the counter is the static [i], a [uint8_t],
    so [fuel] never needs to exceed the 256 values it can take. *)
Fixpoint adc1_2_isr_loop (fuel : nat) (st : machine) : machine :=
  match fuel with
  | O => st
  | S fuel' =>
      let i := adc1_2_isr_i st in
      if i <? n_conv st ÷ 2 then
        adc1_2_isr_loop fuel'
          ((usart_print_int (int32 (Z.land (v st !!! Z.to_nat i) 0xFFFF)) ;;
            usart_print_string (cstring "- ") ;;
            usart_print_int (int32 (Z.shiftr (v st !!! Z.to_nat i) 16)) ;;
            set_adc1_2_isr_i (uint8 (i + 1))) st)
      else st
  end.

Definition adc1_2_isr : cmd :=
  set_adc1_2_isr_i 0 ;;
  adc1_2_isr_loop 256 ;;
  usart_print_string [CR; LF] ;;
  dma_setup ;;
  hw (usart_enable_tx_interrupt USART1).

(** [usart1_isr]: [rxne] and [txe] are the answers of the two status flag
    reads and [rx] the data register as [usart_recv] reads it. *)
Definition usart1_isr (rxne : bool) (rx : Z) (txe : bool) : cmd :=
  hw (usart_get_flag USART1 USART_SR_RXNE rxne) ;;
  (if rxne then
     hw (usart_recv USART1 rx) ;; do_buffer_put ReceiveBuffer rx
   else skip) ;;
  hw (usart_get_flag USART1 USART_SR_TXE txe) ;;
  (if txe then
     fun st =>
       let (data, st) := do_buffer_get SendBuffer st in
       let st := set_usart1_isr_data (uint16 data) st in
       if 0 <? Z.land (usart1_isr_data st) 0xFF00 then
         hw (usart_disable_tx_interrupt USART1) st
       else hw (usart_send USART1 (Z.land (usart1_isr_data st) 0xFF)) st
   else skip).

(** ** main *)

(** [for (i = 0; i < bound; i++) body] over a local [uint16_t i]; [fuel]
    bounds the number of rounds. *)
Fixpoint for_i {S : Type} (fuel : nat) (i : Z) (bound : S -> Z)
    (body : Z -> S -> S) (s : S) : S :=
  match fuel with
  | O => s
  | S fuel' =>
      if i <? bound s then for_i fuel' (uint16 (i + 1)) bound body (body i s)
      else s
  end.

(** [n_conv] is a [uint8_t], so [n_conv/2] rounds are fewer than 128. *)
Definition MAIN_ROUNDS : nat := 128.

(** Lines 80 to 88: the peripherals are set up, the two buffers are
    initialised and the transmit interrupt of USART1 is enabled. *)
Definition main_init (busy1 busy2 : nat -> bool) (fuel : nat)
    (st : machine) : option machine :=
  match adc_setup busy1 busy2 fuel
          ((clock_setup ;; gpio_setup ;; usart_setup ;; dma_setup) st) with
  | None => None
  | Some st' =>
      Some ((timer_setup ;;
             do_buffer_init SendBuffer BUFFER_SIZE ;;
             do_buffer_init ReceiveBuffer BUFFER_SIZE ;;
             hw (usart_enable_tx_interrupt USART1)) st')
  end.

(** [usart_print_int((reg >> shift) % 32)] with one read of the register. *)
Definition print_field (r : register) (value : Z) (shift : Z) : cmd :=
  hw (read_register r (uint32 value)) ;;
  usart_print_int (int32 (Z.rem (Z.shiftr (uint32 value) shift) 32)).

(** Lines 91 to 119: the greeting, the channel sequences of the two units,
    the cleared sample store and the dump of the sequence registers.
    [channel_array] is the local array as the stack holds it on entry;
    [sqr1] and [sqr2] are the contents of ADC1_SQR3 and ADC2_SQR3. *)
Definition main_banner (channel_array : list Z) (sqr1 sqr2 : Z) : cmd := fun st =>
  let st := usart_print_string
              (cstring "Dual ADC 8 channels 0-7 DMA IRQ" ++ [CR; LF]) st in
  let channel_array :=
    for_i MAIN_ROUNDS 0 (fun _ => n_conv st ÷ 2)
      (fun i a => <[Z.to_nat i := uint8 i]> a) channel_array in
  let st := hw (adc_set_regular_sequence ADC1 (n_conv st ÷ 2) channel_array) st in
  let channel_array :=
    for_i MAIN_ROUNDS 0 (fun _ => n_conv st ÷ 2)
      (fun i a => <[Z.to_nat i := uint8 (i + n_conv st ÷ 2)]> a) channel_array in
  let st := hw (adc_set_regular_sequence ADC2 (n_conv st ÷ 2) channel_array) st in
  let st :=
    for_i MAIN_ROUNDS 0 (fun st => n_conv st ÷ 2)
      (fun i st => set_v (<[Z.to_nat i := 0]> (v st)) st) st in
  (usart_print_string (cstring "ADC1_SQR3 fields ") ;;
   print_field ADC1_SQR3 sqr1 0 ;;
   print_field ADC1_SQR3 sqr1 5 ;;
   print_field ADC1_SQR3 sqr1 10 ;;
   print_field ADC1_SQR3 sqr1 15 ;;
   usart_print_string ([CR; LF] ++ cstring "ADC2_SQR3 fields ") ;;
   print_field ADC2_SQR3 sqr2 0 ;;
   print_field ADC2_SQR3 sqr2 5 ;;
   print_field ADC2_SQR3 sqr2 10 ;;
   print_field ADC2_SQR3 sqr2 15 ;;
   usart_print_string [CR; LF]) st.

(** Lines 121 to 130, one poll of the timer flag at a time.  [i] is the
    local counter of the [for] loop.  A poll that finds the flag clear stays
    in the inner [while]; one that finds it set clears the flag and counts;
    when the count reaches 500 the conversion is started and the outer
    [while (1)] begins the next [for] loop at [i = 0]. *)
Definition main_loop_poll (cc1if : bool) (i : Z) (st : machine) : Z * machine :=
  let st := hw (timer_get_flag TIM2 "TIM_SR_CC1IF" cc1if) st in
  if cc1if then
    let st := hw (timer_clear_flag TIM2 "TIM_SR_CC1IF") st in
    let i := uint16 (i + 1) in
    if i <? 500 then (i, st)
    else (0, hw (adc_start_conversion_regular ADC1) st)
  else (i, st).

(** ** What the trace says about the hardware *)

(** The transmit-empty interrupt enable of USART1: set by
    [usart_enable_tx_interrupt], cleared by [usart_disable_tx_interrupt],
    clear out of reset. *)
Definition tx_interrupt_step (enabled : bool) (c : call) : bool :=
  match c with
  | usart_enable_tx_interrupt USART1 => true
  | usart_disable_tx_interrupt USART1 => false
  | _ => enabled
  end.

Definition tx_interrupt_enabled (t : list call) : bool :=
  fold_left tx_interrupt_step t false.

(** The bytes written to the transmit data register of USART1. *)
Definition transmitted (t : list call) : list Z :=
  omap (fun c => match c with usart_send USART1 d => Some d | _ => None end) t.

(** The bytes handed to [buffer_put] for the send buffer. *)
Definition pushed (t : list call) : list Z :=
  omap (fun c => match c with buffer_put SendBuffer d => Some d | _ => None end) t.

(** The registers of DMA1 channel 1. *)
Record dma_registers : Type := mkDma {
  dma_enabled : bool;
  dma_peripheral_address : option address;
  dma_memory_address : option address;
  dma_number_of_data_left : Z
}.

Definition dma_cleared : dma_registers := mkDma false None None 0.

Definition dma_step (r : dma_registers) (c : call) : dma_registers :=
  match c with
  | dma_channel_reset DMA1 DMA_CHANNEL1 => dma_cleared
  | dma_set_peripheral_address DMA1 DMA_CHANNEL1 a =>
      mkDma (dma_enabled r) (Some a) (dma_memory_address r)
            (dma_number_of_data_left r)
  | dma_set_memory_address DMA1 DMA_CHANNEL1 a =>
      mkDma (dma_enabled r) (dma_peripheral_address r) (Some a)
            (dma_number_of_data_left r)
  | dma_set_number_of_data DMA1 DMA_CHANNEL1 n =>
      mkDma (dma_enabled r) (dma_peripheral_address r) (dma_memory_address r) n
  | dma_enable_channel DMA1 DMA_CHANNEL1 =>
      mkDma true (dma_peripheral_address r) (dma_memory_address r)
            (dma_number_of_data_left r)
  | _ => r
  end.

Definition dma_channel1 (t : list call) : dma_registers :=
  fold_left dma_step t dma_cleared.

(** ** The running system *)

(** What can happen once [main] is in its loop: the loop polls the timer
    flag; the DMA channel has stored a burst of samples and the end of
    conversion interrupt is served; the USART1 interrupt is served. *)
Inductive event : Type :=
  | TimerPoll (cc1if : bool)
  | AdcEoc (samples : list Z)
  | UsartIrq (rxne : bool) (rx : Z) (txe : bool).

Record system : Type := mkSystem {
  cpu : machine;
  main_i : Z                       (* uint16_t i of main *)
}.

(** The DMA channel stores 32-bit words from the start of the array it was
    given, and no more of them than the number of data it was programmed
    with. *)
Definition dma_transfer (samples : list Z) : cmd := fun st =>
  let r := dma_channel1 (trace st) in
  match dma_enabled r, dma_memory_address r with
  | true, Some addr_v =>
      let burst :=
        take (Z.to_nat (dma_number_of_data_left r)) (map uint32 samples) in
      set_v (burst ++ drop (length burst) (v st)) st
  | _, _ => st
  end.

(** USART1 raises its interrupt for a received byte (the receive interrupt
    is enabled in [usart_setup] and never disabled) and, while the transmit
    interrupt is enabled, for an empty transmit register. *)
Definition usart1_irq_raised (st : machine) (rxne txe : bool) : bool :=
  rxne || (txe && tx_interrupt_enabled (trace st)).

Definition step (e : event) (s : system) : system :=
  match e with
  | TimerPoll cc1if =>
      let (i, st) := main_loop_poll cc1if (main_i s) (cpu s) in mkSystem st i
  | AdcEoc samples =>
      mkSystem ((dma_transfer samples ;; adc1_2_isr) (cpu s)) (main_i s)
  | UsartIrq rxne rx txe =>
      mkSystem (usart1_isr rxne rx txe (cpu s)) (main_i s)
  end.

Definition run (es : list event) (s : system) : system :=
  fold_left (fun s e => step e s) es s.

(** The events the hardware can deliver in state [s]. *)
Definition deliverable (s : system) (e : event) : bool :=
  match e with
  | UsartIrq rxne rx txe => usart1_irq_raised (cpu s) rxne txe
  | _ => true
  end.

Fixpoint admissible (es : list event) (s : system) : bool :=
  match es with
  | [] => true
  | e :: es' => deliverable s e && admissible es' (step e s)
  end.

(** ** Reading decimal text back *)

Definition is_digit (c : Z) : bool := (chr "0" <=? c) && (c <=? chr "9").

Fixpoint parse_digits (acc : Z) (text : list Z) : option Z :=
  match text with
  | [] => Some acc
  | c :: text' =>
      if is_digit c then parse_digits (acc * 10 + (c - chr "0")) text' else None
  end.

(** An optional minus sign followed by at least one digit, most significant
    digit first. *)
Definition parse_decimal (text : list Z) : option Z :=
  match text with
  | [] => None
  | c :: text' =>
      if c =? chr "-" then
        match text' with
        | [] => None
        | _ => Z.opp <$> parse_digits 0 text'
        end
      else parse_digits 0 text
  end.

(** ** Reference definitions used in the statements *)

(** The effect of putting the bytes of [text] into the send buffer, one
    [buffer_put] after the other. *)
Definition puts (text : list Z) : cmd := fun st =>
  fold_left (fun st c => do_buffer_put SendBuffer c st) text st.

(** Decimal digits of a positive number, least significant first. *)
Fixpoint lsb_digits (fuel : nat) (value : Z) : list Z :=
  match fuel with
  | O => []
  | S fuel' =>
      if 0 <? value then (chr "0" + value mod 10) :: lsb_digits fuel' (value / 10)
      else []
  end.

(** The text of a number: sign, digits, one space. *)
Definition decimal_digits (value : Z) : list Z :=
  if value =? 0 then [chr "0"]
  else reverse (lsb_digits PRINT_BUFFER (Z.abs value)).

Definition decimal_text (value : Z) : list Z :=
  (if value <? 0 then [chr "-"] else []) ++ decimal_digits value ++ [chr " "].

(** The text of one packed sample word: low half, dash, high half. *)
Definition word_text (w : Z) : list Z :=
  decimal_text (Z.land w 0xFFFF) ++ cstring "- " ++
  decimal_text (Z.land (Z.shiftr w 16) 0xFFFF).

(** The calls of one [dma_setup]. *)
Definition dma_setup_calls : list call :=
  [ rcc_peripheral_enable_clock "RCC_AHBENR" ["RCC_AHBENR_DMA1EN"];
    dma_channel_reset DMA1 DMA_CHANNEL1;
    dma_set_priority DMA1 DMA_CHANNEL1 "DMA_CCR_PL_LOW";
    dma_set_memory_size DMA1 DMA_CHANNEL1 "DMA_CCR_MSIZE_32BIT";
    dma_set_peripheral_size DMA1 DMA_CHANNEL1 "DMA_CCR_PSIZE_32BIT";
    dma_enable_memory_increment_mode DMA1 DMA_CHANNEL1;
    dma_set_read_from_peripheral DMA1 DMA_CHANNEL1;
    dma_set_peripheral_address DMA1 DMA_CHANNEL1 addr_ADC1_DR;
    dma_set_memory_address DMA1 DMA_CHANNEL1 addr_v;
    dma_set_number_of_data DMA1 DMA_CHANNEL1 64;
    dma_enable_channel DMA1 DMA_CHANNEL1 ].

Definition is_byte (c : Z) : Prop := 0 <= c < 256.

Definition is_word (w : Z) : Prop := 0 <= w < 2 ^ 32.

(** The line that one pass of [adc1_2_isr] prints. *)
Definition adc_line (st : machine) : list Z :=
  flat_map word_text (take (Z.to_nat (n_conv st ÷ 2)) (v st)) ++ [CR; LF].

(** The formatter as the specification words it: for a packed word [W] the
    low-channel value [W & 0xFFFF] is formatted first, then the marker, then
    the high-channel value [(W >> 16) & 0xFFFF]. *)
Definition format_word (W : Z) : cmd :=
  usart_print_int (Z.land W 0xFFFF) ;;
  usart_print_string (cstring "- ") ;;
  usart_print_int (Z.land (Z.shiftr W 16) 0xFFFF).

Definition format_words (words : list Z) : cmd := fun st =>
  fold_left (fun st W => format_word W st) words st.

(** The globals hold values of their C types. *)
Record machine_ok (st : machine) : Prop := {
  ok_n_conv : 0 <= n_conv st < 256;
  ok_v_length : length (v st) = V_LENGTH;
  ok_v_words : Forall is_word (v st)
}.

(** Two states that the loop of [adc1_2_isr] cannot tell apart. *)
Definition alike (st1 st2 : machine) : Prop :=
  n_conv st1 = n_conv st2
  /\ adc1_2_isr_i st1 = adc1_2_isr_i st2
  /\ 0 <= adc1_2_isr_i st1
  /\ send_buffer st1 = send_buffer st2
  /\ forall k, (k < Z.to_nat (n_conv st1 ÷ 2))%nat -> v st1 !!! k = v st2 !!! k.

(** [st] with [calls] appended to its trace. *)
Definition logged (calls : list call) : cmd := fun st =>
  mkMachine (v st) (n_conv st) (send_buffer st) (receive_buffer st)
            (adc1_2_isr_i st) (usart1_isr_data st) (trace st ++ calls).

(** The calls of one [usart1_isr], where [data] is what [buffer_get]
    returns when the transmit register is found empty. *)
Definition usart1_isr_calls (rxne : bool) (rx : Z) (txe : bool) (data : Z)
    : list call :=
  [usart_get_flag USART1 USART_SR_RXNE rxne] ++
  (if rxne then [usart_recv USART1 rx; buffer_put ReceiveBuffer (uint8 rx)]
   else []) ++
  [usart_get_flag USART1 USART_SR_TXE txe] ++
  (if txe then
     [buffer_get SendBuffer data;
      if 0 <? Z.land (uint16 data) 0xFF00 then usart_disable_tx_interrupt USART1
      else usart_send USART1 (Z.land (uint16 data) 0xFF)]
   else []).

(** The polls of a calibration wait that saw the flag set [n] times and
    then clear. *)
Definition calibration_polls (a : adc) (n : nat) : list call :=
  replicate n (adc_is_calibrating a true) ++ [adc_is_calibrating a false].




(** DMA1 channel 1 as [dma_setup] leaves it. *)
Definition dma_armed : dma_registers :=
  mkDma true (Some addr_ADC1_DR) (Some addr_v) 64.

(** A call that leaves the registers of the DMA channel alone. *)
Definition dma_neutral (c : call) : Prop := forall r, dma_step r c = r.

(** A command that only adds calls satisfying [P] to the trace. *)
Definition emits (P : call -> Prop) (f : cmd) : Prop :=
  forall st, exists calls, trace (f st) = trace st ++ calls /\ Forall P calls.

(** A call that puts nothing into the send buffer. *)
Definition pushes_nothing (c : call) : Prop := pushed [c] = [].

(** A call that neither enables nor disables the transmit interrupt and
    writes nothing to the transmit register. *)
Definition tx_neutral (c : call) : Prop :=
  (forall enabled, tx_interrupt_step enabled c = enabled) /\ transmitted [c] = [].

Definition is_conversion (e : event) : bool :=
  match e with AdcEoc _ => true | _ => false end.

Definition is_reception (e : event) : bool :=
  match e with UsartIrq true _ _ => true | _ => false end.

(** The greeting of [main]. *)
Definition greeting : list Z :=
  cstring "Dual ADC 8 channels 0-7 DMA IRQ" ++ [CR; LF].

(** ** The pace of the main loop *)







(** ** Further reference definitions *)

(** Hexadecimal text read back, most significant digit first. *)

Definition hex_value (c : Z) : option Z :=
  if (chr "0" <=? c) && (c <=? chr "9") then Some (c - chr "0")
  else if (chr "A" <=? c) && (c <=? chr "F") then Some (c - chr "A" + 10)
  else None.

Fixpoint parse_hex (acc : Z) (text : list Z) : option Z :=
  match text with
  | [] => Some acc
  | c :: text' =>
      match hex_value c with
      | Some d => parse_hex (acc * 16 + d) text'
      | None => None
      end
  end.

(** The upper case hexadecimal digit of [k], and the digits of a number,
    least significant first. *)
Definition hex_char (k : Z) : Z := if k <? 10 then chr "0" + k else chr "A" + (k - 10).

Fixpoint hex_lsb (rounds : nat) (value : Z) : list Z :=
  match rounds with
  | O => []
  | S rounds' => hex_char (value mod 16) :: hex_lsb rounds' (value / 16)
  end.


(** The four 5-bit fields of a sequence register as [main] prints them. *)
Definition sqr3_fields (reg : Z) : list Z :=
  flat_map (fun shift => decimal_text ((reg / 2 ^ shift) mod 32)) [0; 5; 10; 15].

(** The text [main] queues before it enters its loop. *)
Definition banner (sqr1 sqr2 : Z) : list Z :=
  greeting ++
  cstring "ADC1_SQR3 fields " ++ sqr3_fields sqr1 ++ [CR; LF] ++
  cstring "ADC2_SQR3 fields " ++ sqr3_fields sqr2 ++ [CR; LF].

(** The calls that program a regular sequence. *)
Definition is_sequence (c : call) : bool :=
  match c with adc_set_regular_sequence _ _ _ => true | _ => false end.

(** A command that does nothing but make calls that satisfy [P]. *)
Definition logs (P : call -> Prop) (f : cmd) : Prop :=
  exists calls, Forall P calls /\ forall st, f st = logged calls st.

(** A call that queues nothing and sends nothing. *)
Definition inert (c : call) : Prop := pushed [c] = [] /\ transmitted [c] = [].

(** The bytes the USART handed over, in the order of their interrupts. *)
Definition received (es : list event) : list Z :=
  omap (fun e => match e with
                 | UsartIrq true rx _ => Some (uint8 rx)
                 | _ => None
                 end) es.

(** * Properties *)

(** ** Integer conversions *)

Lemma uint8_small x : 0 <= x < 256 -> uint8 x = x.
Proof. intros H. unfold uint8. apply Z.mod_small. lia. Qed.

Lemma uint16_small x : 0 <= x < 65536 -> uint16 x = x.
Proof. intros H. unfold uint16. apply Z.mod_small. lia. Qed.

Lemma int32_small x : - 2 ^ 31 <= x < 2 ^ 31 -> int32 x = x.
Proof. intros H. unfold int32. rewrite Z.mod_small; lia. Qed.

Lemma low_half_range w : 0 <= Z.land w 0xFFFF < 65536.
Proof.
  change 0xFFFF with (Z.ones 16). rewrite Z.land_ones by lia.
  apply Z.mod_pos_bound. lia.
Qed.

Lemma high_half_range w : 0 <= w < 2 ^ 32 -> 0 <= Z.shiftr w 16 < 65536.
Proof.
  intros H. rewrite Z.shiftr_div_pow2 by lia. split.
  - apply Z.div_pos; lia.
  - apply Z.div_lt_upper_bound; lia.
Qed.

Lemma high_half_mask w : 0 <= w < 2 ^ 32 -> Z.land (Z.shiftr w 16) 0xFFFF = Z.shiftr w 16.
Proof.
  intros H. change 0xFFFF with (Z.ones 16). rewrite Z.land_ones by lia.
  apply Z.mod_small. apply high_half_range. exact H.
Qed.

(** ** The machine *)

Lemma machine_eta st :
  mkMachine (v st) (n_conv st) (send_buffer st) (receive_buffer st)
            (adc1_2_isr_i st) (usart1_isr_data st) (trace st) = st.
Proof. destruct st; reflexivity. Qed.

Lemma logged_nil st : logged [] st = st.
Proof. unfold logged. rewrite app_nil_r. apply machine_eta. Qed.

Lemma logged_logged a b st : logged b (logged a st) = logged (a ++ b) st.
Proof. unfold logged. cbn. rewrite app_assoc. reflexivity. Qed.

Lemma hw_logged c st : hw c st = logged [c] st.
Proof. reflexivity. Qed.

(** Unfold the state-passing combinators and read the fields back. *)
Ltac run_cmd :=
  cbv beta iota zeta delta
    [seq_cmd skip hw logged do_buffer_put do_buffer_get do_buffer_init
     set_buffer set_v set_adc1_2_isr_i set_usart1_isr_data buffer_of];
  cbn [v n_conv send_buffer receive_buffer adc1_2_isr_i usart1_isr_data trace
       fst snd].

(** [usart1_isr] as one update of the machine. *)
Lemma usart1_isr_spec rxne rx txe st :
  usart1_isr rxne rx txe st =
  mkMachine (v st) (n_conv st)
    (if txe then snd (Buffer.get (send_buffer st)) else send_buffer st)
    (if rxne then Buffer.put (receive_buffer st) (uint8 rx) else receive_buffer st)
    (adc1_2_isr_i st)
    (if txe then uint16 (fst (Buffer.get (send_buffer st))) else usart1_isr_data st)
    (trace st ++
       usart1_isr_calls rxne rx txe (fst (Buffer.get (send_buffer st)))).
Proof.
  unfold usart1_isr, usart1_isr_calls.
  destruct rxne, txe; run_cmd;
    try (destruct (Buffer.get (send_buffer st)) as [data b']; run_cmd;
         destruct (0 <? Z.land (uint16 data) 65280); run_cmd);
    repeat rewrite <- app_assoc; reflexivity.
Qed.

Lemma puts_nil st : puts [] st = st.
Proof. reflexivity. Qed.

Lemma puts_cons c text st :
  puts (c :: text) st = puts text (do_buffer_put SendBuffer c st).
Proof. reflexivity. Qed.

Lemma puts_app a b st : puts (a ++ b) st = puts b (puts a st).
Proof. unfold puts. apply fold_left_app. Qed.

Lemma puts_snoc a c st : puts (a ++ [c]) st = do_buffer_put SendBuffer c (puts a st).
Proof. rewrite puts_app. reflexivity. Qed.

(** What [puts] does to each field. *)
Lemma puts_spec text st :
  puts text st =
  mkMachine (v st) (n_conv st)
            (fold_left Buffer.put (map uint8 text) (send_buffer st))
            (receive_buffer st) (adc1_2_isr_i st) (usart1_isr_data st)
            (trace st ++ map (buffer_put SendBuffer) (map uint8 text)).
Proof.
  revert st. induction text as [|c text IH]; intros st.
  - cbn. rewrite app_nil_r. symmetry. apply machine_eta.
  - rewrite puts_cons, IH. cbn. rewrite <- app_assoc. reflexivity.
Qed.

Lemma usart_print_string_puts ch st :
  Forall (fun c => c <> 0) ch -> usart_print_string ch st = puts ch st.
Proof.
  intros H. revert st. induction H as [|c ch Hc _ IH]; intros st.
  - reflexivity.
  - cbn [usart_print_string]. destruct (Z.eqb_spec c 0) as [->|_]; [done|].
    rewrite puts_cons. unfold seq_cmd. apply IH.
Qed.

Lemma put_reversed_puts n buffer st :
  (n <= length buffer)%nat ->
  put_reversed n buffer st = puts (reverse (take n buffer)) st.
Proof.
  revert st. induction n as [|n IH]; intros st Hn.
  - reflexivity.
  - destruct (lookup_lt_is_Some_2 buffer n) as [x Hx]; [lia|].
    rewrite (take_S_r _ _ _ Hx), reverse_snoc, puts_cons.
    cbn [put_reversed]. unfold seq_cmd.
    rewrite (list_lookup_total_correct _ _ _ Hx). apply IH. lia.
Qed.

(** ** Decimal text *)

Lemma digit_char k : 0 <= k < 10 -> cstring "0123456789" !!! Z.to_nat k = chr "0" + k.
Proof.
  intros H.
  assert (k = 0 \/ k = 1 \/ k = 2 \/ k = 3 \/ k = 4 \/ k = 5 \/ k = 6 \/ k = 7 \/ k = 8 \/ k = 9) as Hk by lia.
  repeat destruct Hk as [->|Hk]; try subst k; reflexivity.
Qed.

Lemma digits_loop_spec fuel : forall value buffer nr,
  0 <= value < 10 ^ Z.of_nat fuel -> 0 <= nr ->
  nr + Z.of_nat fuel <= Z.of_nat (length buffer) -> Z.of_nat (length buffer) < 256 ->
  digits_loop fuel value buffer nr =
    (0,
     take (Z.to_nat nr) buffer ++ lsb_digits fuel value ++
       drop (Z.to_nat nr + length (lsb_digits fuel value)) buffer,
     nr + Z.of_nat (length (lsb_digits fuel value))).
Proof.
  induction fuel as [|fuel IH]; intros value buffer nr Hv Hnr Hlen Hbuf.
  - cbn. change (10 ^ Z.of_nat 0) with 1 in Hv. replace value with 0 by lia.
    rewrite Nat.add_0_r, Z.add_0_r, take_drop. reflexivity.
  - cbn [digits_loop lsb_digits].
    destruct (Z.ltb_spec 0 value) as [Hpos|Hzero].
    + rewrite Z.quot_div_nonneg, Z.rem_mod_nonneg by lia.
      rewrite digit_char by (apply Z.mod_pos_bound; lia).
      rewrite uint8_small by lia.
      rewrite IH; try lia.
      * f_equal; [f_equal|].
        -- replace (Z.to_nat (nr + 1)) with (S (Z.to_nat nr)) by lia.
           rewrite (take_S_r _ _ (chr "0" + value mod 10)).
           2:{ apply list_lookup_insert_eq. lia. }
           rewrite take_insert_ge by lia. rewrite <- app_assoc. cbn [app length].
           rewrite drop_insert_lt by lia.
           replace (S (Z.to_nat nr) + length (lsb_digits fuel (value / 10)))%nat
             with (Z.to_nat nr + S (length (lsb_digits fuel (value / 10))))%nat by lia.
           reflexivity.
        -- cbn [length]. lia.
      * split; [apply Z.div_pos; lia|].
        apply Z.div_lt_upper_bound; [lia|].
        replace (Z.of_nat (S fuel)) with (Z.of_nat fuel + 1) in Hv by lia.
        rewrite Z.pow_add_r in Hv by lia. lia.
      * rewrite length_insert. lia.
      * rewrite length_insert. lia.
    + replace value with 0 by lia. cbn [length app].
      rewrite Nat.add_0_r, Z.add_0_r, take_drop. reflexivity.
Qed.

Lemma lsb_digits_length fuel : forall value, (length (lsb_digits fuel value) <= fuel)%nat.
Proof.
  induction fuel as [|fuel IH]; intros value; cbn [lsb_digits].
  - cbn. lia.
  - destruct (0 <? value); cbn [length]; [specialize (IH (value / 10))|]; lia.
Qed.

Lemma lsb_digits_nonempty fuel value : 0 < value -> lsb_digits (S fuel) value <> [].
Proof.
  intros H. cbn [lsb_digits]. destruct (Z.ltb_spec 0 value); [done|lia].
Qed.

Lemma digit_is_digit k : 0 <= k < 10 -> is_digit (chr "0" + k) = true.
Proof.
  intros H. unfold is_digit. change (chr "0") with 48. change (chr "9") with 57.
  apply andb_true_intro. split; apply Z.leb_le; lia.
Qed.

Lemma lsb_digits_are_digits fuel : forall value,
  Forall (fun c => is_digit c = true) (lsb_digits fuel value).
Proof.
  induction fuel as [|fuel IH]; intros value; cbn [lsb_digits]; [constructor|].
  destruct (Z.ltb_spec 0 value); [|constructor].
  constructor; [|apply IH].
  apply digit_is_digit, Z.mod_pos_bound. lia.
Qed.

Lemma parse_digits_app a : forall acc b,
  parse_digits acc (a ++ b) =
  match parse_digits acc a with Some x => parse_digits x b | None => None end.
Proof.
  induction a as [|c a IH]; intros acc b; cbn [parse_digits app]; [done|].
  destruct (is_digit c); [apply IH|done].
Qed.

Lemma div10_bound value fuel :
  0 <= value < 10 ^ Z.of_nat (S fuel) -> 0 <= value / 10 < 10 ^ Z.of_nat fuel.
Proof.
  intros Hv. split; [apply Z.div_pos; lia|].
  apply Z.div_lt_upper_bound; [lia|].
  replace (Z.of_nat (S fuel)) with (Z.of_nat fuel + 1) in Hv by lia.
  rewrite Z.pow_add_r in Hv by lia. lia.
Qed.

Lemma parse_lsb_digits fuel : forall value,
  0 <= value < 10 ^ Z.of_nat fuel ->
  parse_digits 0 (reverse (lsb_digits fuel value)) = Some value.
Proof.
  induction fuel as [|fuel IH]; intros value Hv.
  - change (10 ^ Z.of_nat 0) with 1 in Hv. cbn. f_equal. lia.
  - cbn [lsb_digits]. destruct (Z.ltb_spec 0 value) as [Hpos|Hzero].
    + rewrite reverse_cons, parse_digits_app, IH by (apply div10_bound; exact Hv).
      cbn [parse_digits].
      rewrite digit_is_digit by (apply Z.mod_pos_bound; lia).
      f_equal. pose proof (Z.div_mod value 10 ltac:(lia)). lia.
    + cbn. f_equal. lia.
Qed.

Lemma digits_loop_start value :
  0 <= value < 2 ^ 31 ->
  digits_loop PRINT_BUFFER value (replicate PRINT_BUFFER 0) 0 =
    (0,
     lsb_digits PRINT_BUFFER value ++
       drop (length (lsb_digits PRINT_BUFFER value)) (replicate PRINT_BUFFER 0),
     Z.of_nat (length (lsb_digits PRINT_BUFFER value))).
Proof.
  intros Hv. rewrite digits_loop_spec.
  - reflexivity.
  - split; [lia|]. eapply Z.lt_trans; [apply Hv|]. reflexivity.
  - lia.
  - rewrite length_replicate. lia.
  - rewrite length_replicate. reflexivity.
Qed.

Lemma put_reversed_digits value st :
  put_reversed (length (lsb_digits PRINT_BUFFER value))
    (lsb_digits PRINT_BUFFER value ++
       drop (length (lsb_digits PRINT_BUFFER value)) (replicate PRINT_BUFFER 0)) st =
  puts (reverse (lsb_digits PRINT_BUFFER value)) st.
Proof.
  rewrite put_reversed_puts.
  - rewrite take_app_length. reflexivity.
  - rewrite length_app. lia.
Qed.

Lemma usart_print_int_puts value st :
  - 2 ^ 31 < value < 2 ^ 31 ->
  usart_print_int value st = puts (decimal_text value) st.
Proof.
  intros Hv. unfold usart_print_int, decimal_text, decimal_digits.
  destruct (Z.ltb_spec value 0) as [Hneg|Hpos].
  - rewrite int32_small by lia.
    destruct (Z.eqb_spec value 0) as [->|_]; [lia|].
    destruct (Z.eqb_spec (value * -1) 0) as [Hz|_]; [lia|].
    replace (Z.abs value) with (value * -1) by lia.
    rewrite digits_loop_start by lia. unfold seq_cmd.
    rewrite Nat2Z.id, put_reversed_digits.
    cbn [app]. rewrite puts_cons, puts_snoc. reflexivity.
  - destruct (Z.eqb_spec value 0) as [->|Hnz].
    + reflexivity.
    + replace (Z.abs value) with value by lia.
      rewrite digits_loop_start by lia. unfold seq_cmd.
      rewrite Nat2Z.id, put_reversed_digits.
      cbn [app]. rewrite puts_snoc. reflexivity.
Qed.

Lemma is_digit_range c : is_digit c = true -> 48 <= c <= 57.
Proof.
  unfold is_digit. change (chr "0") with 48. change (chr "9") with 57.
  intros H. apply andb_prop in H as [H1 H2].
  apply Z.leb_le in H1. apply Z.leb_le in H2. lia.
Qed.

Lemma decimal_digits_are_digits value :
  Forall (fun c => is_digit c = true) (decimal_digits value).
Proof.
  unfold decimal_digits. destruct (value =? 0).
  - constructor; [reflexivity|constructor].
  - apply Forall_reverse, lsb_digits_are_digits.
Qed.

Lemma decimal_digits_nonempty value : decimal_digits value <> [].
Proof.
  unfold decimal_digits. destruct (Z.eqb_spec value 0) as [|Hnz]; [done|].
  change PRINT_BUFFER with (S 24). cbn [lsb_digits].
  destruct (Z.ltb_spec 0 (Z.abs value)); [|lia].
  rewrite reverse_cons. intros Hnil. apply app_nil in Hnil as [_ Hnil]. discriminate.
Qed.

Lemma decimal_text_bytes value : Forall is_byte (decimal_text value).
Proof.
  unfold decimal_text. apply Forall_app. split.
  - destruct (value <? 0); [|constructor].
    constructor; [|constructor]. unfold is_byte. change (chr "-") with 45. lia.
  - apply Forall_app. split.
    + eapply Forall_impl; [apply decimal_digits_are_digits|].
      intros c Hc. apply is_digit_range in Hc. unfold is_byte. lia.
    + constructor; [|constructor]. unfold is_byte. change (chr " ") with 32. lia.
Qed.

Lemma map_uint8_bytes text : Forall is_byte text -> map uint8 text = text.
Proof.
  induction 1 as [|c text Hc _ IH]; [done|].
  cbn [map]. rewrite IH, uint8_small by exact Hc. reflexivity.
Qed.

Lemma pushed_app a b : pushed (a ++ b) = pushed a ++ pushed b.
Proof. apply omap_app. Qed.

Lemma pushed_buffer_put text : pushed (map (buffer_put SendBuffer) text) = text.
Proof. induction text as [|c text IH]; [done|]. cbn. f_equal. exact IH. Qed.

Lemma pushed_dma_setup_calls : pushed dma_setup_calls = [].
Proof. reflexivity. Qed.

Lemma pushed_puts text st :
  Forall is_byte text -> pushed (trace (puts text st)) = pushed (trace st) ++ text.
Proof.
  intros H. rewrite puts_spec. cbn [trace].
  rewrite pushed_app, pushed_buffer_put, map_uint8_bytes by exact H. reflexivity.
Qed.

Lemma parse_decimal_text value :
  - 10 ^ Z.of_nat PRINT_BUFFER < value < 10 ^ Z.of_nat PRINT_BUFFER ->
  parse_decimal ((if value <? 0 then [chr "-"] else []) ++ decimal_digits value)
  = Some value.
Proof.
  intros Hv. unfold decimal_digits.
  destruct (Z.ltb_spec value 0) as [Hneg|Hpos].
  - destruct (Z.eqb_spec value 0) as [|_]; [lia|].
    cbn [app parse_decimal]. rewrite Z.eqb_refl.
    pose proof (decimal_digits_nonempty value) as Hne. unfold decimal_digits in Hne.
    destruct (Z.eqb_spec value 0) as [|_]; [lia|].
    destruct (reverse (lsb_digits PRINT_BUFFER (Z.abs value))) eqn:E; [done|].
    rewrite <- E, parse_lsb_digits by lia. cbn. f_equal. lia.
  - cbn [app]. destruct (Z.eqb_spec value 0) as [->|Hnz]; [reflexivity|].
    pose proof (decimal_digits_nonempty value) as Hne. unfold decimal_digits in Hne.
    destruct (Z.eqb_spec value 0) as [|_]; [lia|].
    pose proof (lsb_digits_are_digits PRINT_BUFFER (Z.abs value)) as Hd.
    apply Forall_reverse in Hd.
    destruct (reverse (lsb_digits PRINT_BUFFER (Z.abs value))) as [|c l] eqn:E; [done|].
    unfold parse_decimal.
    apply Forall_cons in Hd as [Hc _]. apply is_digit_range in Hc.
    destruct (Z.eqb_spec c (chr "-")) as [Hm|_]; [change (chr "-") with 45 in Hm; lia|].
    rewrite <- E, parse_lsb_digits by lia. f_equal. lia.
Qed.

(** C3: for every signed 16-bit value, [usart_print_int] pushes an optional
    minus sign, decimal digits with the most significant first and one
    space; reading the text back gives the value; 0 gives "0 " and -1
    gives "-1 ". *)
Theorem usart_print_int_round_trip (value : Z) (st : machine) :
  -32768 <= value <= 32767 ->
  let sign := if value <? 0 then [chr "-"] else [] in
  exists digits,
    pushed (trace (usart_print_int value st)) =
      pushed (trace st) ++ sign ++ digits ++ [chr " "]
    /\ digits <> []
    /\ Forall (fun c => is_digit c = true) digits
    /\ parse_decimal (sign ++ digits) = Some value
    /\ (value = 0 -> sign ++ digits ++ [chr " "] = cstring "0 ")
    /\ (value = -1 -> sign ++ digits ++ [chr " "] = cstring "-1 ").
Proof.
  intros Hv sign. exists (decimal_digits value).
  split; [|split; [|split; [|split; [|split]]]].
  - rewrite usart_print_int_puts by lia.
    apply (pushed_puts (decimal_text value)), decimal_text_bytes.
  - apply decimal_digits_nonempty.
  - apply decimal_digits_are_digits.
  - apply parse_decimal_text.
    change (10 ^ Z.of_nat PRINT_BUFFER) with 10000000000000000000000000. lia.
  - intros ->. reflexivity.
  - intros ->. reflexivity.
Qed.

Lemma usart_print_int_round_trip_witness :
  exists digits,
    pushed (trace (usart_print_int (-12345) reset)) =
      pushed (trace reset) ++ [chr "-"] ++ digits ++ [chr " "]
    /\ digits <> []
    /\ Forall (fun c => is_digit c = true) digits
    /\ parse_decimal ([chr "-"] ++ digits) = Some (-12345)
    /\ (-12345 = 0 -> [chr "-"] ++ digits ++ [chr " "] = cstring "0 ")
    /\ (-12345 = -1 -> [chr "-"] ++ digits ++ [chr " "] = cstring "-1 ").
Proof. apply (usart_print_int_round_trip (-12345) reset). lia. Defined.

Lemma cstring_dash_nonzero : Forall (fun c => c <> 0) (cstring "- ").
Proof. repeat constructor; discriminate. Qed.

Lemma adc_word_puts w st :
  is_word w ->
  (usart_print_int (int32 (Z.land w 0xFFFF)) ;;
   usart_print_string (cstring "- ") ;;
   usart_print_int (int32 (Z.shiftr w 16))) st = puts (word_text w) st.
Proof.
  intros Hw. unfold seq_cmd, word_text.
  pose proof (low_half_range w) as Hlo.
  pose proof (high_half_range w Hw) as Hhi.
  rewrite high_half_mask by exact Hw.
  rewrite !int32_small by lia.
  rewrite !usart_print_int_puts by lia.
  rewrite usart_print_string_puts by apply cstring_dash_nonzero.
  rewrite !puts_app. reflexivity.
Qed.

Lemma set_i_puts x text st :
  set_adc1_2_isr_i x (puts text st) = puts text (set_adc1_2_isr_i x st).
Proof. rewrite !puts_spec. reflexivity. Qed.

Lemma set_i_set_i x y st :
  set_adc1_2_isr_i x (set_adc1_2_isr_i y st) = set_adc1_2_isr_i x st.
Proof. reflexivity. Qed.

Lemma set_i_same st : set_adc1_2_isr_i (adc1_2_isr_i st) st = st.
Proof. destruct st; reflexivity. Qed.

Lemma adc1_2_isr_loop_spec fuel : forall st,
  0 <= adc1_2_isr_i st <= n_conv st ÷ 2 ->
  n_conv st ÷ 2 < 256 ->
  n_conv st ÷ 2 - adc1_2_isr_i st <= Z.of_nat fuel ->
  (Z.to_nat (n_conv st ÷ 2) <= length (v st))%nat ->
  Forall is_word (take (Z.to_nat (n_conv st ÷ 2)) (v st)) ->
  adc1_2_isr_loop fuel st =
  set_adc1_2_isr_i (n_conv st ÷ 2)
    (puts (flat_map word_text
             (drop (Z.to_nat (adc1_2_isr_i st))
                (take (Z.to_nat (n_conv st ÷ 2)) (v st)))) st).
Proof.
  induction fuel as [|fuel IH]; intros st Hi Hb Hfuel Hlen Hw.
  - replace (n_conv st ÷ 2) with (adc1_2_isr_i st) by lia.
    rewrite drop_ge by (rewrite length_take; lia).
    cbn. apply eq_sym, set_i_same.
  - cbn [adc1_2_isr_loop].
    destruct (Z.ltb_spec (adc1_2_isr_i st) (n_conv st ÷ 2)) as [Hlt|Hge].
    + destruct (lookup_lt_is_Some_2 (v st) (Z.to_nat (adc1_2_isr_i st)))
        as [w Hw_at]; [lia|].
      assert (is_word w) as Hword.
      { apply (Forall_lookup_1 _ _ (Z.to_nat (adc1_2_isr_i st)) _ Hw).
        rewrite lookup_take_lt by lia. exact Hw_at. }
      rewrite (list_lookup_total_correct _ _ _ Hw_at).
      change ((usart_print_int (int32 (Z.land w 0xFFFF)) ;;
               usart_print_string (cstring "- ") ;;
               usart_print_int (int32 (Z.shiftr w 16)) ;;
               set_adc1_2_isr_i (uint8 (adc1_2_isr_i st + 1))) st)
        with (set_adc1_2_isr_i (uint8 (adc1_2_isr_i st + 1))
                ((usart_print_int (int32 (Z.land w 0xFFFF)) ;;
                  usart_print_string (cstring "- ") ;;
                  usart_print_int (int32 (Z.shiftr w 16))) st)).
      rewrite adc_word_puts by exact Hword.
      rewrite uint8_small by lia.
      rewrite IH; rewrite puts_spec; cbn [adc1_2_isr_i n_conv v set_adc1_2_isr_i];
        try lia; try assumption.
      rewrite (drop_S _ w (Z.to_nat (adc1_2_isr_i st))).
      2:{ rewrite lookup_take_lt by lia. exact Hw_at. }
      cbn [flat_map]. rewrite !puts_spec.
      cbn [adc1_2_isr_i n_conv v set_adc1_2_isr_i send_buffer receive_buffer
           usart1_isr_data trace].
      replace (Z.to_nat (adc1_2_isr_i st + 1)) with (S (Z.to_nat (adc1_2_isr_i st))) by lia.
      rewrite !map_app, fold_left_app, <- !app_assoc. reflexivity.
    + replace (n_conv st ÷ 2) with (adc1_2_isr_i st) by lia.
      rewrite drop_ge by (rewrite length_take; lia).
      cbn. apply eq_sym, set_i_same.
Qed.

(** ** The ring buffer *)

Section BufferFacts.
Import Buffer.

Lemma mod_succ x r : 0 <= x < r -> (x + 1) mod r = if x + 1 <? r then x + 1 else 0.
Proof.
  intros H. destruct (Z.ltb_spec (x + 1) r).
  - apply Z.mod_small. lia.
  - replace (x + 1) with r by lia. apply Z.mod_same. lia.
Qed.

Lemma mod_diff a b r :
  0 <= a < r -> 0 <= b < r -> (a - b) mod r = if b <=? a then a - b else a - b + r.
Proof.
  intros Ha Hb. destruct (Z.leb_spec b a).
  - apply Z.mod_small. lia.
  - symmetry. apply (Z.mod_unique_pos _ _ (-1)); lia.
Qed.

Lemma mod_sum a b r :
  0 <= a < r -> 0 <= b < r -> (a + b) mod r = if a + b <? r then a + b else a + b - r.
Proof.
  intros Ha Hb. destruct (Z.ltb_spec (a + b) r).
  - apply Z.mod_small. lia.
  - symmetry. apply (Z.mod_unique_pos _ _ 1); lia.
Qed.

Lemma count_range b : wf b -> 0 <= count b <= capacity b.
Proof.
  intros [Hc Hh Ht _]. unfold count, ring in *.
  pose proof (Z.mod_pos_bound (tail b - head b) (capacity b + 1) ltac:(lia)). lia.
Qed.

Lemma free_full b : wf b -> 0 < free b -> is_full b = false.
Proof.
  intros [Hc Hh Ht _]. unfold free, count, is_full, next.
  rewrite mod_diff, mod_succ by assumption.
  unfold ring in *. intros Hfree. apply Z.eqb_neq.
  destruct (Z.leb_spec (head b) (tail b)), (Z.ltb_spec (tail b + 1) (capacity b + 1)); lia.
Qed.

Lemma wf_put b x : wf b -> wf (put b x).
Proof.
  intros Hwf. unfold put. destruct (is_full b); [exact Hwf|].
  destruct Hwf as [Hc Hh Ht Hs]. constructor; cbn; try assumption.
  - unfold next, ring in *. cbn. apply Z.mod_pos_bound. lia.
  - rewrite length_insert. exact Hs.
Qed.

Lemma count_put b x : wf b -> 0 < free b -> count (put b x) = count b + 1.
Proof.
  intros Hwf Hfree. unfold put. rewrite free_full by assumption.
  destruct Hwf as [Hc Hh Ht Hs].
  unfold free, count, next in *. cbn [head tail capacity ring].
  unfold ring in *. cbn [capacity].
  rewrite mod_succ by assumption.
  rewrite mod_diff in Hfree by assumption.
  rewrite (mod_diff (tail b)) by assumption.
  destruct (Z.ltb_spec (tail b + 1) (capacity b + 1)).
  - rewrite mod_diff by lia.
    destruct (Z.leb_spec (head b) (tail b)), (Z.leb_spec (head b) (tail b + 1)); lia.
  - rewrite mod_diff by lia.
    destruct (Z.leb_spec (head b) (tail b)), (Z.leb_spec (head b) 0); lia.
Qed.

Lemma free_put b x : wf b -> 0 < free b -> free (put b x) = free b - 1.
Proof.
  intros Hwf Hfree. unfold free at 1. rewrite count_put by assumption.
  unfold put. rewrite free_full by assumption. cbn. unfold free. lia.
Qed.

Lemma contents_put b x : wf b -> 0 < free b -> contents (put b x) = contents b ++ [x].
Proof.
  intros Hwf Hfree. unfold contents. rewrite count_put by assumption.
  pose proof (count_range b Hwf) as Hcount.
  replace (Z.to_nat (count b + 1)) with (S (Z.to_nat (count b))) by lia.
  rewrite seq_S, map_app. cbn [map Nat.add].
  unfold put. rewrite free_full by assumption.
  destruct Hwf as [Hc Hh Ht Hs].
  unfold free, count, ring in *. cbn [head slots capacity].
  rewrite mod_diff in * by assumption.
  f_equal.
  - apply map_ext_in. intros k Hk. apply in_seq in Hk.
    apply list_lookup_total_insert_ne.
    intros Heq. apply Z2Nat.inj in Heq; [|lia|apply Z.mod_pos_bound; lia].
    rewrite mod_sum in Heq.
    + destruct (Z.leb_spec (head b) (tail b)),
        (Z.ltb_spec (head b + Z.of_nat k) (capacity b + 1)); lia.
    + assumption.
    + destruct (Z.leb_spec (head b) (tail b)); lia.
  - rewrite Z2Nat.id by lia.
    replace ((head b + (if head b <=? tail b then tail b - head b
                        else tail b - head b + (capacity b + 1)))
             mod (capacity b + 1)) with (tail b).
    + rewrite list_lookup_total_insert_eq by lia. reflexivity.
    + destruct (Z.leb_spec (head b) (tail b)).
      * rewrite Z.mod_small; lia.
      * apply (Z.mod_unique_pos _ _ 1); lia.
Qed.

Lemma puts_contents text : forall b,
  wf b -> Z.of_nat (length text) <= free b ->
  wf (fold_left put text b)
  /\ contents (fold_left put text b) = contents b ++ text
  /\ free (fold_left put text b) = free b - Z.of_nat (length text).
Proof.
  induction text as [|c text IH]; intros b Hwf Hfree.
  - cbn. rewrite app_nil_r. split; [assumption|split; [reflexivity|lia]].
  - cbn [fold_left length] in *.
    destruct (IH (put b c)) as (Hwf' & Hc' & Hf').
    + apply wf_put, Hwf.
    + rewrite free_put by (assumption || lia). lia.
    + split; [assumption|split].
      * rewrite Hc', contents_put by (assumption || lia).
        rewrite <- app_assoc. reflexivity.
      * rewrite Hf', free_put by (assumption || lia). lia.
Qed.

Lemma wf_init size : 0 <= size -> wf (init size).
Proof.
  intros H. constructor; cbn; unfold ring; cbn; try lia.
  rewrite length_replicate. reflexivity.
Qed.

Lemma get_empty b : head b = tail b -> get b = (EMPTY, b).
Proof. intros H. unfold get, is_empty. rewrite H, Z.eqb_refl. reflexivity. Qed.

End BufferFacts.

(** ** The conversion-complete handler *)

Lemma word_text_bytes w : Forall is_byte (word_text w).
Proof.
  unfold word_text.
  apply Forall_app; split; [apply decimal_text_bytes|].
  apply Forall_app; split; [|apply decimal_text_bytes].
  change (cstring "- ") with [45; 32].
  apply Forall_cons_2; [unfold is_byte; lia|].
  apply Forall_cons_2; [unfold is_byte; lia|]. apply Forall_nil_2.
Qed.

Lemma adc_line_bytes st : Forall is_byte (adc_line st).
Proof.
  unfold adc_line. apply Forall_app. split.
  - induction (take (Z.to_nat (n_conv st ÷ 2)) (v st)) as [|w l IH]; [constructor|].
    cbn [flat_map]. apply Forall_app. split; [apply word_text_bytes|exact IH].
  - apply Forall_cons_2; [unfold is_byte, CR; lia|].
    apply Forall_cons_2; [unfold is_byte, LF; lia|]. apply Forall_nil_2.
Qed.

Lemma trace_dma_setup st : trace (dma_setup st) = trace st ++ dma_setup_calls.
Proof. cbn. rewrite <- !app_assoc. reflexivity. Qed.

Lemma dma_setup_spec st :
  dma_setup st =
  mkMachine (v st) (n_conv st) (send_buffer st) (receive_buffer st)
            (adc1_2_isr_i st) (usart1_isr_data st) (trace st ++ dma_setup_calls).
Proof.
  unfold dma_setup, seq_cmd. rewrite !hw_logged, !logged_logged. reflexivity.
Qed.

Lemma adc1_2_isr_spec st :
  0 <= n_conv st < 256 ->
  (Z.to_nat (n_conv st ÷ 2) <= length (v st))%nat ->
  Forall is_word (take (Z.to_nat (n_conv st ÷ 2)) (v st)) ->
  adc1_2_isr st =
  mkMachine (v st) (n_conv st)
            (fold_left Buffer.put (adc_line st) (send_buffer st))
            (receive_buffer st) (n_conv st ÷ 2) (usart1_isr_data st)
            (trace st ++ map (buffer_put SendBuffer) (adc_line st) ++
               dma_setup_calls ++ [usart_enable_tx_interrupt USART1]).
Proof.
  intros Hn Hlen Hw.
  assert (0 <= n_conv st ÷ 2 < 128) as Hb.
  { rewrite Z.quot_div_nonneg by lia. split; [apply Z.div_pos; lia|].
    apply Z.div_lt_upper_bound; lia. }
  unfold adc1_2_isr, seq_cmd.
  rewrite adc1_2_isr_loop_spec; cbn [set_adc1_2_isr_i adc1_2_isr_i n_conv v];
    try lia; try assumption.
  change (Z.to_nat 0) with 0%nat. rewrite drop_0.
  rewrite usart_print_string_puts by (repeat constructor; discriminate).
  rewrite set_i_puts, <- puts_app.
  fold (adc_line st).
  rewrite dma_setup_spec, puts_spec.
  rewrite (map_uint8_bytes _ (adc_line_bytes st)).
  rewrite hw_logged. unfold logged, set_adc1_2_isr_i.
  cbn [trace v n_conv send_buffer receive_buffer adc1_2_isr_i usart1_isr_data].
  repeat rewrite <- app_assoc. reflexivity.
Qed.

(** ** Commands that only put bytes into the send buffer *)

Lemma put_reversed_only_puts n buffer :
  exists text, forall st, put_reversed n buffer st = puts text st.
Proof.
  induction n as [|n [text IH]].
  - exists []. reflexivity.
  - exists (buffer !!! n :: text). intros st.
    cbn [put_reversed]. unfold seq_cmd. rewrite puts_cons. apply IH.
Qed.

Lemma usart_print_int_only_puts value :
  exists text, forall st, usart_print_int value st = puts text st.
Proof.
  unfold usart_print_int.
  destruct (value <? 0).
  - destruct (if int32 (value * -1) =? 0
              then (int32 (value * -1), <[0%nat:=chr "0"]> (replicate PRINT_BUFFER 0), 1)
              else digits_loop PRINT_BUFFER (int32 (value * -1)) (replicate PRINT_BUFFER 0) 0)
      as [[x buffer] nr_digits].
    destruct (put_reversed_only_puts (Z.to_nat nr_digits) buffer) as [text Ht].
    exists ([chr "-"] ++ text ++ [chr " "]). intros st.
    unfold seq_cmd. rewrite Ht, !puts_app. reflexivity.
  - destruct (if value =? 0
              then (value, <[0%nat:=chr "0"]> (replicate PRINT_BUFFER 0), 1)
              else digits_loop PRINT_BUFFER value (replicate PRINT_BUFFER 0) 0)
      as [[x buffer] nr_digits].
    destruct (put_reversed_only_puts (Z.to_nat nr_digits) buffer) as [text Ht].
    exists (text ++ [chr " "]). intros st.
    unfold seq_cmd. rewrite Ht, !puts_app. reflexivity.
Qed.

Lemma usart_print_string_only_puts ch :
  exists text, forall st, usart_print_string ch st = puts text st.
Proof.
  induction ch as [|c ch [text IH]].
  - exists []. reflexivity.
  - cbn [usart_print_string]. destruct (c =? 0).
    + exists []. reflexivity.
    + exists (c :: text). intros st. unfold seq_cmd. rewrite puts_cons. apply IH.
Qed.

(** The text that the loop body prints for the word [w]. *)
Lemma adc_word_only_puts w :
  exists text, forall st,
    (usart_print_int (int32 (Z.land w 0xFFFF)) ;;
     usart_print_string (cstring "- ") ;;
     usart_print_int (int32 (Z.shiftr w 16))) st = puts text st.
Proof.
  destruct (usart_print_int_only_puts (int32 (Z.land w 0xFFFF))) as [t1 H1].
  destruct (usart_print_string_only_puts (cstring "- ")) as [t2 H2].
  destruct (usart_print_int_only_puts (int32 (Z.shiftr w 16))) as [t3 H3].
  exists (t1 ++ t2 ++ t3). intros st.
  unfold seq_cmd. rewrite H1, H2, H3, !puts_app. reflexivity.
Qed.

Lemma adc1_2_isr_loop_alike fuel : forall st1 st2,
  alike st1 st2 ->
  exists text i,
    adc1_2_isr_loop fuel st1 = set_adc1_2_isr_i i (puts text st1)
    /\ adc1_2_isr_loop fuel st2 = set_adc1_2_isr_i i (puts text st2).
Proof.
  induction fuel as [|fuel IH]; intros st1 st2 (Hn & Hi & Hi0 & Hb & Hv).
  - exists [], (adc1_2_isr_i st1). cbn [adc1_2_isr_loop].
    rewrite !puts_nil. rewrite Hi at 2. rewrite !set_i_same. done.
  - cbn [adc1_2_isr_loop]. rewrite <- Hn, <- Hi.
    destruct (Z.ltb_spec (adc1_2_isr_i st1) (n_conv st1 ÷ 2)) as [Hlt|Hge].
    + rewrite <- (Hv (Z.to_nat (adc1_2_isr_i st1))) by lia.
      destruct (adc_word_only_puts (v st1 !!! Z.to_nat (adc1_2_isr_i st1)))
        as [text Htext].
      set (w := v st1 !!! Z.to_nat (adc1_2_isr_i st1)) in *.
      set (i1 := uint8 (adc1_2_isr_i st1 + 1)).
      assert (forall st,
        (usart_print_int (int32 (Z.land w 0xFFFF)) ;;
         usart_print_string (cstring "- ") ;;
         usart_print_int (int32 (Z.shiftr w 16)) ;;
         set_adc1_2_isr_i i1) st = set_adc1_2_isr_i i1 (puts text st)) as Hbody.
      { intros st. rewrite <- Htext. reflexivity. }
      rewrite !Hbody.
      destruct (IH (set_adc1_2_isr_i i1 (puts text st1))
                   (set_adc1_2_isr_i i1 (puts text st2))) as (text' & i' & H1 & H2).
      { rewrite !puts_spec. unfold alike. cbn. repeat split; try done.
        - unfold i1, uint8. apply Z.mod_pos_bound. lia.
        - rewrite Hb. reflexivity. }
      exists (text ++ text'), i'. rewrite H1, H2.
      repeat (rewrite <- set_i_puts || rewrite set_i_set_i).
      rewrite !puts_app. done.
    + exists [], (adc1_2_isr_i st1). rewrite !puts_nil.
      rewrite Hi at 2. rewrite !set_i_same. done.
Qed.

Lemma adc1_2_isr_alike st1 st2 :
  n_conv st1 = n_conv st2 ->
  take (Z.to_nat (n_conv st1 ÷ 2)) (v st1) = take (Z.to_nat (n_conv st2 ÷ 2)) (v st2) ->
  send_buffer st1 = send_buffer st2 ->
  exists text i,
    adc1_2_isr st1 =
      (set_adc1_2_isr_i i ;; puts text ;; dma_setup ;;
       hw (usart_enable_tx_interrupt USART1)) st1
    /\ adc1_2_isr st2 =
      (set_adc1_2_isr_i i ;; puts text ;; dma_setup ;;
       hw (usart_enable_tx_interrupt USART1)) st2.
Proof.
  intros Hn Hv Hb.
  destruct (adc1_2_isr_loop_alike 256 (set_adc1_2_isr_i 0 st1) (set_adc1_2_isr_i 0 st2))
    as (text & i & H1 & H2).
  { unfold alike. cbn. repeat split; try done.
    intros k Hk. rewrite <- Hn in Hv.
    rewrite <- (lookup_total_take_lt (v st1) _ k Hk),
            <- (lookup_total_take_lt (v st2) _ k Hk), Hv. reflexivity. }
  destruct (usart_print_string_only_puts [CR; LF]) as [crlf Hcrlf].
  exists (text ++ crlf), i.
  unfold adc1_2_isr, seq_cmd. rewrite H1, H2, !Hcrlf.
  repeat (rewrite <- set_i_puts || rewrite set_i_set_i).
  rewrite !puts_app. done.
Qed.

(** The handler once the text of its loop is known. *)
Lemma adc1_2_isr_tail i text st :
  (set_adc1_2_isr_i i ;; puts text ;; dma_setup ;;
   hw (usart_enable_tx_interrupt USART1)) st =
  mkMachine (v st) (n_conv st)
            (fold_left Buffer.put (map uint8 text) (send_buffer st))
            (receive_buffer st) i (usart1_isr_data st)
            (trace st ++ map (buffer_put SendBuffer) (map uint8 text) ++
               dma_setup_calls ++ [usart_enable_tx_interrupt USART1]).
Proof.
  unfold seq_cmd. rewrite hw_logged, dma_setup_spec.
  fold (logged dma_setup_calls (puts text (set_adc1_2_isr_i i st))).
  rewrite logged_logged, puts_spec. unfold logged, set_adc1_2_isr_i.
  cbn [v n_conv send_buffer receive_buffer adc1_2_isr_i usart1_isr_data trace].
  rewrite <- app_assoc. reflexivity.
Qed.

Lemma adc1_2_isr_calls st :
  exists text,
    trace (adc1_2_isr st) =
      trace st ++ map (buffer_put SendBuffer) text ++ dma_setup_calls ++
        [usart_enable_tx_interrupt USART1].
Proof.
  destruct (adc1_2_isr_alike st st) as (text & i & H & _); try done.
  exists (map uint8 text). rewrite H, adc1_2_isr_tail. reflexivity.
Qed.

Lemma tx_interrupt_enabled_app a b :
  tx_interrupt_enabled (a ++ b) = fold_left tx_interrupt_step b (tx_interrupt_enabled a).
Proof. apply fold_left_app. Qed.

Lemma dma_channel1_app a b :
  dma_channel1 (a ++ b) = fold_left dma_step b (dma_channel1 a).
Proof. apply fold_left_app. Qed.

Lemma transmitted_app a b : transmitted (a ++ b) = transmitted a ++ transmitted b.
Proof. apply omap_app. Qed.

(** C6: every run of [adc1_2_isr] ends with the calls of [dma_setup] (the
    channel reset, then the peripheral address, the memory address [v] and
    the number of data) followed by [usart_enable_tx_interrupt]; whatever
    the DMA registers held before, afterwards they are as [dma_setup]
    programs them and the transmit interrupt is enabled. *)
Theorem adc1_2_isr_rearms (st : machine) :
  (exists text,
     trace (adc1_2_isr st) =
       trace st ++ map (buffer_put SendBuffer) text ++
         trace (dma_setup reset) ++ [usart_enable_tx_interrupt USART1])
  /\ trace (dma_setup reset) =
       [ rcc_peripheral_enable_clock "RCC_AHBENR" ["RCC_AHBENR_DMA1EN"];
         dma_channel_reset DMA1 DMA_CHANNEL1;
         dma_set_priority DMA1 DMA_CHANNEL1 "DMA_CCR_PL_LOW";
         dma_set_memory_size DMA1 DMA_CHANNEL1 "DMA_CCR_MSIZE_32BIT";
         dma_set_peripheral_size DMA1 DMA_CHANNEL1 "DMA_CCR_PSIZE_32BIT";
         dma_enable_memory_increment_mode DMA1 DMA_CHANNEL1;
         dma_set_read_from_peripheral DMA1 DMA_CHANNEL1;
         dma_set_peripheral_address DMA1 DMA_CHANNEL1 addr_ADC1_DR;
         dma_set_memory_address DMA1 DMA_CHANNEL1 addr_v;
         dma_set_number_of_data DMA1 DMA_CHANNEL1 64;
         dma_enable_channel DMA1 DMA_CHANNEL1 ]
  /\ dma_channel1 (trace (adc1_2_isr st)) =
       mkDma true (Some addr_ADC1_DR) (Some addr_v) 64
  /\ tx_interrupt_enabled (trace (adc1_2_isr st)) = true.
Proof.
  destruct (adc1_2_isr_calls st) as [text H].
  split; [exists text; exact H|]. split; [reflexivity|].
  rewrite H, !app_assoc.
  split.
  - rewrite dma_channel1_app. cbn [fold_left dma_step].
    rewrite dma_channel1_app. reflexivity.
  - rewrite tx_interrupt_enabled_app. reflexivity.
Qed.

(** C9: two runs of [adc1_2_isr] from states with the same [n_conv], the
    same first [n_conv/2] words of [v] and the same send buffer make the
    same calls, so push the same bytes, and leave the same send buffer; the
    static [i] of [adc1_2_isr] and the static [data] of [usart1_isr] may
    differ without effect on what the handlers do. *)
Theorem adc1_2_isr_deterministic (st1 st2 : machine) :
  n_conv st1 = n_conv st2 ->
  take (Z.to_nat (n_conv st1 ÷ 2)) (v st1) = take (Z.to_nat (n_conv st2 ÷ 2)) (v st2) ->
  send_buffer st1 = send_buffer st2 ->
  (exists calls,
     trace (adc1_2_isr st1) = trace st1 ++ calls
     /\ trace (adc1_2_isr st2) = trace st2 ++ calls
     /\ pushed (trace (adc1_2_isr st1)) = pushed (trace st1) ++ pushed calls
     /\ pushed (trace (adc1_2_isr st2)) = pushed (trace st2) ++ pushed calls)
  /\ send_buffer (adc1_2_isr st1) = send_buffer (adc1_2_isr st2)
  /\ (forall st rxne rx txe d1 d2, exists calls,
        let st1' := usart1_isr rxne rx txe (set_usart1_isr_data d1 st) in
        let st2' := usart1_isr rxne rx txe (set_usart1_isr_data d2 st) in
        trace st1' = trace st ++ calls /\ trace st2' = trace st ++ calls
        /\ send_buffer st1' = send_buffer st2'
        /\ receive_buffer st1' = receive_buffer st2').
Proof.
  intros Hn Hv Hb.
  destruct (adc1_2_isr_alike st1 st2 Hn Hv Hb) as (text & i & H1 & H2).
  rewrite H1, H2, !adc1_2_isr_tail. cbn [trace send_buffer].
  split; [|split].
  - eexists. split; [reflexivity|]. split; [reflexivity|].
    rewrite !pushed_app. split; reflexivity.
  - rewrite Hb. reflexivity.
  - intros st rxne rx txe d1 d2.
    exists (usart1_isr_calls rxne rx txe (fst (Buffer.get (send_buffer st)))).
    rewrite !usart1_isr_spec.
    cbn [trace send_buffer receive_buffer set_usart1_isr_data].
    repeat split; reflexivity.
Qed.

Lemma adc1_2_isr_deterministic_witness :
  let st1 :=
    set_adc1_2_isr_i 200 (set_v ([1; 2; 3; 0x00040005] ++ replicate 124 6) reset) in
  let st2 :=
    set_usart1_isr_data 77
      (hw (usart_enable USART1)
         (set_v ([1; 2; 3; 0x00040005] ++ replicate 124 7) reset)) in
  (exists calls,
     trace (adc1_2_isr st1) = trace st1 ++ calls
     /\ trace (adc1_2_isr st2) = trace st2 ++ calls
     /\ pushed (trace (adc1_2_isr st1)) = pushed (trace st1) ++ pushed calls
     /\ pushed (trace (adc1_2_isr st2)) = pushed (trace st2) ++ pushed calls)
  /\ send_buffer (adc1_2_isr st1) = send_buffer (adc1_2_isr st2)
  /\ (forall st rxne rx txe d1 d2, exists calls,
        let st1' := usart1_isr rxne rx txe (set_usart1_isr_data d1 st) in
        let st2' := usart1_isr rxne rx txe (set_usart1_isr_data d2 st) in
        trace st1' = trace st ++ calls /\ trace st2' = trace st ++ calls
        /\ send_buffer st1' = send_buffer st2'
        /\ receive_buffer st1' = receive_buffer st2').
Proof.
  apply (adc1_2_isr_deterministic
           (set_adc1_2_isr_i 200
              (set_v ([1; 2; 3; 0x00040005] ++ replicate 124 6) reset))
           (set_usart1_isr_data 77
              (hw (usart_enable USART1)
                 (set_v ([1; 2; 3; 0x00040005] ++ replicate 124 7) reset)))).
  - reflexivity.
  - reflexivity.
  - reflexivity.
Defined.

Lemma format_word_puts W st : is_word W -> format_word W st = puts (word_text W) st.
Proof.
  intros HW. unfold format_word, seq_cmd, word_text.
  pose proof (low_half_range W) as Hlo.
  pose proof (low_half_range (Z.shiftr W 16)) as Hhi.
  rewrite !usart_print_int_puts by lia.
  rewrite usart_print_string_puts by apply cstring_dash_nonzero.
  rewrite !puts_app. reflexivity.
Qed.

Lemma format_words_puts words : forall st,
  Forall is_word words -> format_words words st = puts (flat_map word_text words) st.
Proof.
  induction words as [|W words IH]; intros st Hw.
  - reflexivity.
  - apply Forall_cons in Hw as [HW Hws].
    cbn [flat_map]. rewrite puts_app, <- format_word_puts by exact HW.
    unfold format_words in *. cbn [fold_left]. apply IH, Hws.
Qed.

(** C4: for every packed word [W] that [adc1_2_isr] processes, the value
    formatted first is [W & 0xFFFF], the value formatted second is
    [(W >> 16) & 0xFFFF], and the bytes "- " lie between them: the handler
    is [format_words] on the first [n_conv/2] words, followed by the line
    end, the DMA set-up and the enabling of the transmit interrupt. *)
Theorem adc1_2_isr_decodes_words (st : machine) :
  machine_ok st ->
  let words := take (Z.to_nat (n_conv st ÷ 2)) (v st) in
  adc1_2_isr st =
    (set_adc1_2_isr_i (n_conv st ÷ 2) ;;
     format_words words ;;
     usart_print_string [CR; LF] ;;
     dma_setup ;;
     hw (usart_enable_tx_interrupt USART1)) st
  /\ pushed (trace (adc1_2_isr st)) =
       pushed (trace st) ++
       flat_map (fun W => decimal_text (Z.land W 0xFFFF) ++ cstring "- " ++
                          decimal_text (Z.land (Z.shiftr W 16) 0xFFFF)) words ++
       [CR; LF].
Proof.
  intros [Hn Hlen Hw] words.
  assert (0 <= n_conv st ÷ 2 < 128) as Hb.
  { rewrite Z.quot_div_nonneg by lia. split; [apply Z.div_pos; lia|].
    apply Z.div_lt_upper_bound; lia. }
  rewrite adc1_2_isr_spec; [|lia|rewrite Hlen; unfold V_LENGTH; lia
                             |apply Forall_take, Hw].
  split.
  - unfold seq_cmd.
    rewrite format_words_puts by apply Forall_take, Hw.
    rewrite usart_print_string_puts by (repeat constructor; discriminate).
    rewrite <- puts_app. subst words.
    change (flat_map word_text (take (Z.to_nat (n_conv st ÷ 2)) (v st)) ++ [CR; LF])
      with (adc_line st).
    pose proof (adc1_2_isr_tail (n_conv st ÷ 2) (adc_line st) st) as Htail.
    unfold seq_cmd in Htail. rewrite Htail.
    rewrite (map_uint8_bytes _ (adc_line_bytes st)). reflexivity.
  - cbn [trace]. rewrite !pushed_app, pushed_buffer_put, pushed_dma_setup_calls.
    cbn [pushed omap app]. rewrite app_nil_r. reflexivity.
Qed.

Lemma adc1_2_isr_decodes_words_witness :
  let st := set_v (0x00010002 :: replicate 127 0xFFFF8000) reset in
  adc1_2_isr st =
    (set_adc1_2_isr_i 4 ;;
     format_words (take 4 (v st)) ;;
     usart_print_string [CR; LF] ;;
     dma_setup ;;
     hw (usart_enable_tx_interrupt USART1)) st
  /\ pushed (trace (adc1_2_isr st)) =
       cstring "2 - 1 32768 - 65535 32768 - 65535 32768 - 65535 " ++ [CR; LF].
Proof.
  apply (adc1_2_isr_decodes_words (set_v (0x00010002 :: replicate 127 0xFFFF8000) reset)).
  constructor.
  - cbn. lia.
  - reflexivity.
  - cbn [v set_v]. apply Forall_cons_2; [unfold is_word; lia|].
    apply Forall_replicate. unfold is_word. lia.
Defined.

(** C1: with [n_conv = 8] and the first four words of the sample store
    0x00010002, 0x00030004, 0x00050006, 0x00070008, one run of [adc1_2_isr]
    hands exactly the bytes of "2 - 1 4 - 3 6 - 5 8 - 7 " followed by CR LF to
    [buffer_put] for the send buffer, and when the buffer has room for them
    they are appended to its contents.  (The channel sequences of the claim
    are what [main] programs, see [main_banner_channel_sequences]; the
    handler does not depend on them.) *)
Theorem adc1_2_isr_end_to_end (st : machine) :
  n_conv st = 8 ->
  take 4 (v st) = [0x00010002; 0x00030004; 0x00050006; 0x00070008] ->
  Buffer.wf (send_buffer st) ->
  26 <= Buffer.free (send_buffer st) ->
  pushed (trace (adc1_2_isr st)) =
    pushed (trace st) ++ cstring "2 - 1 4 - 3 6 - 5 8 - 7 " ++ [CR; LF]
  /\ Buffer.contents (send_buffer (adc1_2_isr st)) =
       Buffer.contents (send_buffer st) ++
       cstring "2 - 1 4 - 3 6 - 5 8 - 7 " ++ [CR; LF].
Proof.
  intros Hn Hv Hwf Hfree.
  assert (adc_line st = cstring "2 - 1 4 - 3 6 - 5 8 - 7 " ++ [CR; LF]) as Hline.
  { unfold adc_line. rewrite Hn. change (Z.to_nat (8 ÷ 2)) with 4%nat.
    rewrite Hv. vm_compute. reflexivity. }
  rewrite adc1_2_isr_spec.
  - cbn [trace send_buffer]. rewrite Hline. split.
    + rewrite !pushed_app, pushed_buffer_put, pushed_dma_setup_calls.
      cbn [pushed omap app]. rewrite app_nil_r. reflexivity.
    + apply puts_contents; [exact Hwf|]. cbn. lia.
  - lia.
  - rewrite Hn. change (Z.to_nat (8 ÷ 2)) with 4%nat.
    apply (f_equal length) in Hv. rewrite length_take in Hv.
    cbn [length] in Hv. lia.
  - rewrite Hn. change (Z.to_nat (8 ÷ 2)) with 4%nat. rewrite Hv.
    repeat (apply Forall_cons_2; [unfold is_word; lia|]). apply Forall_nil_2.
Qed.

Lemma adc1_2_isr_end_to_end_witness :
  let st := do_buffer_init SendBuffer BUFFER_SIZE
              (set_v ([0x00010002; 0x00030004; 0x00050006; 0x00070008] ++
                      replicate 124 0) reset) in
  pushed (trace (adc1_2_isr st)) =
    pushed (trace st) ++ cstring "2 - 1 4 - 3 6 - 5 8 - 7 " ++ [CR; LF]
  /\ Buffer.contents (send_buffer (adc1_2_isr st)) =
       Buffer.contents (send_buffer st) ++
       cstring "2 - 1 4 - 3 6 - 5 8 - 7 " ++ [CR; LF].
Proof.
  apply adc1_2_isr_end_to_end.
  - reflexivity.
  - reflexivity.
  - apply (wf_init BUFFER_SIZE). unfold BUFFER_SIZE. lia.
  - vm_compute. discriminate.
Defined.

(** C5: when [usart1_isr] finds the transmit register empty it pops one
    element from the send buffer; if one of the high eight bits of the
    popped value is set, the transmit interrupt is disabled and nothing is
    written to the transmit register; otherwise the low eight bits are
    written to it and the interrupt enable is left as it was. *)
Theorem usart1_isr_transmit_empty (rxne : bool) (rx : Z) (st : machine) :
  let st' := usart1_isr rxne rx true st in
  let data := uint16 (fst (Buffer.get (send_buffer st))) in
  let received :=
    if rxne then [usart_recv USART1 rx; buffer_put ReceiveBuffer (uint8 rx)]
    else [] in
  send_buffer st' = snd (Buffer.get (send_buffer st))
  /\ usart1_isr_data st' = data
  /\ if 0 <? Z.land data 0xFF00 then
       trace st' =
         trace st ++ [usart_get_flag USART1 USART_SR_RXNE rxne] ++ received ++
           [usart_get_flag USART1 USART_SR_TXE true;
            buffer_get SendBuffer (fst (Buffer.get (send_buffer st)));
            usart_disable_tx_interrupt USART1]
       /\ tx_interrupt_enabled (trace st') = false
       /\ transmitted (trace st') = transmitted (trace st)
     else
       trace st' =
         trace st ++ [usart_get_flag USART1 USART_SR_RXNE rxne] ++ received ++
           [usart_get_flag USART1 USART_SR_TXE true;
            buffer_get SendBuffer (fst (Buffer.get (send_buffer st)));
            usart_send USART1 (Z.land data 0xFF)]
       /\ tx_interrupt_enabled (trace st') = tx_interrupt_enabled (trace st)
       /\ transmitted (trace st') = transmitted (trace st) ++ [Z.land data 0xFF].
Proof.
  intros st' data received. subst st' data received.
  rewrite usart1_isr_spec. cbn [send_buffer usart1_isr_data trace].
  unfold usart1_isr_calls.
  split; [reflexivity|]. split; [reflexivity|].
  destruct (0 <? Z.land (uint16 (fst (Buffer.get (send_buffer st)))) 65280).
  - split; [reflexivity|].
    rewrite tx_interrupt_enabled_app, transmitted_app.
    destruct rxne; cbn; rewrite app_nil_r; done.
  - split; [reflexivity|].
    rewrite tx_interrupt_enabled_app, transmitted_app.
    destruct rxne; cbn; done.
Qed.

(** ** Busy waits *)

(** A wait returns exactly when some poll finds the flag clear, and then
    with the polls up to that one in the trace. *)
Lemma wait_calibration_returns a busy n : forall fuel k st,
  (forall j, (j < n)%nat -> busy (k + j)%nat = true) ->
  busy (k + n)%nat = false ->
  (n < fuel)%nat ->
  wait_calibration a busy fuel k st = Some (logged (calibration_polls a n) st).
Proof.
  induction n as [|n IH]; intros fuel k st Hbusy Hclear Hfuel.
  - destruct fuel as [|fuel]; [lia|]. cbn [wait_calibration].
    rewrite Nat.add_0_r in Hclear. rewrite Hclear. reflexivity.
  - destruct fuel as [|fuel]; [lia|]. cbn [wait_calibration].
    pose proof (Hbusy 0%nat ltac:(lia)) as H0. rewrite Nat.add_0_r in H0.
    rewrite H0, (IH fuel (S k)).
    + rewrite hw_logged, logged_logged. reflexivity.
    + intros j Hj. replace (S k + j)%nat with (k + S j)%nat by lia.
      apply Hbusy. lia.
    + replace (S k + n)%nat with (k + S n)%nat by lia. exact Hclear.
    + lia.
Qed.

Lemma wait_calibration_inv a busy fuel : forall k st st',
  wait_calibration a busy fuel k st = Some st' ->
  exists n, (n < fuel)%nat
    /\ (forall j, (j < n)%nat -> busy (k + j)%nat = true)
    /\ busy (k + n)%nat = false
    /\ st' = logged (calibration_polls a n) st.
Proof.
  induction fuel as [|fuel IH]; intros k st st' H; [discriminate|].
  cbn [wait_calibration] in H. destruct (busy k) eqn:Hk.
  - apply IH in H as (n & Hn & Hbusy & Hclear & ->).
    exists (S n). split; [lia|]. split; [|split].
    + intros [|j] Hj.
      * rewrite Nat.add_0_r. exact Hk.
      * replace (k + S j)%nat with (S k + j)%nat by lia. apply Hbusy. lia.
    + replace (k + S n)%nat with (S k + n)%nat by lia. exact Hclear.
    + rewrite hw_logged, logged_logged. reflexivity.
  - exists 0%nat. split; [lia|]. split; [intros j Hj; lia|].
    rewrite Nat.add_0_r. split; [exact Hk|]. injection H as <-. reflexivity.
Qed.

Lemma wait_calibration_spins a busy fuel : forall k st,
  (forall j, (j < fuel)%nat -> busy (k + j)%nat = true) ->
  wait_calibration a busy fuel k st = None.
Proof.
  induction fuel as [|fuel IH]; intros k st Hbusy; [reflexivity|].
  cbn [wait_calibration].
  pose proof (Hbusy 0%nat ltac:(lia)) as H0. rewrite Nat.add_0_r in H0.
  rewrite H0. apply IH. intros j Hj.
  replace (S k + j)%nat with (k + S j)%nat by lia. apply Hbusy. lia.
Qed.

(** Polls that find the timer flag clear leave the loop where it is. *)
Lemma run_flag_clear n : forall s,
  run (replicate n (TimerPoll false)) s =
  mkSystem (logged (replicate n (timer_get_flag TIM2 "TIM_SR_CC1IF" false)) (cpu s))
           (main_i s).
Proof.
  induction n as [|n IH]; intros s.
  - cbn. rewrite logged_nil. destruct s; reflexivity.
  - cbn [replicate run fold_left]. fold (run (replicate n (TimerPoll false))).
    rewrite IH. cbn [step main_loop_poll cpu main_i].
    rewrite hw_logged, logged_logged. reflexivity.
Qed.

(** C8: the waits for the calibration flags and for the timer flag have no
    timeout.  [adc_setup] returns only after a poll found the flag of ADC1
    clear and then a poll found the flag of ADC2 clear, and it does return
    then; a flag that never clears keeps it from returning whatever the
    number of polls; the main loop only polls as long as the timer flag is
    clear, and counts when it is set. *)
Theorem busy_waits_never_time_out (busy1 busy2 : nat -> bool) (st : machine) :
  (forall fuel st',
     adc_setup busy1 busy2 fuel st = Some st' ->
     exists n1 n2,
       (forall j, (j < n1)%nat -> busy1 j = true) /\ busy1 n1 = false
       /\ (forall j, (j < n2)%nat -> busy2 j = true) /\ busy2 n2 = false
       /\ st' = (adc_setup_adc1 ;; logged (calibration_polls ADC1 n1) ;;
                 adc_setup_adc2 ;; logged (calibration_polls ADC2 n2)) st)
  /\ (forall n1 n2,
        (forall j, (j < n1)%nat -> busy1 j = true) -> busy1 n1 = false ->
        (forall j, (j < n2)%nat -> busy2 j = true) -> busy2 n2 = false ->
        forall fuel, (n1 < fuel)%nat -> (n2 < fuel)%nat ->
        adc_setup busy1 busy2 fuel st =
          Some ((adc_setup_adc1 ;; logged (calibration_polls ADC1 n1) ;;
                 adc_setup_adc2 ;; logged (calibration_polls ADC2 n2)) st))
  /\ ((forall j, busy1 j = true) ->
      forall fuel, adc_setup busy1 busy2 fuel st = None)
  /\ ((forall j, busy2 j = true) ->
      forall fuel, adc_setup busy1 busy2 fuel st = None)
  /\ (forall n s,
        run (replicate n (TimerPoll false)) s =
        mkSystem
          (logged (replicate n (timer_get_flag TIM2 "TIM_SR_CC1IF" false)) (cpu s))
          (main_i s))
  /\ (forall i st0,
        main_loop_poll true i st0 =
        if uint16 (i + 1) <? 500 then
          (uint16 (i + 1),
           logged [timer_get_flag TIM2 "TIM_SR_CC1IF" true;
                   timer_clear_flag TIM2 "TIM_SR_CC1IF"] st0)
        else
          (0, logged [timer_get_flag TIM2 "TIM_SR_CC1IF" true;
                      timer_clear_flag TIM2 "TIM_SR_CC1IF";
                      adc_start_conversion_regular ADC1] st0)).
Proof.
  split; [|split; [|split; [|split; [|split]]]].
  - intros fuel st' H. unfold adc_setup in H.
    destruct (wait_calibration ADC1 busy1 fuel 0 (adc_setup_adc1 st)) as [st1|] eqn:H1;
      [|discriminate].
    apply wait_calibration_inv in H1 as (n1 & _ & Hb1 & Hc1 & ->).
    apply wait_calibration_inv in H as (n2 & _ & Hb2 & Hc2 & ->).
    exists n1, n2. repeat split; assumption.
  - intros n1 n2 Hb1 Hc1 Hb2 Hc2 fuel Hf1 Hf2. unfold adc_setup.
    rewrite (wait_calibration_returns ADC1 busy1 n1) by assumption.
    rewrite (wait_calibration_returns ADC2 busy2 n2) by assumption.
    reflexivity.
  - intros Hbusy fuel. unfold adc_setup.
    rewrite wait_calibration_spins; [reflexivity|]. intros j _. apply Hbusy.
  - intros Hbusy fuel. unfold adc_setup.
    destruct (wait_calibration ADC1 busy1 fuel 0 (adc_setup_adc1 st)); [|reflexivity].
    apply wait_calibration_spins. intros j _. apply Hbusy.
  - intros n s. apply run_flag_clear.
  - intros i st0. unfold main_loop_poll.
    destruct (uint16 (i + 1) <? 500); rewrite !hw_logged, !logged_logged; reflexivity.
Qed.

Lemma busy_waits_never_time_out_witness :
  adc_setup (fun _ => true) (fun _ => false) 1000 reset = None
  /\ adc_setup (fun j => (j <? 3)%nat) (fun _ => true) 1000 reset = None
  /\ adc_setup (fun j => (j <? 3)%nat) (fun j => (j <? 2)%nat) 4 reset =
       Some ((adc_setup_adc1 ;; logged (calibration_polls ADC1 3) ;;
              adc_setup_adc2 ;; logged (calibration_polls ADC2 2)) reset).
Proof.
  split; [|split].
  - apply (proj1 (proj2 (proj2
      (busy_waits_never_time_out (fun _ => true) (fun _ => false) reset)))).
    intros j. reflexivity.
  - apply (proj1 (proj2 (proj2 (proj2
      (busy_waits_never_time_out (fun j => (j <? 3)%nat) (fun _ => true) reset))))).
    intros j. reflexivity.
  - apply (proj1 (proj2
      (busy_waits_never_time_out (fun j => (j <? 3)%nat) (fun j => (j <? 2)%nat)
         reset))).
    + intros j Hj. apply Nat.ltb_lt. exact Hj.
    + reflexivity.
    + intros j Hj. apply Nat.ltb_lt. exact Hj.
    + reflexivity.
    + lia.
    + lia.
Defined.











Lemma trace_dma_transfer samples st : trace (dma_transfer samples st) = trace st.
Proof.
  unfold dma_transfer.
  destruct (dma_enabled (dma_channel1 (trace st))); [|reflexivity].
  destruct (dma_memory_address (dma_channel1 (trace st))) as [[]|]; reflexivity.
Qed.







(** ** One poll and one clear per compare match *)















(** ** The sample store and the DMA channel *)

Lemma dma_channel1_neutral t new :
  Forall dma_neutral new -> dma_channel1 (t ++ new) = dma_channel1 t.
Proof.
  intros H. rewrite dma_channel1_app. generalize (dma_channel1 t).
  induction H as [|c new Hc _ IH]; intros r; [reflexivity|].
  cbn [fold_left]. rewrite Hc. apply IH.
Qed.

Lemma dma_neutral_usart1_isr_calls rxne rx txe data :
  Forall dma_neutral (usart1_isr_calls rxne rx txe data).
Proof.
  unfold usart1_isr_calls.
  destruct rxne, txe, (0 <? Z.land (uint16 data) 65280); cbn [app];
    repeat (constructor; [done|]); constructor.
Qed.

Lemma dma_channel1_rearmed t text :
  dma_channel1 (t ++ map (buffer_put SendBuffer) text ++ dma_setup_calls ++
                  [usart_enable_tx_interrupt USART1]) = dma_armed.
Proof.
  rewrite !app_assoc, dma_channel1_app. cbn [fold_left dma_step].
  rewrite dma_channel1_app. reflexivity.
Qed.

Lemma adc1_2_isr_v st : v (adc1_2_isr st) = v st.
Proof.
  destruct (adc1_2_isr_alike st st) as (text & i & H & _); try done.
  rewrite H, adc1_2_isr_tail. reflexivity.
Qed.

Lemma dma_transfer_armed samples st :
  dma_channel1 (trace st) = dma_armed ->
  (64 <= length (v st))%nat ->
  length (v (dma_transfer samples st)) = length (v st)
  /\ drop 64 (v (dma_transfer samples st)) = drop 64 (v st)
  /\ take (length (take 64 samples)) (v (dma_transfer samples st)) =
       map uint32 (take 64 samples).
Proof.
  intros Harmed Hlen. unfold dma_transfer. rewrite Harmed.
  cbn [dma_enabled dma_memory_address dma_number_of_data_left dma_armed set_v v].
  change (Z.to_nat 64) with 64%nat.
  set (burst := take 64 (map uint32 samples)).
  assert (length burst <= 64)%nat as Hb.
  { unfold burst. rewrite length_take. lia. }
  split; [|split].
  - rewrite length_app, length_drop. lia.
  - rewrite drop_app_ge by lia. rewrite drop_drop. f_equal. lia.
  - unfold burst. rewrite <- fmap_take.
    replace (length (take 64 samples)) with (length (uint32 <$> take 64 samples))
      by apply length_fmap.
    apply take_app_length.
Qed.

Lemma step_store e s :
  dma_channel1 (trace (cpu s)) = dma_armed ->
  length (v (cpu s)) = V_LENGTH ->
  dma_channel1 (trace (cpu (step e s))) = dma_armed
  /\ length (v (cpu (step e s))) = V_LENGTH
  /\ drop 64 (v (cpu (step e s))) = drop 64 (v (cpu s)).
Proof.
  intros Harmed Hlen. destruct e as [cc1if|samples|rxne rx txe]; cbn [step].
  - unfold main_loop_poll.
    destruct cc1if; [destruct (uint16 (main_i s + 1) <? 500)|];
      rewrite !hw_logged, ?logged_logged; cbn [cpu logged trace v];
      (split; [|split; [assumption|reflexivity]]);
      (rewrite dma_channel1_neutral; [assumption|]);
      repeat (constructor; [done|]); constructor.
  - cbn [cpu]. unfold seq_cmd.
    destruct (dma_transfer_armed samples (cpu s) Harmed) as (Hl & Hd & _);
      [rewrite Hlen; unfold V_LENGTH; lia|].
    destruct (adc1_2_isr_calls (dma_transfer samples (cpu s))) as [text Ht].
    rewrite Ht, adc1_2_isr_v, dma_channel1_rearmed, Hl, Hd. done.
  - cbn [cpu]. rewrite usart1_isr_spec. cbn [trace v].
    split; [|split; [assumption|reflexivity]].
    rewrite dma_channel1_neutral; [assumption|].
    apply dma_neutral_usart1_isr_calls.
Qed.

Lemma run_store es : forall s,
  dma_channel1 (trace (cpu s)) = dma_armed ->
  length (v (cpu s)) = V_LENGTH ->
  dma_channel1 (trace (cpu (run es s))) = dma_armed
  /\ length (v (cpu (run es s))) = V_LENGTH
  /\ drop 64 (v (cpu (run es s))) = drop 64 (v (cpu s)).
Proof.
  induction es as [|e es IH]; intros s Harmed Hlen; [done|].
  cbn [run fold_left]. fold (run es (step e s)).
  destruct (step_store e s Harmed Hlen) as (Ha & Hl & Hd).
  destruct (IH (step e s) Ha Hl) as (Ha' & Hl' & Hd').
  rewrite Hd' , Hd. done.
Qed.

(** C2 as stated fails: the sample store has 128 words, twice the 64 data
    items that [dma_setup] programs. *)
Lemma sample_store_longer_than_burst :
  Z.of_nat (length (v reset)) <>
  dma_number_of_data_left (dma_channel1 (trace (dma_setup reset))).
Proof. vm_compute. discriminate. Qed.

(** C2, amended: the sample store is a fixed-size sequence of 128 words and
    the DMA channel is programmed with 64 data items; whatever happens in the
    running system, the store keeps its 128 words, the channel stays
    programmed as [dma_setup] leaves it, and only the first 64 words of the
    store are ever written. *)
Theorem sample_store_holds_burst (es : list event) (s : system) :
  length (v (cpu s)) = V_LENGTH ->
  dma_channel1 (trace (cpu s)) = dma_channel1 (trace (dma_setup reset)) ->
  V_LENGTH = 128%nat
  /\ dma_number_of_data_left (dma_channel1 (trace (dma_setup reset))) = 64
  /\ (forall st, dma_channel1 (trace (dma_setup st)) =
                 dma_channel1 (trace (dma_setup reset)))
  /\ length (v (cpu (run es s))) = 128%nat
  /\ dma_channel1 (trace (cpu (run es s))) = dma_channel1 (trace (dma_setup reset))
  /\ drop 64 (v (cpu (run es s))) = drop 64 (v (cpu s)).
Proof.
  intros Hlen Harmed. change (dma_channel1 (trace (dma_setup reset))) with dma_armed in *.
  destruct (run_store es s Harmed Hlen) as (Ha & Hl & Hd).
  repeat split; try done.
  intros st. rewrite trace_dma_setup, dma_channel1_app. reflexivity.
Qed.

Lemma sample_store_holds_burst_witness :
  let s := mkSystem (dma_setup reset) 0 in
  let es := [AdcEoc (replicate 100 0x00070008); TimerPoll true] in
  V_LENGTH = 128%nat
  /\ dma_number_of_data_left (dma_channel1 (trace (dma_setup reset))) = 64
  /\ (forall st, dma_channel1 (trace (dma_setup st)) =
                 dma_channel1 (trace (dma_setup reset)))
  /\ length (v (cpu (run es s))) = 128%nat
  /\ dma_channel1 (trace (cpu (run es s))) = dma_channel1 (trace (dma_setup reset))
  /\ drop 64 (v (cpu (run es s))) = drop 64 (v (cpu s)).
Proof.
  apply (sample_store_holds_burst
           [AdcEoc (replicate 100 0x00070008); TimerPoll true]
           (mkSystem (dma_setup reset) 0)).
  - reflexivity.
  - reflexivity.
Defined.

(** ** Start-up *)

Lemma emits_skip P : emits P skip.
Proof. intros st. exists []. rewrite app_nil_r. done. Qed.

Lemma emits_hw (P : call -> Prop) c : P c -> emits P (hw c).
Proof. intros Hc st. exists [c]. split; [reflexivity|]. constructor; [done|constructor]. Qed.

Lemma emits_logged (P : call -> Prop) calls : Forall P calls -> emits P (logged calls).
Proof. intros Hc st. exists calls. done. Qed.

Lemma emits_seq P f g : emits P f -> emits P g -> emits P (f ;; g).
Proof.
  intros Hf Hg st. unfold seq_cmd.
  destruct (Hf st) as (a & Ha & HPa). destruct (Hg (f st)) as (b & Hb & HPb).
  exists (a ++ b). rewrite Hb, Ha, app_assoc. split; [reflexivity|].
  apply Forall_app. done.
Qed.

Lemma emits_puts (P : call -> Prop) text :
  (forall c, P (buffer_put SendBuffer c)) -> emits P (puts text).
Proof.
  intros HP st. rewrite puts_spec. cbn [trace]. eexists. split; [reflexivity|].
  induction (map uint8 text) as [|c l IH]; [constructor|].
  cbn [map]. constructor; [apply HP|exact IH].
Qed.

Lemma emits_ext P f g : (forall st, f st = g st) -> emits P g -> emits P f.
Proof. intros Hfg Hg st. rewrite Hfg. apply Hg. Qed.

Lemma emits_usart_print_string (P : call -> Prop) ch :
  (forall c, P (buffer_put SendBuffer c)) -> emits P (usart_print_string ch).
Proof.
  intros HP. destruct (usart_print_string_only_puts ch) as [text H].
  apply (emits_ext _ _ _ H), emits_puts, HP.
Qed.

Lemma emits_usart_print_int (P : call -> Prop) value :
  (forall c, P (buffer_put SendBuffer c)) -> emits P (usart_print_int value).
Proof.
  intros HP. destruct (usart_print_int_only_puts value) as [text H].
  apply (emits_ext _ _ _ H), emits_puts, HP.
Qed.

Lemma emits_do_buffer_init (P : call -> Prop) b size :
  P (buffer_init b size) -> emits P (do_buffer_init b size).
Proof.
  intros HP st. exists [buffer_init b size].
  split; [destruct b; reflexivity|]. constructor; [done|constructor].
Qed.

Lemma adc_setup_inv busy1 busy2 fuel st st' :
  adc_setup busy1 busy2 fuel st = Some st' ->
  exists n1 n2,
    st' = (adc_setup_adc1 ;; logged (calibration_polls ADC1 n1) ;;
           adc_setup_adc2 ;; logged (calibration_polls ADC2 n2)) st.
Proof.
  intros H. unfold adc_setup in H.
  destruct (wait_calibration ADC1 busy1 fuel 0 (adc_setup_adc1 st)) as [st1|] eqn:H1;
    [|discriminate].
  apply wait_calibration_inv in H1 as (n1 & _ & _ & _ & ->).
  apply wait_calibration_inv in H as (n2 & _ & _ & _ & ->).
  exists n1, n2. reflexivity.
Qed.

Lemma pushes_nothing_polls a n : Forall pushes_nothing (calibration_polls a n).
Proof.
  unfold calibration_polls. apply Forall_app. split.
  - apply Forall_replicate. reflexivity.
  - constructor; [reflexivity|constructor].
Qed.

Lemma pushed_nothing calls : Forall pushes_nothing calls -> pushed calls = [].
Proof.
  induction 1 as [|c calls Hc _ IH]; [reflexivity|].
  change (c :: calls) with ([c] ++ calls). rewrite pushed_app, Hc, IH. reflexivity.
Qed.

Lemma seq_cmd_apply f g st : (f ;; g) st = g (f st).
Proof. reflexivity. Qed.

Lemma trace_hw c st : trace (hw c st) = trace st ++ [c].
Proof. reflexivity. Qed.

Lemma send_buffer_hw c st : send_buffer (hw c st) = send_buffer st.
Proof. reflexivity. Qed.

Lemma send_buffer_init_send size st :
  send_buffer (do_buffer_init SendBuffer size st) = Buffer.init size.
Proof. reflexivity. Qed.

Lemma send_buffer_init_receive size st :
  send_buffer (do_buffer_init ReceiveBuffer size st) = send_buffer st.
Proof. reflexivity. Qed.

Lemma emits_adc_setup_calibration P n1 n2 :
  (forall c, pushes_nothing c -> P c) ->
  emits P (adc_setup_adc1 ;; logged (calibration_polls ADC1 n1) ;;
           adc_setup_adc2 ;; logged (calibration_polls ADC2 n2)).
Proof.
  intros HP. unfold adc_setup_adc1, adc_setup_adc2, nop_delay.
  repeat first
    [ apply emits_seq | apply emits_hw; apply HP; reflexivity | apply emits_skip
    | apply emits_logged;
      (eapply Forall_impl; [apply pushes_nothing_polls|exact HP]) ].
Qed.

Lemma emits_main_setup P :
  (forall c, pushes_nothing c -> P c) ->
  emits P (clock_setup ;; gpio_setup ;; usart_setup ;; dma_setup).
Proof.
  intros HP. unfold clock_setup, gpio_setup, usart_setup, dma_setup.
  repeat first
    [ apply emits_seq | apply emits_hw; apply HP; reflexivity | apply emits_skip ].
Qed.

Lemma emits_timer_setup P :
  (forall c, pushes_nothing c -> P c) -> emits P timer_setup.
Proof.
  intros HP. unfold timer_setup.
  repeat first [ apply emits_seq | apply emits_hw; apply HP; reflexivity ].
Qed.

(** What [main] has done when it has enabled the transmit interrupt. *)
Lemma main_init_inv busy1 busy2 fuel st0 st1 :
  main_init busy1 busy2 fuel st0 = Some st1 ->
  (exists calls,
     trace st1 = trace st0 ++ calls ++ [usart_enable_tx_interrupt USART1]
     /\ Forall pushes_nothing calls)
  /\ send_buffer st1 = Buffer.init BUFFER_SIZE.
Proof.
  intros H. unfold main_init in H.
  destruct (adc_setup busy1 busy2 fuel
              ((clock_setup ;; gpio_setup ;; usart_setup ;; dma_setup) st0))
    as [st'|] eqn:Hadc; [|discriminate].
  injection H as <-.
  apply adc_setup_inv in Hadc as (n1 & n2 & Hst').
  rewrite !seq_cmd_apply.
  rewrite send_buffer_hw, send_buffer_init_receive, send_buffer_init_send, trace_hw.
  split; [|reflexivity].
  destruct (emits_main_setup pushes_nothing (fun c H => H) st0) as (c1 & H1 & F1).
  destruct (emits_adc_setup_calibration pushes_nothing n1 n2 (fun c H => H)
              ((clock_setup ;; gpio_setup ;; usart_setup ;; dma_setup) st0))
    as (c2 & H2 & F2).
  rewrite <- Hst' in H2.
  destruct (emits_timer_setup pushes_nothing (fun c H => H) st') as (c3 & H3 & F3).
  destruct (emits_do_buffer_init pushes_nothing SendBuffer BUFFER_SIZE eq_refl
              (timer_setup st')) as (c4 & H4 & F4).
  destruct (emits_do_buffer_init pushes_nothing ReceiveBuffer BUFFER_SIZE eq_refl
              (do_buffer_init SendBuffer BUFFER_SIZE (timer_setup st')))
    as (c5 & H5 & F5).
  exists (c1 ++ c2 ++ c3 ++ c4 ++ c5). split.
  - rewrite H5, H4, H3, H2, H1. rewrite <- !app_assoc. reflexivity.
  - repeat (apply Forall_app; split); assumption.
Qed.

(** ** The transmit interrupt during and after start-up *)

Lemma tx_neutral_buffer_put b c : tx_neutral (buffer_put b c).
Proof. split; [intros enabled|]; reflexivity. Qed.

Lemma tx_interrupt_enabled_neutral t new :
  Forall tx_neutral new -> tx_interrupt_enabled (t ++ new) = tx_interrupt_enabled t.
Proof.
  intros H. rewrite tx_interrupt_enabled_app. generalize (tx_interrupt_enabled t).
  induction H as [|c new [Hc _] _ IH]; intros enabled; [reflexivity|].
  cbn [fold_left]. rewrite Hc. apply IH.
Qed.

Lemma transmitted_neutral t new :
  Forall tx_neutral new -> transmitted (t ++ new) = transmitted t.
Proof.
  intros H. rewrite transmitted_app.
  assert (transmitted new = []) as ->; [|apply app_nil_r].
  induction H as [|c new [_ Hc] _ IH]; [reflexivity|].
  change (c :: new) with ([c] ++ new). rewrite transmitted_app, Hc, IH. reflexivity.
Qed.

Lemma for_i_trace fuel (bound : machine -> Z) (body : Z -> machine -> machine) :
  (forall i st, trace (body i st) = trace st) ->
  forall i st, trace (for_i fuel i bound body st) = trace st.
Proof.
  intros Hbody. induction fuel as [|fuel IH]; intros i st; [reflexivity|].
  cbn [for_i]. destruct (i <? bound st); [|reflexivity].
  rewrite IH. apply Hbody.
Qed.

Lemma greeting_nonzero : Forall (fun c => c <> 0) greeting.
Proof. unfold greeting. repeat (apply Forall_cons_2; [discriminate|]). constructor. Qed.

Lemma greeting_bytes : map uint8 greeting = greeting.
Proof. reflexivity. Qed.

Lemma emits_print_field (P : call -> Prop) r value shift :
  (forall c, P (buffer_put SendBuffer c)) -> (forall x, P (read_register r x)) ->
  emits P (print_field r value shift).
Proof.
  intros Hput Hread. unfold print_field.
  apply emits_seq; [apply emits_hw, Hread|apply emits_usart_print_int, Hput].
Qed.

(** The banner: the greeting goes into the send buffer first, and nothing
    in the banner touches the transmit interrupt or the transmit register. *)
Lemma main_banner_inv channel_array sqr1 sqr2 st :
  exists calls,
    trace (main_banner channel_array sqr1 sqr2 st) =
      trace st ++ map (buffer_put SendBuffer) greeting ++ calls
    /\ Forall tx_neutral calls.
Proof.
  unfold main_banner. cbv zeta.
  fold greeting.
  match goal with
  | |- exists calls, trace (?chain ?X) = _ /\ _ =>
      assert (emits tx_neutral chain) as Hchain
  end.
  { repeat match goal with
      | |- emits _ (usart_print_string _) =>
          apply emits_usart_print_string; intros c; apply tx_neutral_buffer_put
      | |- emits _ (print_field _ _ _) =>
          apply emits_print_field;
          [intros c; apply tx_neutral_buffer_put
          |intros x; split; [intros enabled|]; reflexivity]
      | |- emits _ (_ ;; _) => apply emits_seq
      end. }
  match goal with
  | |- exists calls, trace (?chain ?X) = _ /\ _ =>
      destruct (Hchain X) as (c4 & H4 & F4)
  end.
  rewrite H4.
  rewrite for_i_trace by reflexivity.
  rewrite !trace_hw.
  rewrite usart_print_string_puts by apply greeting_nonzero.
  rewrite puts_spec. cbn [trace]. rewrite greeting_bytes.
  eexists. rewrite <- !app_assoc. split; [reflexivity|].
  apply Forall_app. split; [|apply Forall_app; split; [|exact F4]].
  - constructor; [|constructor]. split; [intros enabled|]; reflexivity.
  - constructor; [|constructor]. split; [intros enabled|]; reflexivity.
Qed.

Lemma fill_channels_adc1 channel_array :
  (4 <= length channel_array)%nat ->
  for_i MAIN_ROUNDS 0 (fun _ : list Z => 4)
    (fun i a => <[Z.to_nat i := uint8 i]> a) channel_array =
  [0; 1; 2; 3] ++ drop 4 channel_array.
Proof.
  intros Hlen.
  destruct channel_array as [|a0 [|a1 [|a2 [|a3 rest]]]]; cbn [length] in Hlen; try lia.
  reflexivity.
Qed.

Lemma fill_channels_adc2 rest :
  for_i MAIN_ROUNDS 0 (fun _ : list Z => 4)
    (fun i a => <[Z.to_nat i := uint8 (i + 4)]> a) ([0; 1; 2; 3] ++ rest) =
  [4; 5; 6; 7] ++ rest.
Proof. reflexivity. Qed.

(** With [n_conv = 8], [main] gives ADC1 the channel sequence 0, 1, 2, 3
    and ADC2 the sequence 4, 5, 6, 7, right after the greeting. *)
Lemma main_banner_channel_sequences channel_array sqr1 sqr2 st :
  n_conv st = 8 ->
  (4 <= length channel_array)%nat ->
  exists calls,
    trace (main_banner channel_array sqr1 sqr2 st) =
      trace st ++ map (buffer_put SendBuffer) greeting ++
      [adc_set_regular_sequence ADC1 4 ([0; 1; 2; 3] ++ drop 4 channel_array);
       adc_set_regular_sequence ADC2 4 ([4; 5; 6; 7] ++ drop 4 channel_array)] ++
      calls.
Proof.
  intros Hn Hlen. unfold main_banner. cbv zeta. fold greeting.
  match goal with
  | |- exists calls, trace (?chain ?X) = _ =>
      assert (emits (fun _ => True) chain) as Hchain
  end.
  { repeat match goal with
      | |- emits _ (usart_print_string _) =>
          apply emits_usart_print_string; done
      | |- emits _ (print_field _ _ _) => apply emits_print_field; done
      | |- emits _ (_ ;; _) => apply emits_seq
      end. }
  match goal with
  | |- exists calls, trace (?chain ?X) = _ =>
      destruct (Hchain X) as (calls & Hcalls & _)
  end.
  exists calls. rewrite Hcalls.
  rewrite for_i_trace by reflexivity.
  rewrite !trace_hw.
  rewrite usart_print_string_puts by apply greeting_nonzero.
  rewrite puts_spec. cbn [trace n_conv hw]. rewrite greeting_bytes, Hn.
  change (8 ÷ 2) with 4.
  rewrite (fill_channels_adc1 _ Hlen), fill_channels_adc2.
  rewrite <- !app_assoc. reflexivity.
Qed.

Lemma step_timer_poll cc1if s :
  exists calls,
    cpu (step (TimerPoll cc1if) s) = logged calls (cpu s)
    /\ Forall tx_neutral calls.
Proof.
  cbn [step]. unfold main_loop_poll.
  destruct cc1if; [destruct (uint16 (main_i s + 1) <? 500)|];
    rewrite !hw_logged, ?logged_logged; cbn [cpu];
    eexists; (split; [reflexivity|]);
    repeat (constructor; [split; [intros enabled|]; reflexivity|]); constructor.
Qed.

Lemma tx_interrupt_stays_disabled rxne rx txe data :
  fold_left tx_interrupt_step (usart1_isr_calls rxne rx txe data) false = false.
Proof.
  unfold usart1_isr_calls.
  destruct rxne, txe, (0 <? Z.land (uint16 data) 65280); reflexivity.
Qed.

(** Without a conversion-complete interrupt, a disabled transmit interrupt
    stays disabled. *)
Lemma run_tx_interrupt_disabled es : forall s,
  Forall (fun e => is_conversion e = false) es ->
  tx_interrupt_enabled (trace (cpu s)) = false ->
  tx_interrupt_enabled (trace (cpu (run es s))) = false.
Proof.
  induction es as [|e es IH]; intros s Hes Hoff; [exact Hoff|].
  apply Forall_cons in Hes as [He Hes].
  cbn [run fold_left]. fold (run es (step e s)). apply IH; [exact Hes|].
  destruct e as [cc1if|samples|rxne rx txe]; [| discriminate |].
  - destruct (step_timer_poll cc1if s) as (calls & -> & Hn).
    cbn [logged trace]. rewrite tx_interrupt_enabled_neutral; assumption.
  - cbn [step cpu]. rewrite usart1_isr_spec. cbn [trace].
    rewrite tx_interrupt_enabled_app, Hoff. apply tx_interrupt_stays_disabled.
Qed.

(** With the transmit interrupt disabled, no conversion completing and no
    byte received, the handler of USART1 is not entered: nothing is sent and
    the send buffer keeps its bytes. *)
Lemma run_nothing_sent es : forall s,
  Forall (fun e => is_conversion e = false) es ->
  Forall (fun e => is_reception e = false) es ->
  admissible es s = true ->
  tx_interrupt_enabled (trace (cpu s)) = false ->
  transmitted (trace (cpu (run es s))) = transmitted (trace (cpu s))
  /\ send_buffer (cpu (run es s)) = send_buffer (cpu s).
Proof.
  induction es as [|e es IH]; intros s Hconv Hrec Hadm Hoff; [done|].
  apply Forall_cons in Hconv as [He Hconv].
  apply Forall_cons in Hrec as [Hr Hrec].
  cbn [admissible] in Hadm. apply andb_prop in Hadm as [Hdel Hadm].
  cbn [run fold_left]. fold (run es (step e s)).
  destruct e as [cc1if|samples|rxne rx txe]; [| discriminate |].
  - destruct (step_timer_poll cc1if s) as (calls & Hstep & Hn).
    destruct (IH (step (TimerPoll cc1if) s)) as [Ht Hb]; try assumption.
    + rewrite Hstep. cbn [logged trace].
      rewrite tx_interrupt_enabled_neutral; assumption.
    + rewrite Ht, Hb, Hstep. cbn [logged trace send_buffer].
      rewrite transmitted_neutral by assumption. done.
  - exfalso. destruct rxne; [discriminate|].
    cbn [deliverable] in Hdel. unfold usart1_irq_raised in Hdel.
    rewrite Hoff, andb_false_r in Hdel. discriminate.
Qed.

Lemma pushed_usart1_isr_calls rxne rx txe data :
  pushed (usart1_isr_calls rxne rx txe data) = [].
Proof.
  unfold usart1_isr_calls.
  destruct rxne, txe, (0 <? Z.land (uint16 data) 65280); reflexivity.
Qed.

Lemma tx_interrupt_enabled_adc1_2_isr st :
  tx_interrupt_enabled (trace (adc1_2_isr st)) = true.
Proof.
  destruct (adc1_2_isr_calls st) as [text ->].
  rewrite !app_assoc, tx_interrupt_enabled_app. reflexivity.
Qed.

(** The handler of USART1 entered on an empty transmit register while the
    send buffer is empty. *)
Lemma usart1_isr_empty rxne rx st :
  send_buffer st = Buffer.init BUFFER_SIZE ->
  tx_interrupt_enabled (trace (usart1_isr rxne rx true st)) = false
  /\ transmitted (trace (usart1_isr rxne rx true st)) = transmitted (trace st)
  /\ pushed (trace (usart1_isr rxne rx true st)) = pushed (trace st)
  /\ send_buffer (usart1_isr rxne rx true st) = Buffer.init BUFFER_SIZE.
Proof.
  intros Hb. rewrite usart1_isr_spec, Hb. cbn [trace send_buffer].
  change (Buffer.get (Buffer.init BUFFER_SIZE))
    with (Buffer.EMPTY, Buffer.init BUFFER_SIZE).
  cbn [fst snd].
  rewrite tx_interrupt_enabled_app, transmitted_app, pushed_app,
    pushed_usart1_isr_calls, app_nil_r.
  unfold usart1_isr_calls. destruct rxne; cbn; rewrite ?app_nil_r; done.
Qed.

(** C10 as stated fails: after the transmit interrupt was disabled in the
    window and the banner was buffered, a received byte enters the handler
    of USART1, which finds the transmit register empty and sends the first
    banner byte; no conversion-complete interrupt has happened and the
    transmit interrupt is still disabled. *)
Lemma banner_sent_before_first_conversion :
  exists st1,
    main_init (fun _ => false) (fun _ => false) 1 reset = Some st1
    /\ let window := usart1_isr false 0 true st1 in
       let s := mkSystem (main_banner (replicate 16 0) 0 0 window) 0 in
       let es := [TimerPoll false; UsartIrq true (chr "A") true] in
       tx_interrupt_enabled (trace window) = false
       /\ admissible es s = true
       /\ Forall (fun e => is_conversion e = false) es
       /\ tx_interrupt_enabled (trace (cpu (run es s))) = false
       /\ transmitted (trace (cpu (run es s))) = [chr "D"].
Proof.
  eexists. split; [reflexivity|].
  split; [vm_compute; reflexivity|].
  split; [vm_compute; reflexivity|].
  split; [repeat constructor|].
  split; vm_compute; reflexivity.
Qed.

(** C10, amended: [main] enables the transmit interrupt before any byte is
    pushed into the send buffer; a transmit-empty event served in that
    window pops the empty marker and disables the interrupt; the banner
    that follows is buffered but not sent, and afterwards only [adc1_2_isr]
    enables the interrupt again.  Until the first conversion-complete
    interrupt the buffered bytes are not sent as long as no byte is
    received. *)
Theorem transmit_interrupt_window
    (busy1 busy2 : nat -> bool) (fuel : nat) (st0 st1 : machine) :
  main_init busy1 busy2 fuel st0 = Some st1 ->
  (exists calls,
     trace st1 = trace st0 ++ calls ++ [usart_enable_tx_interrupt USART1]
     /\ pushed calls = [])
  /\ Buffer.contents (send_buffer st1) = []
  /\ tx_interrupt_enabled (trace st1) = true
  /\ (forall rxne rx channel_array sqr1 sqr2,
        let window := usart1_isr rxne rx true st1 in
        let st3 := main_banner channel_array sqr1 sqr2 window in
        tx_interrupt_enabled (trace window) = false
        /\ transmitted (trace window) = transmitted (trace st1)
        /\ tx_interrupt_enabled (trace st3) = false
        /\ transmitted (trace st3) = transmitted (trace st1)
        /\ (exists more,
              pushed (trace st3) = pushed (trace st0) ++ greeting ++ more)
        /\ forall es i,
             Forall (fun e => is_conversion e = false) es ->
             tx_interrupt_enabled (trace (cpu (run es (mkSystem st3 i)))) = false
             /\ (Forall (fun e => is_reception e = false) es ->
                 admissible es (mkSystem st3 i) = true ->
                 transmitted (trace (cpu (run es (mkSystem st3 i)))) =
                   transmitted (trace st1)
                 /\ send_buffer (cpu (run es (mkSystem st3 i))) = send_buffer st3))
  /\ (forall st, tx_interrupt_enabled (trace (adc1_2_isr st)) = true).
Proof.
  intros Hinit.
  destruct (main_init_inv _ _ _ _ _ Hinit) as [(calls & Htrace & Hnone) Hbuffer].
  split; [exists calls; split; [exact Htrace|apply pushed_nothing, Hnone]|].
  split; [rewrite Hbuffer; reflexivity|].
  assert (tx_interrupt_enabled (trace st1) = true) as Hon.
  { rewrite Htrace, !app_assoc, tx_interrupt_enabled_app. reflexivity. }
  split; [exact Hon|].
  split; [|apply tx_interrupt_enabled_adc1_2_isr].
  intros rxne rx channel_array sqr1 sqr2 window st3.
  destruct (usart1_isr_empty rxne rx st1 Hbuffer) as (Hoff & Hsent & Hpushed & _).
  fold window in Hoff, Hsent, Hpushed.
  destruct (main_banner_inv channel_array sqr1 sqr2 window) as (bcalls & Hb & Hn).
  fold st3 in Hb.
  assert (Forall tx_neutral (map (buffer_put SendBuffer) greeting ++ bcalls)) as Hn'.
  { apply Forall_app. split; [|exact Hn].
    apply Forall_fmap, Forall_forall. intros c _. apply tx_neutral_buffer_put. }
  assert (tx_interrupt_enabled (trace st3) = false) as Hoff3.
  { rewrite Hb, tx_interrupt_enabled_neutral by exact Hn'. exact Hoff. }
  assert (transmitted (trace st3) = transmitted (trace st1)) as Hsent3.
  { rewrite Hb, transmitted_neutral by exact Hn'. exact Hsent. }
  repeat split; try assumption.
  - exists (pushed bcalls).
    rewrite Hb, !pushed_app, pushed_buffer_put, Hpushed, Htrace, !pushed_app.
    rewrite (pushed_nothing _ Hnone). cbn [pushed omap app].
    rewrite app_nil_r. reflexivity.
  - apply run_tx_interrupt_disabled; assumption.
  - destruct (run_nothing_sent es (mkSystem st3 i)) as [Ht _]; try assumption.
    rewrite Ht. exact Hsent3.
  - destruct (run_nothing_sent es (mkSystem st3 i)) as [_ Hs]; try assumption.
Qed.

Lemma transmit_interrupt_window_witness :
  exists st1,
    main_init (fun _ => false) (fun _ => false) 1 reset = Some st1
    /\ Buffer.contents (send_buffer st1) = []
    /\ tx_interrupt_enabled (trace st1) = true
    /\ tx_interrupt_enabled (trace (usart1_isr false 0 true st1)) = false.
Proof.
  eexists. split; [reflexivity|].
  pose proof (transmit_interrupt_window (fun _ => false) (fun _ => false) 1 reset _
                eq_refl) as (_ & Hempty & Hon & Hwindow & _).
  split; [exact Hempty|]. split; [exact Hon|].
  exact (proj1 (Hwindow false 0 (replicate 16 0) 0 0)).
Defined.

Lemma hex_digit_char k :
  0 <= k < 16 -> cstring "0123456789ABCDEF" !!! Z.to_nat k = hex_char k.
Proof.
  intros H.
  assert (k = 0 \/ k = 1 \/ k = 2 \/ k = 3 \/ k = 4 \/ k = 5 \/ k = 6 \/ k = 7 \/
          k = 8 \/ k = 9 \/ k = 10 \/ k = 11 \/ k = 12 \/ k = 13 \/ k = 14 \/ k = 15)
    as Hk by lia.
  repeat destruct Hk as [->|Hk]; try subst k; reflexivity.
Qed.

Lemma hex_value_char k : 0 <= k < 16 -> hex_value (hex_char k) = Some k.
Proof.
  intros H. unfold hex_value, hex_char.
  change (chr "0") with 48. change (chr "9") with 57.
  change (chr "A") with 65. change (chr "F") with 70.
  destruct (Z.ltb_spec k 10).
  - replace ((48 <=? 48 + k) && (48 + k <=? 57)) with true.
    + f_equal. lia.
    + symmetry. apply andb_true_intro. split; apply Z.leb_le; lia.
  - replace ((48 <=? 65 + (k - 10)) && (65 + (k - 10) <=? 57)) with false.
    + replace ((65 <=? 65 + (k - 10)) && (65 + (k - 10) <=? 70)) with true.
      * f_equal. lia.
      * symmetry. apply andb_true_intro. split; apply Z.leb_le; lia.
    + symmetry. apply andb_false_intro2. apply Z.leb_gt. lia.
Qed.

Lemma hex_char_byte k : 0 <= k < 16 -> is_byte (hex_char k).
Proof.
  intros H. unfold hex_char, is_byte.
  change (chr "0") with 48. change (chr "A") with 65.
  destruct (k <? 10); lia.
Qed.

Lemma hex_lsb_length rounds : forall value, length (hex_lsb rounds value) = rounds.
Proof. induction rounds as [|r IH]; intros value; cbn [hex_lsb length]; [done|]. by rewrite IH. Qed.

Lemma hex_lsb_bytes rounds : forall value, Forall is_byte (hex_lsb rounds value).
Proof.
  induction rounds as [|r IH]; intros value; cbn [hex_lsb]; [constructor|].
  constructor; [|apply IH]. apply hex_char_byte, Z.mod_pos_bound. lia.
Qed.

Lemma hex_loop_spec rounds : forall i value buffer,
  0 <= value < 65536 ->
  (i + rounds <= length buffer)%nat ->
  hex_loop rounds i value buffer =
  take i buffer ++ hex_lsb rounds value ++ drop (i + rounds) buffer.
Proof.
  induction rounds as [|r IH]; intros i value buffer Hv Hlen.
  - cbn [hex_loop hex_lsb app]. rewrite Nat.add_0_r, take_drop. reflexivity.
  - cbn [hex_loop hex_lsb].
    change 0xF with (Z.ones 4). rewrite Z.land_ones by lia.
    rewrite Z.shiftr_div_pow2 by lia. change (2 ^ 4) with 16.
    assert (0 <= value / 16 < 4096) as Hq.
    { split; [apply Z.div_pos; lia|apply Z.div_lt_upper_bound; lia]. }
    rewrite uint16_small by lia.
    rewrite hex_digit_char by (apply Z.mod_pos_bound; lia).
    rewrite IH by (rewrite ?length_insert; lia).
    rewrite (take_S_r _ _ (hex_char (value mod 16)))
      by (apply list_lookup_insert_eq; lia).
    rewrite take_insert_ge by lia. rewrite drop_insert_lt by lia.
    rewrite <- app_assoc. cbn [app].
    replace (S i + r)%nat with (i + S r)%nat by lia. reflexivity.
Qed.

Lemma parse_hex_app a : forall acc b,
  parse_hex acc (a ++ b) =
  match parse_hex acc a with Some x => parse_hex x b | None => None end.
Proof.
  induction a as [|c a IH]; intros acc b; cbn [parse_hex app]; [done|].
  destruct (hex_value c); [apply IH|done].
Qed.

Lemma parse_hex_lsb rounds : forall value,
  0 <= value ->
  parse_hex 0 (reverse (hex_lsb rounds value)) = Some (value mod 16 ^ Z.of_nat rounds).
Proof.
  induction rounds as [|r IH]; intros value Hv.
  - cbn. f_equal. symmetry. apply Z.mod_1_r.
  - cbn [hex_lsb]. rewrite reverse_cons, parse_hex_app, IH by (apply Z.div_pos; lia).
    cbn [parse_hex]. rewrite hex_value_char by (apply Z.mod_pos_bound; lia).
    f_equal.
    replace (Z.of_nat (S r)) with (1 + Z.of_nat r) by lia.
    rewrite Z.pow_add_r by lia. change (16 ^ 1) with 16.
    rewrite (Z.rem_mul_r value 16 (16 ^ Z.of_nat r)) by lia. lia.
Qed.

Lemma usart_print_hex_puts value st :
  usart_print_hex value st =
  puts (reverse (hex_lsb 4 (uint16 value)) ++ [chr " "]) st.
Proof.
  unfold usart_print_hex, seq_cmd.
  assert (0 <= uint16 value < 65536) as Hv by (apply Z.mod_pos_bound; lia).
  rewrite hex_loop_spec by (rewrite ?length_replicate; unfold PRINT_BUFFER; lia || exact Hv).
  rewrite put_reversed_puts.
  - rewrite take_0. cbn [app].
    rewrite (take_app_length' (hex_lsb 4 (uint16 value))) by (symmetry; apply hex_lsb_length).
    rewrite puts_snoc. reflexivity.
  - rewrite take_0. cbn [app]. rewrite length_app, hex_lsb_length. lia.
Qed.

(** X1: [usart_print_hex] queues exactly four hexadecimal digits, most
    significant first, and one space; read back as a base 16 number the
    digits give the low 16 bits of the argument. *)
Theorem usart_print_hex_round_trip (value : Z) (st : machine) :
  exists d3 d2 d1 d0,
    pushed (trace (usart_print_hex value st)) =
      pushed (trace st) ++ [d3; d2; d1; d0; chr " "]
    /\ parse_hex 0 [d3; d2; d1; d0] = Some (uint16 value).
Proof.
  assert (0 <= uint16 value < 65536) as Hv by (apply Z.mod_pos_bound; lia).
  pose proof (parse_hex_lsb 4 (uint16 value) ltac:(lia)) as Hparse.
  change (16 ^ Z.of_nat 4) with 65536 in Hparse.
  rewrite (Z.mod_small _ _ Hv) in Hparse.
  pose proof (hex_lsb_bytes 4 (uint16 value)) as Hbytes.
  rewrite usart_print_hex_puts, pushed_puts.
  - cbn [hex_lsb reverse rev_append app] in *.
    do 4 eexists. split; [reflexivity|exact Hparse].
  - apply Forall_app. split; [apply Forall_reverse, Hbytes|].
    constructor; [unfold is_byte; change (chr " ") with 32; lia|constructor].
Qed.

Lemma parse_hex_word value :
  0 <= value < 65536 -> parse_hex 0 (reverse (hex_lsb 4 value)) = Some value.
Proof.
  intros Hv. rewrite parse_hex_lsb by lia.
  change (16 ^ Z.of_nat 4) with 65536. rewrite Z.mod_small by exact Hv. reflexivity.
Qed.

Lemma parse_hex_acc text : forall acc x,
  parse_hex 0 text = Some x ->
  parse_hex acc text = Some (acc * 16 ^ Z.of_nat (length text) + x).
Proof.
  induction text as [|c text IH] using rev_ind; intros acc x H.
  - cbn in *. injection H as <-. f_equal. lia.
  - rewrite parse_hex_app in *.
    destruct (parse_hex 0 text) as [y|] eqn:Hy; [|discriminate].
    rewrite (IH acc y eq_refl). cbn [parse_hex] in *.
    destruct (hex_value c) as [d|]; [|discriminate].
    injection H as <-. f_equal.
    rewrite length_app. cbn [length].
    replace (Z.of_nat (length text + 1)) with (Z.of_nat (length text) + 1) by lia.
    rewrite Z.pow_add_r by lia. lia.
Qed.

(** X2: for a 32-bit register value [print_register] queues the four hex
    digits of the upper half, a space, the four hex digits of the lower
    half and two spaces; the eight digits read back give the value. *)
Theorem print_register_round_trip (reg : Z) (st : machine) :
  0 <= reg < 2 ^ 32 ->
  exists high low,
    pushed (trace (print_register reg st)) =
      pushed (trace st) ++ high ++ [chr " "] ++ low ++ [chr " "; chr " "]
    /\ length high = 4%nat /\ length low = 4%nat
    /\ parse_hex 0 high = Some (reg / 65536)
    /\ parse_hex 0 low = Some (reg mod 65536)
    /\ parse_hex 0 (high ++ low) = Some reg.
Proof.
  intros Hreg.
  assert (Z.land (Z.shiftr reg 16) 0xFFFF = reg / 65536) as Hhigh.
  { rewrite high_half_mask by exact Hreg. apply Z.shiftr_div_pow2. lia. }
  assert (Z.land (Z.shiftr reg 0) 0xFFFF = reg mod 65536) as Hlow.
  { rewrite Z.shiftr_0_r. change 0xFFFF with (Z.ones 16). apply Z.land_ones. lia. }
  assert (0 <= reg / 65536 < 65536) as Hh.
  { split; [apply Z.div_pos; lia|apply Z.div_lt_upper_bound; lia]. }
  assert (0 <= reg mod 65536 < 65536) as Hl by (apply Z.mod_pos_bound; lia).
  exists (reverse (hex_lsb 4 (reg / 65536))), (reverse (hex_lsb 4 (reg mod 65536))).
  split; [|split; [|split; [|split; [|split]]]].
  - unfold print_register, seq_cmd. rewrite Hhigh, Hlow.
    rewrite !usart_print_hex_puts, !uint16_small by assumption.
    change (do_buffer_put SendBuffer (chr " ")) with (puts [chr " "]).
    rewrite <- !puts_app, pushed_puts.
    + rewrite <- !app_assoc. reflexivity.
    + repeat (apply Forall_app; split);
        try (apply Forall_reverse, hex_lsb_bytes);
        (constructor; [unfold is_byte; change (chr " ") with 32; lia|constructor]).
  - rewrite length_reverse. apply hex_lsb_length.
  - rewrite length_reverse. apply hex_lsb_length.
  - apply parse_hex_word, Hh.
  - apply parse_hex_word, Hl.
  - rewrite parse_hex_app, (parse_hex_word _ Hh).
    rewrite (parse_hex_acc _ _ _ (parse_hex_word _ Hl)).
    rewrite length_reverse, hex_lsb_length. f_equal.
    change (16 ^ Z.of_nat 4) with 65536.
    pose proof (Z.div_mod reg 65536 ltac:(lia)). lia.
Qed.

Lemma print_register_round_trip_witness :
  exists high low,
    pushed (trace (print_register 0xDEADBEEF reset)) =
      pushed (trace reset) ++ high ++ [chr " "] ++ low ++ [chr " "; chr " "]
    /\ length high = 4%nat /\ length low = 4%nat
    /\ parse_hex 0 high = Some (0xDEADBEEF / 65536)
    /\ parse_hex 0 low = Some (0xDEADBEEF mod 65536)
    /\ parse_hex 0 (high ++ low) = Some 0xDEADBEEF.
Proof. apply (print_register_round_trip 0xDEADBEEF reset). lia. Defined.

(** ** Decimal text over the whole range of [int] *)

Lemma lsb_digits_zero fuel : lsb_digits fuel 0 = [].
Proof. destruct fuel; reflexivity. Qed.

Lemma lsb_digits_length_bound fuel : forall value k,
  0 <= value < 10 ^ Z.of_nat k -> (length (lsb_digits fuel value) <= k)%nat.
Proof.
  induction fuel as [|fuel IH]; intros value k Hv; cbn [lsb_digits]; [cbn; lia|].
  destruct (Z.ltb_spec 0 value) as [Hpos|_]; [|cbn; lia].
  destruct k as [|k]; [change (10 ^ Z.of_nat 0) with 1 in Hv; lia|].
  cbn [length]. apply le_n_S, IH, div10_bound, Hv.
Qed.

Lemma lsb_digits_last fuel : forall value,
  0 < value < 10 ^ Z.of_nat fuel ->
  exists d, last (lsb_digits fuel value) = Some d /\ d <> chr "0".
Proof.
  induction fuel as [|fuel IH]; intros value Hv.
  - change (10 ^ Z.of_nat 0) with 1 in Hv. lia.
  - cbn [lsb_digits]. destruct (Z.ltb_spec 0 value) as [_|]; [|lia].
    destruct (Z.eq_dec (value / 10) 0) as [Hq|Hq].
    + rewrite Hq, lsb_digits_zero. exists (chr "0" + value mod 10).
      split; [reflexivity|].
      pose proof (Z.div_mod value 10 ltac:(lia)). lia.
    + assert (0 <= value / 10 < 10 ^ Z.of_nat fuel) as Hb by (apply div10_bound; lia).
      destruct (IH (value / 10)) as (d & Hd & Hnz); [lia|].
      exists d. split; [|exact Hnz].
      destruct (lsb_digits fuel (value / 10)) as [|x rest]; [discriminate|].
      exact Hd.
Qed.

(** X3: for every [int] other than the most negative one,
    [usart_print_int] queues an optional minus sign, between one and ten
    decimal digits without a leading zero (unless the value is 0) and one
    space, and the text reads back as the value. *)
Theorem usart_print_int_canonical (value : Z) (st : machine) :
  - 2 ^ 31 < value < 2 ^ 31 ->
  let sign := if value <? 0 then [chr "-"] else [] in
  exists digits,
    pushed (trace (usart_print_int value st)) =
      pushed (trace st) ++ sign ++ digits ++ [chr " "]
    /\ (1 <= length digits <= 10)%nat
    /\ Forall (fun c => is_digit c = true) digits
    /\ (value <> 0 -> head digits <> Some (chr "0"))
    /\ parse_decimal (sign ++ digits) = Some value.
Proof.
  intros Hv sign. exists (decimal_digits value).
  split; [|split; [|split; [|split]]].
  - rewrite usart_print_int_puts by lia.
    apply (pushed_puts (decimal_text value)), decimal_text_bytes.
  - pose proof (decimal_digits_nonempty value) as Hne.
    split; [destruct (decimal_digits value); [done|cbn; lia]|].
    unfold decimal_digits. destruct (value =? 0); [cbn; lia|].
    rewrite length_reverse. apply lsb_digits_length_bound.
    change (10 ^ Z.of_nat 10) with 10000000000. lia.
  - apply decimal_digits_are_digits.
  - intros Hnz. unfold decimal_digits.
    destruct (Z.eqb_spec value 0) as [|_]; [done|].
    destruct (lsb_digits_last PRINT_BUFFER (Z.abs value)) as (d & Hd & Hd0).
    { change (10 ^ Z.of_nat PRINT_BUFFER) with 10000000000000000000000000. lia. }
    rewrite head_reverse, Hd. congruence.
  - apply parse_decimal_text.
    change (10 ^ Z.of_nat PRINT_BUFFER) with 10000000000000000000000000. lia.
Qed.

Lemma usart_print_int_canonical_witness :
  exists digits,
    pushed (trace (usart_print_int (-2147483647) reset)) =
      pushed (trace reset) ++ [chr "-"] ++ digits ++ [chr " "]
    /\ (1 <= length digits <= 10)%nat
    /\ Forall (fun c => is_digit c = true) digits
    /\ (-2147483647 <> 0 -> head digits <> Some (chr "0"))
    /\ parse_decimal ([chr "-"] ++ digits) = Some (-2147483647).
Proof. apply (usart_print_int_canonical (-2147483647) reset). lia. Defined.

(** ** More on the ring buffer *)

Lemma full_no_room b : Buffer.wf b -> Buffer.free b = 0 -> Buffer.is_full b = true.
Proof.
  intros [Hc Hh Ht _]. unfold Buffer.free, Buffer.count, Buffer.is_full, Buffer.next.
  rewrite mod_diff, mod_succ by assumption.
  unfold Buffer.ring in *. intros Hfree. apply Z.eqb_eq.
  destruct (Z.leb_spec (Buffer.head b) (Buffer.tail b)),
    (Z.ltb_spec (Buffer.tail b + 1) (Buffer.capacity b + 1)); lia.
Qed.

Lemma put_full b x : Buffer.wf b -> Buffer.free b = 0 -> Buffer.put b x = b.
Proof. intros Hwf Hfree. unfold Buffer.put. rewrite full_no_room; done. Qed.

Lemma free_range b : Buffer.wf b -> 0 <= Buffer.free b <= Buffer.capacity b.
Proof. intros Hwf. pose proof (count_range b Hwf). unfold Buffer.free. lia. Qed.

Lemma contents_length b :
  Buffer.wf b -> Z.of_nat (length (Buffer.contents b)) = Buffer.count b.
Proof.
  intros Hwf. pose proof (count_range b Hwf).
  unfold Buffer.contents. rewrite length_map, length_seq. lia.
Qed.

Lemma get_empty_contents b :
  Buffer.wf b -> Buffer.contents b = [] -> Buffer.get b = (Buffer.EMPTY, b).
Proof.
  intros Hwf Hnil. apply get_empty.
  pose proof (contents_length b Hwf) as Hlen. rewrite Hnil in Hlen. cbn in Hlen.
  destruct Hwf as [Hc Hh Ht _]. unfold Buffer.count in Hlen.
  rewrite mod_diff in Hlen by assumption.
  destruct (Z.leb_spec (Buffer.head b) (Buffer.tail b)); unfold Buffer.ring in *; lia.
Qed.

Lemma get_contents b x rest :
  Buffer.wf b -> Buffer.contents b = x :: rest ->
  fst (Buffer.get b) = x
  /\ Buffer.wf (snd (Buffer.get b))
  /\ Buffer.contents (snd (Buffer.get b)) = rest.
Proof.
  intros Hwf Hcons.
  pose proof (contents_length b Hwf) as Hlen. rewrite Hcons in Hlen.
  cbn [length] in Hlen.
  pose proof (count_range b Hwf) as Hcount.
  destruct Hwf as [Hc Hh Ht Hs].
  assert (Buffer.head b <> Buffer.tail b) as Hne.
  { intros Heq. unfold Buffer.count in Hlen. rewrite Heq, Z.sub_diag in Hlen.
    rewrite Z.mod_0_l in Hlen by (unfold Buffer.ring; lia). lia. }
  unfold Buffer.get, Buffer.is_empty.
  destruct (Z.eqb_spec (Buffer.head b) (Buffer.tail b)) as [|_]; [done|].
  cbn [fst snd].
  unfold Buffer.contents in Hcons.
  replace (Z.to_nat (Buffer.count b)) with (S (Z.to_nat (Buffer.count b - 1))) in Hcons by lia.
  cbn [seq map] in Hcons. injection Hcons as Hx Hrest.
  split; [|split].
  - rewrite <- Hx. rewrite Z.add_0_r, Z.mod_small by exact Hh. reflexivity.
  - constructor; cbn [Buffer.head Buffer.tail Buffer.capacity Buffer.slots];
      try assumption.
    unfold Buffer.next, Buffer.ring. cbn [Buffer.capacity].
    apply Z.mod_pos_bound. unfold Buffer.ring in *. lia.
  - rewrite <- Hrest. unfold Buffer.contents, Buffer.count, Buffer.next, Buffer.ring.
    cbn [Buffer.head Buffer.tail Buffer.capacity Buffer.slots].
    fold (Buffer.ring b).
    assert (Buffer.count b =
            if Buffer.head b <=? Buffer.tail b then Buffer.tail b - Buffer.head b
            else Buffer.tail b - Buffer.head b + Buffer.ring b) as Hcnt.
    { unfold Buffer.count. apply mod_diff; assumption. }
    assert ((Buffer.tail b - (Buffer.head b + 1) mod Buffer.ring b) mod Buffer.ring b
            = Buffer.count b - 1) as ->.
    { rewrite Hcnt, mod_succ by assumption.
      destruct (Z.ltb_spec (Buffer.head b + 1) (Buffer.ring b)).
      - rewrite (mod_diff (Buffer.tail b) (Buffer.head b + 1)) by lia.
        destruct (Z.leb_spec (Buffer.head b) (Buffer.tail b)),
          (Z.leb_spec (Buffer.head b + 1) (Buffer.tail b)); lia.
      - rewrite (mod_diff (Buffer.tail b) 0) by lia.
        destruct (Z.leb_spec (Buffer.head b) (Buffer.tail b)),
          (Z.leb_spec 0 (Buffer.tail b)); lia. }
    rewrite <- seq_shift, map_map. apply map_ext. intros k.
    f_equal. f_equal.
    rewrite Z.add_mod_idemp_l by (unfold Buffer.ring; lia).
    f_equal. lia.
Qed.

(** ** Strings *)

Lemma usart_print_string_zero a b st :
  Forall (fun c => c <> 0) a ->
  usart_print_string (a ++ 0 :: b) st = usart_print_string a st.
Proof.
  intros Ha. revert st. induction Ha as [|c a Hc _ IH]; intros st.
  - reflexivity.
  - cbn [app usart_print_string]. destruct (Z.eqb_spec c 0); [done|].
    unfold seq_cmd. apply IH.
Qed.

Lemma usart_print_string_app a b st :
  Forall (fun c => c <> 0) a ->
  usart_print_string (a ++ b) st = usart_print_string b (usart_print_string a st).
Proof.
  intros Ha. revert st. induction Ha as [|c a Hc _ IH]; intros st.
  - reflexivity.
  - cbn [app usart_print_string]. destruct (Z.eqb_spec c 0); [done|].
    unfold seq_cmd. apply IH.
Qed.

(** X4: [usart_print_string] treats its argument as a C string: it queues
    the characters before the first zero, one [buffer_put] each and in
    order, ignores what follows the zero, composes over concatenation and
    touches neither the sample store nor the receive buffer. *)
Theorem usart_print_string_c_string (a b : list Z) (st : machine) :
  Forall (fun c => c <> 0) a ->
  usart_print_string (a ++ 0 :: b) st = usart_print_string a st
  /\ usart_print_string (a ++ b) st = usart_print_string b (usart_print_string a st)
  /\ trace (usart_print_string a st) =
       trace st ++ map (fun c => buffer_put SendBuffer (uint8 c)) a
  /\ send_buffer (usart_print_string a st) =
       fold_left Buffer.put (map uint8 a) (send_buffer st)
  /\ v (usart_print_string a st) = v st
  /\ receive_buffer (usart_print_string a st) = receive_buffer st.
Proof.
  intros Ha.
  split; [apply usart_print_string_zero, Ha|].
  split; [apply usart_print_string_app, Ha|].
  rewrite usart_print_string_puts, puts_spec by exact Ha.
  cbn [trace send_buffer v receive_buffer]. rewrite map_map. done.
Qed.

Lemma usart_print_string_c_string_witness :
  let a := cstring "ADC" in
  let b := cstring "junk" in
  usart_print_string (a ++ 0 :: b) reset = usart_print_string a reset
  /\ usart_print_string (a ++ b) reset = usart_print_string b (usart_print_string a reset)
  /\ trace (usart_print_string a reset) =
       trace reset ++ map (fun c => buffer_put SendBuffer (uint8 c)) a
  /\ send_buffer (usart_print_string a reset) =
       fold_left Buffer.put (map uint8 a) (send_buffer reset)
  /\ v (usart_print_string a reset) = v reset
  /\ receive_buffer (usart_print_string a reset) = receive_buffer reset.
Proof.
  apply (usart_print_string_c_string (cstring "ADC") (cstring "junk") reset).
  repeat (apply Forall_cons_2; [discriminate|]). apply Forall_nil_2.
Defined.

(** ** The receive side of [usart1_isr] *)

(** X5: the receive side of [usart1_isr]: a received byte, cut to eight
    bits, is appended to the receive buffer unless the buffer is full, in
    which case it is dropped; the handler queues nothing for sending, never
    enables the transmit interrupt, leaves the send side alone when the
    transmit register is not empty and never touches the globals of the
    conversion. *)
Theorem usart1_isr_receive (rxne : bool) (rx : Z) (txe : bool) (st : machine) :
  Buffer.wf (receive_buffer st) ->
  let st' := usart1_isr rxne rx txe st in
  (* a received byte is stored, cut to eight bits, unless the buffer is full *)
  Buffer.contents (receive_buffer st') =
    (if rxne && (0 <? Buffer.free (receive_buffer st))
     then Buffer.contents (receive_buffer st) ++ [rx mod 256]
     else Buffer.contents (receive_buffer st))
  /\ Buffer.wf (receive_buffer st')
  (* the handler never puts into the send buffer nor enables the interrupt *)
  /\ pushed (trace st') = pushed (trace st)
  /\ (tx_interrupt_enabled (trace st) = false ->
      tx_interrupt_enabled (trace st') = false)
  (* without an empty transmit register the send side is left alone *)
  /\ (txe = false ->
      send_buffer st' = send_buffer st
      /\ usart1_isr_data st' = usart1_isr_data st
      /\ transmitted (trace st') = transmitted (trace st))
  (* the globals of the conversion are never touched *)
  /\ v st' = v st /\ n_conv st' = n_conv st /\ adc1_2_isr_i st' = adc1_2_isr_i st.
Proof.
  intros Hwf st'. subst st'. rewrite usart1_isr_spec.
  cbn [trace send_buffer receive_buffer v n_conv adc1_2_isr_i usart1_isr_data].
  split; [|split; [|split; [|split; [|split]]]]; try done.
  - destruct rxne; [|reflexivity]. cbn [andb].
    pose proof (free_range _ Hwf) as Hfree.
    destruct (Z.ltb_spec 0 (Buffer.free (receive_buffer st))) as [Hroom|Hfull].
    + apply contents_put; assumption.
    + rewrite put_full by (assumption || lia). reflexivity.
  - destruct rxne; [apply wf_put|]; exact Hwf.
  - rewrite pushed_app, pushed_usart1_isr_calls. apply app_nil_r.
  - intros Hoff. rewrite tx_interrupt_enabled_app, Hoff.
    apply tx_interrupt_stays_disabled.
  - intros ->. repeat split. rewrite transmitted_app.
    unfold usart1_isr_calls. destruct rxne; cbn; apply app_nil_r.
Qed.

Lemma usart1_isr_receive_witness :
  let st := do_buffer_init ReceiveBuffer BUFFER_SIZE reset in
  Buffer.contents (receive_buffer (usart1_isr true 0x141 false st)) = [0x41].
Proof.
  apply (proj1 (usart1_isr_receive true 0x141 false
                  (do_buffer_init ReceiveBuffer BUFFER_SIZE reset)
                  (wf_init BUFFER_SIZE ltac:(unfold BUFFER_SIZE; lia)))).
Defined.

(** ** Draining the send buffer *)

Lemma byte_high_bits x : is_byte x -> Z.land (uint16 x) 0xFF00 = 0.
Proof.
  intros Hx. unfold is_byte in Hx. rewrite uint16_small by lia.
  rewrite <- (Z.mod_small x 256) by lia.
  change 256 with (2 ^ 8). rewrite <- Z.land_ones by lia.
  rewrite <- Z.land_assoc. change (Z.land (Z.ones 8) 65280) with 0.
  apply Z.land_0_r.
Qed.

Lemma byte_low_bits x : is_byte x -> Z.land (uint16 x) 0xFF = x.
Proof.
  intros Hx. unfold is_byte in Hx. rewrite uint16_small by lia.
  change 0xFF with (Z.ones 8). rewrite Z.land_ones by lia.
  apply Z.mod_small. lia.
Qed.

(** One transmit-empty interrupt on a buffer that holds [x :: rest]. *)
Lemma usart1_isr_sends x rest st :
  Buffer.wf (send_buffer st) ->
  Buffer.contents (send_buffer st) = x :: rest ->
  is_byte x ->
  let st' := usart1_isr false 0 true st in
  transmitted (trace st') = transmitted (trace st) ++ [x]
  /\ tx_interrupt_enabled (trace st') = tx_interrupt_enabled (trace st)
  /\ Buffer.wf (send_buffer st')
  /\ Buffer.contents (send_buffer st') = rest.
Proof.
  intros Hwf Hc Hx st'. subst st'.
  destruct (get_contents _ _ _ Hwf Hc) as (Hfst & Hwf' & Hrest).
  rewrite usart1_isr_spec. cbn [trace send_buffer]. rewrite Hfst.
  unfold usart1_isr_calls. rewrite byte_high_bits, byte_low_bits by exact Hx.
  rewrite transmitted_app, tx_interrupt_enabled_app. cbn. done.
Qed.

Lemma run_drains text : forall s,
  Buffer.wf (send_buffer (cpu s)) ->
  Buffer.contents (send_buffer (cpu s)) = text ->
  Forall is_byte text ->
  tx_interrupt_enabled (trace (cpu s)) = true ->
  let es := replicate (length text) (UsartIrq false 0 true) in
  admissible es s = true
  /\ transmitted (trace (cpu (run es s))) = transmitted (trace (cpu s)) ++ text
  /\ tx_interrupt_enabled (trace (cpu (run es s))) = true
  /\ Buffer.wf (send_buffer (cpu (run es s)))
  /\ Buffer.contents (send_buffer (cpu (run es s))) = [].
Proof.
  induction text as [|x text IH]; intros s Hwf Hc Hbytes Hon.
  - cbn. rewrite app_nil_r. done.
  - apply Forall_cons in Hbytes as [Hx Hbytes].
    destruct (usart1_isr_sends x text (cpu s) Hwf Hc Hx) as (Hsent & Hen & Hwf' & Hc').
    cbn [length replicate admissible run fold_left deliverable].
    fold (run (replicate (length text) (UsartIrq false 0 true))
              (step (UsartIrq false 0 true) s)).
    destruct (IH (step (UsartIrq false 0 true) s)) as (Hadm & Ht & Hon' & Hw & Hnil);
      [exact Hwf'|exact Hc'|exact Hbytes|cbn [step cpu]; rewrite Hen; exact Hon|].
    split; [|split; [|split; [|split]]]; try assumption.
    + unfold usart1_irq_raised. rewrite Hon. exact Hadm.
    + rewrite Ht. cbn [step cpu]. rewrite Hsent, <- app_assoc. reflexivity.
Qed.

Lemma admissible_one_more n : forall s,
  admissible (replicate n (UsartIrq false 0 true)) s = true ->
  tx_interrupt_enabled
    (trace (cpu (run (replicate n (UsartIrq false 0 true)) s))) = true ->
  admissible (replicate n (UsartIrq false 0 true) ++ [UsartIrq false 0 true]) s = true.
Proof.
  induction n as [|n IH]; intros s Hadm Hon.
  - cbn in *. unfold usart1_irq_raised. rewrite Hon. reflexivity.
  - cbn [replicate app admissible]. cbn [replicate admissible] in Hadm.
    apply andb_prop in Hadm as [Hd Hadm]. rewrite Hd. cbn [andb].
    apply IH; [exact Hadm|exact Hon].
Qed.

(** X6: with the transmit interrupt enabled, as many transmit-empty
    interrupts as the send buffer holds bytes send those bytes in the order
    in which they were queued and leave the interrupt enabled; the next one
    finds the buffer empty, sends nothing and disables the interrupt. *)
Theorem usart1_isr_drains_send_buffer (s : system) (text : list Z) :
  Buffer.wf (send_buffer (cpu s)) ->
  Buffer.contents (send_buffer (cpu s)) = text ->
  Forall is_byte text ->
  tx_interrupt_enabled (trace (cpu s)) = true ->
  let es := replicate (length text) (UsartIrq false 0 true) in
  let last := step (UsartIrq false 0 true) (run es s) in
  admissible (es ++ [UsartIrq false 0 true]) s = true
  /\ transmitted (trace (cpu (run es s))) = transmitted (trace (cpu s)) ++ text
  /\ tx_interrupt_enabled (trace (cpu (run es s))) = true
  /\ transmitted (trace (cpu last)) = transmitted (trace (cpu s)) ++ text
  /\ tx_interrupt_enabled (trace (cpu last)) = false
  /\ Buffer.contents (send_buffer (cpu last)) = [].
Proof.
  intros Hwf Hc Hbytes Hon es last.
  destruct (run_drains text s Hwf Hc Hbytes Hon) as (Hadm & Ht & Hon' & Hw & Hnil).
  fold es in Hadm, Ht, Hon', Hw, Hnil.
  assert (cpu last = usart1_isr false 0 true (cpu (run es s))) as Hlast by reflexivity.
  rewrite Hlast, usart1_isr_spec, (get_empty_contents _ Hw Hnil).
  cbn [trace send_buffer fst snd].
  rewrite transmitted_app, tx_interrupt_enabled_app.
  split; [|split; [exact Ht|split; [exact Hon'|]]].
  - apply admissible_one_more; assumption.
  - cbn. rewrite app_nil_r. done.
Qed.

Lemma usart1_isr_drains_send_buffer_witness :
  let st := hw (usart_enable_tx_interrupt USART1)
              (usart_print_string (cstring "ok")
                 (do_buffer_init SendBuffer BUFFER_SIZE reset)) in
  let es := replicate 2 (UsartIrq false 0 true) in
  let last := step (UsartIrq false 0 true) (run es (mkSystem st 0)) in
  admissible (es ++ [UsartIrq false 0 true]) (mkSystem st 0) = true
  /\ transmitted (trace (cpu (run es (mkSystem st 0)))) =
       transmitted (trace st) ++ cstring "ok"
  /\ tx_interrupt_enabled (trace (cpu (run es (mkSystem st 0)))) = true
  /\ transmitted (trace (cpu last)) = transmitted (trace st) ++ cstring "ok"
  /\ tx_interrupt_enabled (trace (cpu last)) = false
  /\ Buffer.contents (send_buffer (cpu last)) = [].
Proof.
  apply (usart1_isr_drains_send_buffer
           (mkSystem
              (hw (usart_enable_tx_interrupt USART1)
                 (usart_print_string (cstring "ok")
                    (do_buffer_init SendBuffer BUFFER_SIZE reset))) 0)
           (cstring "ok")).
  - apply wf_put, wf_put, (wf_init BUFFER_SIZE). unfold BUFFER_SIZE. lia.
  - reflexivity.
  - repeat (apply Forall_cons_2; [split; [discriminate|reflexivity]|]).
    apply Forall_nil_2.
  - reflexivity.
Defined.

(** ** The rate of the main loop *)





(** ** From a conversion to the wire *)

Lemma decimal_text_length value :
  0 <= value < 65536 -> (length (decimal_text value) <= 6)%nat.
Proof.
  intros Hv. unfold decimal_text, decimal_digits.
  destruct (Z.ltb_spec value 0) as [|_]; [lia|].
  destruct (Z.eqb_spec value 0) as [|_]; [cbn; lia|].
  rewrite length_app, length_app, length_reverse. cbn [length].
  pose proof (lsb_digits_length_bound PRINT_BUFFER (Z.abs value) 5) as H.
  change (10 ^ Z.of_nat 5) with 100000 in H.
  specialize (H ltac:(lia)). lia.
Qed.

Lemma word_text_length w : (length (word_text w) <= 14)%nat.
Proof.
  unfold word_text. rewrite !length_app.
  pose proof (decimal_text_length _ (low_half_range w)).
  pose proof (decimal_text_length _ (low_half_range (Z.shiftr w 16))).
  change (length (cstring "- ")) with 2%nat. lia.
Qed.

Lemma adc_line_length st :
  0 <= n_conv st ->
  Z.of_nat (length (adc_line st)) <= 14 * (n_conv st ÷ 2) + 2.
Proof.
  intros Hn. unfold adc_line. rewrite length_app. cbn [length].
  assert (forall ws, (length (flat_map word_text ws) <= 14 * length ws)%nat) as H.
  { induction ws as [|w ws IH]; [cbn; lia|].
    cbn [flat_map]. rewrite length_app. cbn [length].
    pose proof (word_text_length w). lia. }
  specialize (H (take (Z.to_nat (n_conv st ÷ 2)) (v st))).
  rewrite length_take in H.
  assert (0 <= n_conv st ÷ 2) by (apply Z.quot_pos; lia).
  lia.
Qed.

Lemma dma_transfer_words samples st :
  Forall is_word (v st) -> Forall is_word (v (dma_transfer samples st)).
Proof.
  intros Hw. unfold dma_transfer.
  destruct (dma_enabled (dma_channel1 (trace st))); [|exact Hw].
  destruct (dma_memory_address (dma_channel1 (trace st))) as [[]|]; try exact Hw.
  cbn [set_v v]. apply Forall_app. split.
  - apply Forall_take, Forall_map, Forall_true. intros x.
    unfold is_word, uint32. apply Z.mod_pos_bound. lia.
  - apply Forall_drop, Hw.
Qed.

Lemma dma_transfer_frame samples st :
  n_conv (dma_transfer samples st) = n_conv st
  /\ send_buffer (dma_transfer samples st) = send_buffer st
  /\ receive_buffer (dma_transfer samples st) = receive_buffer st.
Proof.
  unfold dma_transfer.
  destruct (dma_enabled (dma_channel1 (trace st))); [|done].
  destruct (dma_memory_address (dma_channel1 (trace st))) as [[]|]; done.
Qed.

Lemma dma_transfer_ok samples st :
  machine_ok st -> dma_channel1 (trace st) = dma_armed ->
  machine_ok (dma_transfer samples st).
Proof.
  intros [Hn Hl Hw] Hdma.
  destruct (dma_transfer_frame samples st) as (En & _ & _).
  destruct (dma_transfer_armed samples st Hdma) as (El & _ & _).
  { rewrite Hl. unfold V_LENGTH. lia. }
  constructor.
  - rewrite En. exact Hn.
  - rewrite El. exact Hl.
  - apply dma_transfer_words, Hw.
Qed.

Lemma transmitted_buffer_puts text :
  transmitted (map (buffer_put SendBuffer) text) = [].
Proof. induction text as [|c text IH]; [reflexivity|exact IH]. Qed.

(** X8: from a conversion to the wire: if the send buffer has room for
    14 bytes per sample word and 2 more, the line that [adc1_2_isr] prints
    is no longer than that, is queued behind what the buffer held, and the
    following transmit-empty interrupts (all of them deliverable) send the
    old contents and then the line, byte for byte, emptying the buffer. *)
Theorem conversion_line_is_transmitted (samples : list Z) (s : system) :
  machine_ok (cpu s) ->
  dma_channel1 (trace (cpu s)) = dma_armed ->
  Buffer.wf (send_buffer (cpu s)) ->
  Forall is_byte (Buffer.contents (send_buffer (cpu s))) ->
  14 * (n_conv (cpu s) ÷ 2) + 2 <= Buffer.free (send_buffer (cpu s)) ->
  let s1 := step (AdcEoc samples) s in
  let line := adc_line (cpu s1) in
  let queue := Buffer.contents (send_buffer (cpu s)) ++ line in
  let es := replicate (length queue) (UsartIrq false 0 true) in
  Z.of_nat (length line) <= 14 * (n_conv (cpu s) ÷ 2) + 2
  /\ Buffer.contents (send_buffer (cpu s1)) = queue
  /\ admissible es s1 = true
  /\ transmitted (trace (cpu (run es s1))) = transmitted (trace (cpu s)) ++ queue
  /\ Buffer.contents (send_buffer (cpu (run es s1))) = [].
Proof.
  intros Hok Hdma Hwf Hbytes Hroom s1 line queue es.
  pose proof (dma_transfer_ok samples _ Hok Hdma) as [Hn Hl Hw].
  destruct (dma_transfer_frame samples (cpu s)) as (En & Es & _).
  set (st := dma_transfer samples (cpu s)) in *.
  assert (cpu s1 = adc1_2_isr st) as Hs1 by reflexivity.
  assert (adc1_2_isr st =
          mkMachine (v st) (n_conv st)
            (fold_left Buffer.put (adc_line st) (send_buffer st))
            (receive_buffer st) (n_conv st ÷ 2) (usart1_isr_data st)
            (trace st ++ map (buffer_put SendBuffer) (adc_line st) ++
               dma_setup_calls ++ [usart_enable_tx_interrupt USART1])) as Hspec.
  { apply adc1_2_isr_spec; [exact Hn| |apply Forall_take, Hw].
    rewrite Hl. change V_LENGTH with (Z.to_nat 128).
    rewrite Z.quot_div_nonneg by lia.
    apply Z2Nat.inj_le; [apply Z.div_pos; lia|lia|].
    apply Z.div_le_upper_bound; lia. }
  assert (line = adc_line st) as Hline.
  { unfold line, adc_line. rewrite Hs1, Hspec. reflexivity. }
  pose proof (adc_line_length st (proj1 Hn)) as Hlen.
  rewrite En in Hlen. rewrite <- Hline in Hlen.
  destruct (puts_contents line (send_buffer (cpu s)) Hwf) as (Hwf1 & Hc1 & _);
    [lia|].
  assert (send_buffer (cpu s1) = fold_left Buffer.put line (send_buffer (cpu s)))
    as Hsb.
  { rewrite Hs1, Hspec, Hline, Es. reflexivity. }
  assert (transmitted (trace (cpu s1)) = transmitted (trace (cpu s))) as Htx.
  { rewrite Hs1, Hspec. cbn [trace].
    unfold st. rewrite trace_dma_transfer, !transmitted_app, transmitted_buffer_puts.
    cbn. rewrite app_nil_r. reflexivity. }
  destruct (run_drains queue s1) as (Hadm & Ht & _ & _ & Hnil).
  - rewrite Hsb. exact Hwf1.
  - rewrite Hsb. exact Hc1.
  - apply Forall_app. split; [exact Hbytes|].
    rewrite Hline. apply adc_line_bytes.
  - rewrite Hs1. apply tx_interrupt_enabled_adc1_2_isr.
  - split; [exact Hlen|]. split; [rewrite Hsb; exact Hc1|].
    split; [exact Hadm|]. split; [rewrite <- Htx; exact Ht|exact Hnil].
Qed.

Lemma conversion_line_is_transmitted_witness :
  let s := mkSystem (dma_setup (do_buffer_init SendBuffer BUFFER_SIZE reset)) 0 in
  let s1 := step (AdcEoc [0x00010002; 0x00030004; 0x00050006; 0x00070008]) s in
  let line := adc_line (cpu s1) in
  let queue := Buffer.contents (send_buffer (cpu s)) ++ line in
  let es := replicate (length queue) (UsartIrq false 0 true) in
  Z.of_nat (length line) <= 14 * (n_conv (cpu s) ÷ 2) + 2
  /\ Buffer.contents (send_buffer (cpu s1)) = queue
  /\ admissible es s1 = true
  /\ transmitted (trace (cpu (run es s1))) = transmitted (trace (cpu s)) ++ queue
  /\ Buffer.contents (send_buffer (cpu (run es s1))) = [].
Proof.
  apply (conversion_line_is_transmitted
           [0x00010002; 0x00030004; 0x00050006; 0x00070008]
           (mkSystem (dma_setup (do_buffer_init SendBuffer BUFFER_SIZE reset)) 0)).
  - constructor.
    + cbn. lia.
    + reflexivity.
    + apply Forall_replicate. unfold is_word. lia.
  - reflexivity.
  - apply (wf_init BUFFER_SIZE). unfold BUFFER_SIZE. lia.
  - apply Forall_nil_2.
  - vm_compute. discriminate.
Defined.

(** ** The loops of the banner *)

Lemma for_i_fill (f : Z -> Z) k fuel : forall i a,
  0 <= i <= k -> k <= 65535 ->
  (Z.to_nat (k - i) <= fuel)%nat ->
  (Z.to_nat k <= length a)%nat ->
  for_i fuel i (fun _ : list Z => k) (fun i a => <[Z.to_nat i := f i]> a) a =
  take (Z.to_nat i) a ++ map f (seqZ i (k - i)) ++ drop (Z.to_nat k) a.
Proof.
  induction fuel as [|fuel IH]; intros i a Hi Hk Hfuel Hlen.
  - assert (i = k) as -> by lia. rewrite Z.sub_diag. cbn [for_i seqZ map app].
    symmetry. apply take_drop.
  - cbn [for_i]. destruct (Z.ltb_spec i k) as [Hlt|Hge].
    + rewrite uint16_small by lia.
      rewrite IH; [|lia|lia|lia|rewrite length_insert; lia].
      rewrite (seqZ_cons i (k - i)) by lia. cbn [map].
      replace (Z.to_nat (i + 1)) with (S (Z.to_nat i)) by lia.
      rewrite (take_S_r _ _ (f i)) by (apply list_lookup_insert_eq; lia).
      rewrite take_insert_ge by lia. rewrite drop_insert_lt by lia.
      rewrite <- app_assoc. cbn [app].
      replace (Z.pred (k - i)) with (k - (i + 1)) by lia.
      replace (Z.succ i) with (i + 1) by lia. reflexivity.
    + assert (i = k) as -> by lia. rewrite Z.sub_diag. cbn [seqZ map app].
      symmetry. apply take_drop.
Qed.

Lemma map_seqZ_ext (f g : Z -> Z) m n :
  (forall j, m <= j < m + n -> f j = g j) -> map f (seqZ m n) = map g (seqZ m n).
Proof.
  intros H. apply map_ext_in. intros j Hj.
  apply list_elem_of_In, elem_of_seqZ in Hj. apply H. lia.
Qed.

Lemma fill_channels (f : Z -> Z) k a :
  0 <= k <= 127 -> (Z.to_nat k <= length a)%nat ->
  for_i MAIN_ROUNDS 0 (fun _ : list Z => k) (fun i a => <[Z.to_nat i := f i]> a) a =
  map f (seqZ 0 k) ++ drop (Z.to_nat k) a.
Proof.
  intros Hk Hlen. rewrite for_i_fill; [|lia|lia|unfold MAIN_ROUNDS; lia|exact Hlen].
  rewrite Z.sub_0_r. reflexivity.
Qed.

Lemma clear_loop fuel : forall i st,
  for_i fuel i (fun st => n_conv st ÷ 2)
    (fun i st => set_v (<[Z.to_nat i := 0]> (v st)) st) st =
  set_v (for_i fuel i (fun _ : list Z => n_conv st ÷ 2)
           (fun i a => <[Z.to_nat i := 0]> a) (v st)) st.
Proof.
  induction fuel as [|fuel IH]; intros i st.
  - cbn [for_i]. unfold set_v. symmetry. apply machine_eta.
  - cbn [for_i]. destruct (i <? n_conv st ÷ 2).
    + rewrite IH. reflexivity.
    + unfold set_v. symmetry. apply machine_eta.
Qed.


(** ** The banner *)

Lemma chr_byte a : is_byte (chr a).
Proof.
  unfold is_byte, chr. pose proof (Ascii.N_ascii_bounded a). lia.
Qed.

Lemma cstring_bytes s : Forall is_byte (cstring s).
Proof.
  induction s as [|a s IH]; [constructor|].
  cbn [cstring]. constructor; [apply chr_byte|exact IH].
Qed.

Lemma puts_frame text st :
  v (puts text st) = v st
  /\ n_conv (puts text st) = n_conv st
  /\ send_buffer (puts text st) =
       fold_left Buffer.put (map uint8 text) (send_buffer st)
  /\ trace (puts text st) =
       trace st ++ map (buffer_put SendBuffer) (map uint8 text).
Proof. rewrite puts_spec. done. Qed.

Lemma v_puts text st : v (puts text st) = v st.
Proof. apply puts_frame. Qed.

Lemma n_conv_puts text st : n_conv (puts text st) = n_conv st.
Proof. apply puts_frame. Qed.

Lemma send_buffer_puts text st :
  send_buffer (puts text st) = fold_left Buffer.put (map uint8 text) (send_buffer st).
Proof. apply puts_frame. Qed.

Lemma trace_puts text st :
  trace (puts text st) = trace st ++ map (buffer_put SendBuffer) (map uint8 text).
Proof. apply puts_frame. Qed.

Lemma v_hw c st : v (hw c st) = v st.
Proof. reflexivity. Qed.

Lemma n_conv_hw c st : n_conv (hw c st) = n_conv st.
Proof. reflexivity. Qed.

Lemma set_v_frame x st :
  v (set_v x st) = x /\ n_conv (set_v x st) = n_conv st
  /\ send_buffer (set_v x st) = send_buffer st /\ trace (set_v x st) = trace st.
Proof. done. Qed.

Lemma field_range reg shift :
  0 <= (reg / 2 ^ shift) mod 32 < 32.
Proof. apply Z.mod_pos_bound. lia. Qed.

Lemma print_field_puts r value shift st :
  0 <= shift ->
  print_field r value shift st =
  puts (decimal_text ((uint32 value / 2 ^ shift) mod 32))
       (hw (read_register r (uint32 value)) st).
Proof.
  intros Hs. unfold print_field. rewrite seq_cmd_apply.
  assert (0 <= uint32 value) as Hv by (apply Z.mod_pos_bound; lia).
  rewrite Z.shiftr_div_pow2 by exact Hs.
  rewrite Z.rem_mod_nonneg; [|apply Z.div_pos; lia|lia].
  pose proof (field_range (uint32 value) shift) as Hf.
  rewrite int32_small by lia.
  apply usart_print_int_puts. lia.
Qed.

Lemma field_text_length x : 0 <= x < 32 -> (length (decimal_text x) <= 3)%nat.
Proof.
  intros Hx. unfold decimal_text, decimal_digits.
  destruct (Z.ltb_spec x 0) as [|_]; [lia|].
  destruct (Z.eqb_spec x 0) as [|_]; [cbn; lia|].
  rewrite length_app, length_app, length_reverse. cbn [length].
  pose proof (lsb_digits_length_bound PRINT_BUFFER (Z.abs x) 2) as H.
  change (10 ^ Z.of_nat 2) with 100 in H.
  specialize (H ltac:(lia)). lia.
Qed.

Lemma sqr3_fields_length reg : (length (sqr3_fields reg) <= 12)%nat.
Proof.
  unfold sqr3_fields. cbn [flat_map]. rewrite !length_app. cbn [length].
  pose proof (field_text_length _ (field_range reg 0)).
  pose proof (field_text_length _ (field_range reg 5)).
  pose proof (field_text_length _ (field_range reg 10)).
  pose proof (field_text_length _ (field_range reg 15)).
  lia.
Qed.

Lemma sqr3_fields_bytes reg : Forall is_byte (sqr3_fields reg).
Proof.
  unfold sqr3_fields. cbn [flat_map].
  repeat (apply Forall_app; split; [apply decimal_text_bytes|]). constructor.
Qed.

Lemma banner_length sqr1 sqr2 : (length (banner sqr1 sqr2) <= 95)%nat.
Proof.
  unfold banner. rewrite !length_app.
  pose proof (sqr3_fields_length sqr1). pose proof (sqr3_fields_length sqr2).
  change (length greeting) with 33%nat.
  change (length (cstring "ADC1_SQR3 fields ")) with 17%nat.
  change (length (cstring "ADC2_SQR3 fields ")) with 17%nat.
  cbn [length]. lia.
Qed.

Lemma banner_bytes sqr1 sqr2 : Forall is_byte (banner sqr1 sqr2).
Proof.
  unfold banner, greeting.
  repeat first
    [ apply cstring_bytes | apply sqr3_fields_bytes
    | apply Forall_app; split
    | apply Forall_cons_2; [split; [vm_compute; discriminate|reflexivity]|]
    | apply Forall_nil_2 ].
Qed.

Lemma trace_set_v x st : trace (set_v x st) = trace st.
Proof. reflexivity. Qed.

Lemma send_buffer_set_v x st : send_buffer (set_v x st) = send_buffer st.
Proof. reflexivity. Qed.

Lemma n_conv_set_v x st : n_conv (set_v x st) = n_conv st.
Proof. reflexivity. Qed.

Lemma v_set_v x st : v (set_v x st) = x.
Proof. reflexivity. Qed.

Ltac nonzero_text :=
  repeat (apply Forall_cons_2; [discriminate|]); apply Forall_nil_2.

Ltac byte_text :=
  repeat first
    [ apply decimal_text_bytes | apply cstring_bytes
    | apply Forall_app; split
    | apply Forall_cons_2; [split; [vm_compute; discriminate|reflexivity]|]
    | apply Forall_nil_2 ].

(** [main_banner] as a sequence of [puts], calls and one update of [v]. *)
Ltac banner_steps :=
  unfold main_banner; cbv zeta; fold greeting;
  rewrite !seq_cmd_apply;
  rewrite !print_field_puts by lia;
  rewrite !usart_print_string_puts by (first [apply greeting_nonzero|nonzero_text]);
  rewrite clear_loop.

Lemma main_banner_send_buffer channel_array sqr1 sqr2 st :
  send_buffer (main_banner channel_array sqr1 sqr2 st) =
    fold_left Buffer.put (banner (uint32 sqr1) (uint32 sqr2)) (send_buffer st)
  /\ pushed (trace (main_banner channel_array sqr1 sqr2 st)) =
       pushed (trace st) ++ banner (uint32 sqr1) (uint32 sqr2).
Proof.
  banner_steps. split.
  - repeat first [rewrite send_buffer_puts | rewrite send_buffer_hw
                 | rewrite send_buffer_set_v].
    rewrite !map_uint8_bytes by byte_text.
    rewrite <- !fold_left_app.
    unfold banner, sqr3_fields. cbn [flat_map].
    rewrite ?app_nil_r, <- ?app_assoc. reflexivity.
  - repeat first [rewrite trace_puts | rewrite trace_hw | rewrite trace_set_v].
    rewrite !map_uint8_bytes by byte_text.
    rewrite !pushed_app, !pushed_buffer_put.
    unfold banner, sqr3_fields. cbn [flat_map pushed omap].
    rewrite ?app_nil_r, <- ?app_assoc. reflexivity.
Qed.

(** X9: the text [main] queues before its loop is the greeting followed by
    the four 5-bit fields of ADC1_SQR3 and of ADC2_SQR3 in decimal, each
    group on a line of its own; it is at most 95 bytes long, so a send
    buffer with that much room takes all of it in order. *)
Theorem main_banner_fits_send_buffer
    (channel_array : list Z) (sqr1 sqr2 : Z) (st : machine) :
  Buffer.wf (send_buffer st) ->
  95 <= Buffer.free (send_buffer st) ->
  let st' := main_banner channel_array sqr1 sqr2 st in
  let text := banner (uint32 sqr1) (uint32 sqr2) in
  pushed (trace st') = pushed (trace st) ++ text
  /\ (length text <= 95)%nat
  /\ Buffer.wf (send_buffer st')
  /\ Buffer.contents (send_buffer st') = Buffer.contents (send_buffer st) ++ text
  /\ Buffer.free (send_buffer st') =
       Buffer.free (send_buffer st) - Z.of_nat (length text).
Proof.
  intros Hwf Hroom st' text.
  destruct (main_banner_send_buffer channel_array sqr1 sqr2 st) as (Hsb & Hp).
  pose proof (banner_length (uint32 sqr1) (uint32 sqr2)) as Hlen.
  fold text in Hsb, Hp, Hlen. fold st' in Hsb, Hp.
  split; [exact Hp|]. split; [exact Hlen|].
  rewrite Hsb. apply puts_contents; [exact Hwf|lia].
Qed.

Lemma main_banner_fits_send_buffer_witness :
  let st := do_buffer_init SendBuffer BUFFER_SIZE reset in
  let st' := main_banner (replicate 16 0) 0x0C41 0x1CC5 st in
  let text := banner (uint32 0x0C41) (uint32 0x1CC5) in
  pushed (trace st') = pushed (trace st) ++ text
  /\ (length text <= 95)%nat
  /\ Buffer.wf (send_buffer st')
  /\ Buffer.contents (send_buffer st') = Buffer.contents (send_buffer st) ++ text
  /\ Buffer.free (send_buffer st') =
       Buffer.free (send_buffer st) - Z.of_nat (length text).
Proof.
  apply (main_banner_fits_send_buffer (replicate 16 0) 0x0C41 0x1CC5
           (do_buffer_init SendBuffer BUFFER_SIZE reset)).
  - apply (wf_init BUFFER_SIZE). unfold BUFFER_SIZE. lia.
  - vm_compute. discriminate.
Defined.

Lemma sequence_free_puts text :
  Forall (fun c => is_sequence c = false) (map (buffer_put SendBuffer) text).
Proof. induction text as [|c text IH]; [constructor|]. constructor; [done|exact IH]. Qed.

Lemma seqZ_channels k :
  0 <= k <= 127 -> map (fun i => uint8 i) (seqZ 0 k) = seqZ 0 k.
Proof.
  intros Hk. rewrite (map_seqZ_ext _ id); [apply list_fmap_id|].
  intros j Hj. unfold id. apply uint8_small. lia.
Qed.

Lemma seqZ_channels_high k :
  0 <= k <= 127 -> map (fun i => uint8 (i + k)) (seqZ 0 k) = seqZ k k.
Proof.
  intros Hk. rewrite (map_seqZ_ext _ (Z.add k)).
  - change (map (Z.add k) (seqZ 0 k)) with (Z.add k <$> seqZ 0 k).
    rewrite fmap_add_seqZ, Z.add_0_r. reflexivity.
  - intros j Hj. rewrite uint8_small by lia. lia.
Qed.

(** X10: for every value of [n_conv], with [k = n_conv/2] no larger than
    the channel array and the sample store, [main] gives ADC1 the channels
    0 .. k-1 and ADC2 the channels k .. 2k-1 right after the greeting,
    programs no other sequence, zeroes the first [k] words of the sample
    store and leaves the rest of it and [n_conv] unchanged. *)
Theorem main_banner_programs_sequences
    (channel_array : list Z) (sqr1 sqr2 : Z) (st : machine) :
  0 <= n_conv st < 256 ->
  let k := n_conv st ÷ 2 in
  (Z.to_nat k <= length channel_array)%nat ->
  (Z.to_nat k <= length (v st))%nat ->
  let st' := main_banner channel_array sqr1 sqr2 st in
  (exists calls,
     trace st' =
       trace st ++ map (buffer_put SendBuffer) greeting ++
       [adc_set_regular_sequence ADC1 k (seqZ 0 k ++ drop (Z.to_nat k) channel_array);
        adc_set_regular_sequence ADC2 k (seqZ k k ++ drop (Z.to_nat k) channel_array)]
       ++ calls
     /\ Forall (fun c => is_sequence c = false) calls)
  /\ v st' = replicate (Z.to_nat k) 0 ++ drop (Z.to_nat k) (v st)
  /\ n_conv st' = n_conv st.
Proof.
  intros Hn k Ha Hv st'.
  assert (0 <= k <= 127) as Hk.
  { unfold k. rewrite Z.quot_div_nonneg by lia. split.
    - apply Z.div_pos; lia.
    - apply Z.lt_succ_r. apply Z.div_lt_upper_bound; lia. }
  subst st'. banner_steps.
  repeat first [rewrite n_conv_puts | rewrite n_conv_hw | rewrite n_conv_set_v].
  repeat first [rewrite v_puts | rewrite v_hw | rewrite v_set_v].
  fold k.
  rewrite (fill_channels (fun i => uint8 i) k channel_array Hk Ha).
  rewrite seqZ_channels by exact Hk.
  rewrite (fill_channels (fun i => uint8 (i + k)) k) by
    first [exact Hk | rewrite length_app, length_seqZ, length_drop; lia].
  rewrite (fill_channels (fun _ => 0) k (v st) Hk Hv).
  rewrite seqZ_channels_high by exact Hk.
  rewrite (drop_app_length' (seqZ 0 k)) by (rewrite length_seqZ; reflexivity).
  split; [|split].
  - repeat first [rewrite trace_puts | rewrite trace_hw | rewrite trace_set_v].
    rewrite greeting_bytes, <- !app_assoc. cbn [app].
    eexists. split; [reflexivity|].
    repeat first
      [ apply sequence_free_puts
      | apply Forall_app; split
      | apply Forall_cons_2; [reflexivity|]
      | apply Forall_nil_2 ].
  - rewrite (const_fmap _ _ 0) by reflexivity. rewrite length_seqZ. reflexivity.
  - reflexivity.
Qed.

Lemma main_banner_programs_sequences_witness :
  let st := do_buffer_init SendBuffer BUFFER_SIZE reset in
  let st' := main_banner (replicate 16 0xAA) 0 0 st in
  (exists calls,
     trace st' =
       trace st ++ map (buffer_put SendBuffer) greeting ++
       [adc_set_regular_sequence ADC1 4 ([0; 1; 2; 3] ++ replicate 12 0xAA);
        adc_set_regular_sequence ADC2 4 ([4; 5; 6; 7] ++ replicate 12 0xAA)]
       ++ calls
     /\ Forall (fun c => is_sequence c = false) calls)
  /\ v st' = replicate 4 0 ++ drop 4 (v st)
  /\ n_conv st' = n_conv st.
Proof.
  apply (main_banner_programs_sequences (replicate 16 0xAA) 0 0
           (do_buffer_init SendBuffer BUFFER_SIZE reset)).
  - cbn. lia.
  - vm_compute. lia.
  - vm_compute. lia.
Defined.

(** ** The state in which [main] reaches its banner *)

Lemma logs_hw (P : call -> Prop) c : P c -> logs P (hw c).
Proof. intros Hc. exists [c]. split; [constructor; [done|constructor]|reflexivity]. Qed.

Lemma logs_skip P : logs P skip.
Proof. exists []. split; [constructor|]. intros st. symmetry. apply logged_nil. Qed.

Lemma logs_logged (P : call -> Prop) calls : Forall P calls -> logs P (logged calls).
Proof. intros H. exists calls. done. Qed.

Lemma logs_seq P f g : logs P f -> logs P g -> logs P (f ;; g).
Proof.
  intros (a & Ha & Hf) (b & Hb & Hg). exists (a ++ b). split.
  - apply Forall_app. done.
  - intros st. rewrite seq_cmd_apply, Hf, Hg. apply logged_logged.
Qed.

Ltac logs_chain solve_call :=
  repeat match goal with
    | |- logs _ (_ ;; _) => apply logs_seq
    | |- logs _ (hw _) => apply logs_hw; solve_call
    | |- logs _ (nop_delay _) => apply logs_skip
    | |- logs _ skip => apply logs_skip
    end.

Lemma logs_usart_setup : logs inert (clock_setup ;; gpio_setup ;; usart_setup).
Proof.
  unfold clock_setup, gpio_setup, usart_setup.
  logs_chain ltac:(split; reflexivity).
Qed.

Lemma quiet_polls a n :
  Forall (fun c => inert c /\ dma_neutral c) (calibration_polls a n).
Proof.
  unfold calibration_polls. apply Forall_app. split.
  - apply Forall_replicate. split; [split; reflexivity|intros r; reflexivity].
  - constructor; [|constructor]. split; [split; reflexivity|intros r; reflexivity].
Qed.

Lemma logs_adc_setup n1 n2 :
  logs (fun c => inert c /\ dma_neutral c)
    (adc_setup_adc1 ;; logged (calibration_polls ADC1 n1) ;;
     adc_setup_adc2 ;; logged (calibration_polls ADC2 n2)).
Proof.
  unfold adc_setup_adc1, adc_setup_adc2.
  repeat match goal with
    | |- logs _ (_ ;; _) => apply logs_seq
    | |- logs _ (hw _) =>
        apply logs_hw; split; [split; reflexivity|intros r; reflexivity]
    | |- logs _ (nop_delay _) => apply logs_skip
    | |- logs _ (logged _) => apply logs_logged, quiet_polls
    end.
Qed.

Lemma logs_timer_setup : logs (fun c => inert c /\ dma_neutral c) timer_setup.
Proof.
  unfold timer_setup.
  logs_chain ltac:(split; [split; reflexivity|intros r; reflexivity]).
Qed.

Lemma inert_calls calls :
  Forall inert calls -> pushed calls = [] /\ transmitted calls = [].
Proof.
  induction 1 as [|c calls [Hp Ht] _ [IHp IHt]]; [done|].
  change (c :: calls) with ([c] ++ calls).
  rewrite pushed_app, transmitted_app, Hp, Ht, IHp, IHt. done.
Qed.

Lemma dma_setup_logged st : dma_setup st = logged dma_setup_calls st.
Proof. apply dma_setup_spec. Qed.

(** The set-up part of [main] as one list of calls: those up to
    [dma_setup], the calls of [dma_setup], those that follow it and leave
    the DMA channel alone, then the two buffers and the transmit
    interrupt. *)
Lemma main_init_logged busy1 busy2 fuel st0 st1 :
  main_init busy1 busy2 fuel st0 = Some st1 ->
  exists pre post,
    Forall inert pre
    /\ Forall (fun c => inert c /\ dma_neutral c) post
    /\ st1 =
         hw (usart_enable_tx_interrupt USART1)
           (do_buffer_init ReceiveBuffer BUFFER_SIZE
              (do_buffer_init SendBuffer BUFFER_SIZE
                 (logged (pre ++ dma_setup_calls ++ post) st0))).
Proof.
  intros H. unfold main_init in H.
  destruct (adc_setup busy1 busy2 fuel
              ((clock_setup ;; gpio_setup ;; usart_setup ;; dma_setup) st0))
    as [st'|] eqn:Hadc; [|discriminate].
  injection H as <-.
  apply adc_setup_inv in Hadc as (n1 & n2 & ->).
  destruct logs_usart_setup as (c1 & F1 & H1).
  destruct (logs_adc_setup n1 n2) as (c2 & F2 & H2).
  destruct logs_timer_setup as (c3 & F3 & H3).
  exists c1, (c2 ++ c3). split; [exact F1|].
  split; [apply Forall_app; split; assumption|].
  assert ((clock_setup ;; gpio_setup ;; usart_setup ;; dma_setup) st0 =
          logged (c1 ++ dma_setup_calls) st0) as ->.
  { specialize (H1 st0). rewrite !seq_cmd_apply in H1.
    rewrite !seq_cmd_apply, H1, dma_setup_logged. apply logged_logged. }
  rewrite H2, !seq_cmd_apply, H3, !logged_logged.
  rewrite <- !app_assoc. reflexivity.
Qed.

(** After the set-up the transmitter is ready and has sent nothing. *)
Lemma main_init_transmitter busy1 busy2 fuel st0 st1 :
  main_init busy1 busy2 fuel st0 = Some st1 ->
  tx_interrupt_enabled (trace st1) = true
  /\ send_buffer st1 = Buffer.init BUFFER_SIZE
  /\ transmitted (trace st1) = transmitted (trace st0).
Proof.
  intros H. apply main_init_logged in H as (pre & post & Fpre & Fpost & ->).
  run_cmd. split; [|split].
  - rewrite tx_interrupt_enabled_app. reflexivity.
  - reflexivity.
  - apply inert_calls in Fpre as [_ Tpre].
    assert (Forall inert post) as Ipost.
    { eapply Forall_impl; [exact Fpost|]. intros c [Hi _]. exact Hi. }
    apply inert_calls in Ipost as [_ Tpost].
    rewrite !transmitted_app, Tpre, Tpost. cbn. rewrite !app_nil_r. reflexivity.
Qed.

(** X11: when the set-up part of [main] returns, DMA1 channel 1 is enabled
    with ADC1's data register as source, the sample store as destination
    and 64 items to go, the transmit interrupt is enabled, both ring
    buffers are freshly initialised with [BUFFER_SIZE], and nothing was
    queued, sent or changed in the sample store or [n_conv]. *)
Theorem main_init_boot_state
    (busy1 busy2 : nat -> bool) (fuel : nat) (st0 st1 : machine) :
  main_init busy1 busy2 fuel st0 = Some st1 ->
  dma_channel1 (trace st1) = dma_armed
  /\ tx_interrupt_enabled (trace st1) = true
  /\ send_buffer st1 = Buffer.init BUFFER_SIZE
  /\ receive_buffer st1 = Buffer.init BUFFER_SIZE
  /\ pushed (trace st1) = pushed (trace st0)
  /\ transmitted (trace st1) = transmitted (trace st0)
  /\ v st1 = v st0
  /\ n_conv st1 = n_conv st0.
Proof.
  intros H. apply main_init_logged in H as (pre & post & Fpre & Fpost & ->).
  run_cmd.
  apply inert_calls in Fpre as [Ppre Tpre].
  assert (Forall inert post /\ Forall dma_neutral post) as [Ipost Dpost].
  { split; (eapply Forall_impl; [exact Fpost|]); intros c [Hi Hd]; assumption. }
  apply inert_calls in Ipost as [Ppost Tpost].
  repeat split.
  - rewrite <- !app_assoc.
    rewrite (app_assoc (trace st0)), (app_assoc _ dma_setup_calls).
    rewrite (app_assoc post), (app_assoc (post ++ _)).
    rewrite dma_channel1_neutral.
    + rewrite dma_channel1_app. reflexivity.
    + repeat (apply Forall_app; split); try assumption;
        (constructor; [intros r; reflexivity|constructor]).
  - rewrite tx_interrupt_enabled_app. reflexivity.
  - rewrite !pushed_app, Ppre, Ppost. cbn. rewrite !app_nil_r. reflexivity.
  - rewrite !transmitted_app, Tpre, Tpost. cbn. rewrite !app_nil_r. reflexivity.
Qed.

Lemma main_init_boot_state_witness :
  exists st1,
    main_init (fun k => (k <? 3)%nat) (fun _ => false) 10 reset = Some st1
    /\ dma_channel1 (trace st1) = dma_armed
    /\ tx_interrupt_enabled (trace st1) = true
    /\ send_buffer st1 = Buffer.init BUFFER_SIZE
    /\ receive_buffer st1 = Buffer.init BUFFER_SIZE.
Proof.
  eexists. split; [reflexivity|].
  pose proof (main_init_boot_state (fun k => (k <? 3)%nat) (fun _ => false) 10
                reset _ eq_refl) as (H1 & H2 & H3 & H4 & _).
  repeat split; assumption.
Defined.

(** ** The receive buffer *)

Lemma adc1_2_isr_receive_buffer st :
  receive_buffer (adc1_2_isr st) = receive_buffer st.
Proof.
  destruct (adc1_2_isr_alike st st) as (text & i & H & _); try done.
  rewrite H, adc1_2_isr_tail. reflexivity.
Qed.

Lemma step_receive_buffer e s :
  receive_buffer (cpu (step e s)) =
  match e with
  | UsartIrq true rx _ => Buffer.put (receive_buffer (cpu s)) (uint8 rx)
  | _ => receive_buffer (cpu s)
  end.
Proof.
  destruct e as [cc1if|samples|rxne rx txe].
  - cbn [step]. unfold main_loop_poll.
    destruct cc1if; [destruct (uint16 (main_i s + 1) <? 500)|]; reflexivity.
  - cbn [step cpu]. rewrite seq_cmd_apply, adc1_2_isr_receive_buffer.
    apply dma_transfer_frame.
  - cbn [step cpu]. rewrite usart1_isr_spec. destruct rxne; reflexivity.
Qed.

Lemma run_receive_buffer es : forall s,
  Buffer.wf (receive_buffer (cpu s)) ->
  Buffer.wf (receive_buffer (cpu (run es s)))
  /\ Buffer.contents (receive_buffer (cpu (run es s))) =
       Buffer.contents (receive_buffer (cpu s)) ++
       take (Z.to_nat (Buffer.free (receive_buffer (cpu s)))) (received es).
Proof.
  induction es as [|e es IH]; intros s Hwf.
  - cbn. rewrite take_nil, app_nil_r. done.
  - change (run (e :: es) s) with (run es (step e s)).
    pose proof (step_receive_buffer e s) as He.
    assert (received (e :: es) =
            match e with
            | UsartIrq true rx _ => uint8 rx :: received es
            | _ => received es
            end) as Hr by (destruct e as [| |[]]; reflexivity).
    rewrite Hr.
    destruct e as [cc1if|samples|[] rx txe];
      try (match goal with
           | |- context [run es ?s'] =>
               destruct (IH s') as (Hwf' & Hc); [rewrite He; exact Hwf|];
               rewrite He in Hc; done
           end).
    cbv beta iota in He.
    pose proof (free_range _ Hwf) as Hfree.
    destruct (Z.eq_dec (Buffer.free (receive_buffer (cpu s))) 0) as [Hfull|Hroom].
    + rewrite (put_full _ _ Hwf Hfull) in He.
      destruct (IH (step (UsartIrq true rx txe) s)) as (Hwf' & Hc);
        [rewrite He; exact Hwf|].
      rewrite He in Hc. rewrite Hfull in *. done.
    + destruct (IH (step (UsartIrq true rx txe) s)) as (Hwf' & Hc);
        [rewrite He; apply wf_put, Hwf|].
      split; [exact Hwf'|]. rewrite Hc, He.
      rewrite contents_put, free_put by (assumption || lia).
      replace (Z.to_nat (Buffer.free (receive_buffer (cpu s))))
        with (S (Z.to_nat (Buffer.free (receive_buffer (cpu s)) - 1))) by lia.
      cbn [take]. rewrite <- app_assoc. reflexivity.
Qed.

(** X12: nothing in the running program takes bytes out of the receive
    buffer: after any sequence of events it holds what it held before
    followed by the first received bytes that still fitted, in order of
    arrival; later bytes are dropped and the contents never exceed the
    capacity. *)
Theorem receive_buffer_keeps_first_bytes (es : list event) (s : system) :
  Buffer.wf (receive_buffer (cpu s)) ->
  let room := Z.to_nat (Buffer.free (receive_buffer (cpu s))) in
  Buffer.contents (receive_buffer (cpu (run es s))) =
    Buffer.contents (receive_buffer (cpu s)) ++ take room (received es)
  /\ Buffer.wf (receive_buffer (cpu (run es s)))
  /\ Z.of_nat (length (Buffer.contents (receive_buffer (cpu (run es s))))) <=
       Buffer.capacity (receive_buffer (cpu s)).
Proof.
  intros Hwf room.
  destruct (run_receive_buffer es s Hwf) as (Hwf' & Hc).
  split; [exact Hc|]. split; [exact Hwf'|].
  rewrite Hc, length_app, length_take.
  pose proof (contents_length _ Hwf) as Hlen.
  pose proof (free_range _ Hwf) as Hfree.
  unfold room, Buffer.free in *. lia.
Qed.

Lemma receive_buffer_keeps_first_bytes_witness :
  let s := mkSystem (do_buffer_init ReceiveBuffer 2 reset) 0 in
  let es := [UsartIrq true 0x141 false; TimerPoll true; UsartIrq true 0x42 true;
             AdcEoc [7]; UsartIrq true 0x43 false] in
  Buffer.contents (receive_buffer (cpu (run es s))) = [0x41; 0x42].
Proof.
  apply (proj1 (receive_buffer_keeps_first_bytes
                  [UsartIrq true 0x141 false; TimerPoll true; UsartIrq true 0x42 true;
                   AdcEoc [7]; UsartIrq true 0x43 false]
                  (mkSystem (do_buffer_init ReceiveBuffer 2 reset) 0)
                  (wf_init 2 ltac:(lia)))).
Defined.

(** ** From start-up to the wire *)

Lemma main_banner_keeps_transmitter channel_array sqr1 sqr2 st :
  tx_interrupt_enabled (trace (main_banner channel_array sqr1 sqr2 st)) =
    tx_interrupt_enabled (trace st)
  /\ transmitted (trace (main_banner channel_array sqr1 sqr2 st)) =
       transmitted (trace st).
Proof.
  destruct (main_banner_inv channel_array sqr1 sqr2 st) as (calls & -> & Hn).
  assert (Forall tx_neutral (map (buffer_put SendBuffer) greeting ++ calls)) as H.
  { apply Forall_app. split; [|exact Hn].
    apply Forall_fmap, Forall_true. intros c. apply tx_neutral_buffer_put. }
  split.
  - apply tx_interrupt_enabled_neutral, H.
  - apply transmitted_neutral, H.
Qed.

(** X13: if no interrupt is served between the set-up of [main] and the
    end of its banner, the banner is in the send buffer in full, and as
    many transmit-empty interrupts as it has bytes (all deliverable) send
    exactly the banner and empty the buffer; one more disables the transmit
    interrupt. *)
Theorem banner_is_transmitted
    (busy1 busy2 : nat -> bool) (fuel : nat) (st0 st1 : machine)
    (channel_array : list Z) (sqr1 sqr2 : Z) :
  main_init busy1 busy2 fuel st0 = Some st1 ->
  let s := mkSystem (main_banner channel_array sqr1 sqr2 st1) 0 in
  let text := banner (uint32 sqr1) (uint32 sqr2) in
  let es := replicate (length text) (UsartIrq false 0 true) in
  Buffer.contents (send_buffer (cpu s)) = text
  /\ admissible es s = true
  /\ transmitted (trace (cpu (run es s))) = transmitted (trace st0) ++ text
  /\ Buffer.contents (send_buffer (cpu (run es s))) = []
  /\ tx_interrupt_enabled (trace (cpu (step (UsartIrq false 0 true) (run es s)))) =
       false.
Proof.
  intros Hinit s text es.
  destruct (main_init_transmitter _ _ _ _ _ Hinit) as (Hon & Hsb & Htx).
  destruct (main_banner_keeps_transmitter channel_array sqr1 sqr2 st1) as (Hon' & Htx').
  destruct (main_banner_send_buffer channel_array sqr1 sqr2 st1) as (Hbuf & _).
  fold text in Hbuf.
  pose proof (banner_length (uint32 sqr1) (uint32 sqr2)) as Hlen. fold text in Hlen.
  destruct (puts_contents text (send_buffer st1)) as (Hwf & Hc & _).
  { rewrite Hsb. apply (wf_init BUFFER_SIZE). unfold BUFFER_SIZE. lia. }
  { rewrite Hsb. change (Buffer.free (Buffer.init BUFFER_SIZE)) with 128. lia. }
  rewrite <- Hbuf in Hwf, Hc.
  rewrite Hsb in Hc. change (Buffer.contents (Buffer.init BUFFER_SIZE)) with (@nil Z) in Hc.
  cbn [app] in Hc.
  destruct (run_drains text s Hwf Hc (banner_bytes _ _)) as (Hadm & Ht & Hon2 & Hw & Hnil).
  { cbn [s cpu]. rewrite Hon'. exact Hon. }
  fold es in Hadm, Ht, Hon2, Hw, Hnil.
  split; [exact Hc|]. split; [exact Hadm|].
  split; [rewrite Ht; cbn [s cpu]; rewrite Htx', Htx; reflexivity|].
  split; [exact Hnil|].
  cbn [step cpu]. rewrite usart1_isr_spec, (get_empty_contents _ Hw Hnil).
  cbn [trace fst]. rewrite tx_interrupt_enabled_app. reflexivity.
Qed.

Lemma banner_is_transmitted_witness :
  exists st1,
    main_init (fun _ => false) (fun _ => false) 1 reset = Some st1
    /\ let s := mkSystem (main_banner (replicate 16 0) 0x0C41 0x1CC5 st1) 0 in
       let text := banner (uint32 0x0C41) (uint32 0x1CC5) in
       let es := replicate (length text) (UsartIrq false 0 true) in
       transmitted (trace (cpu (run es s))) = transmitted (trace reset) ++ text.
Proof.
  eexists. split; [reflexivity|].
  apply (banner_is_transmitted (fun _ => false) (fun _ => false) 1 reset _
           (replicate 16 0) 0x0C41 0x1CC5 eq_refl).
Defined.
